(** * OTE detection task of mmdetection: a shallow embedding

    The development follows the Python sources

    - [mmdet/apis/ote/apis/config/configuration_manager.py]
      (class [MMDetectionConfigManager]),
    - [mmdet/apis/ote/apis/detection/task.py]
      (class [MMObjectDetectionTask]),
    - [mmdet/apis/ote/extension/datasets/mmdataset.py]
      (function [get_annotation_mmdet_format]).

    Conventions.
    - Python [float]s and numpy floats are rationals ([Q]); rounding, NaN and
      infinities are outside the model.
    - A Python exception is a value of [exn]; code that may raise returns
      [res A]; methods that also mutate [self] or the file system run in the
      monad [SE] (state kept when an exception is raised, as in Python).
    - Calls into the wrapped frameworks (mmcv, mmdet, torch, sc_sdk, os) whose
      code is not part of the sources above are fields of the records
      [mmcv_api], [mmdet_api], [torch_api], [sc_sdk_api] and [os_api]; every
      definition and theorem is parametric in them.  [Config._merge_a_into_b],
      on which the composition of configuration files rests, is embedded from
      mmcv's definition. *)

From Stdlib Require Import ZArith QArith Qminmax Ascii String List Bool Lia.
From stdpp Require Import base option list strings gmap pretty.
Import ListNotations.

Open Scope Z_scope.
Open Scope string_scope.
Open Scope list_scope.

(** ** Python exceptions and fallible computations *)

Module Py.

(** The part of Python's exception hierarchy the sources can observe.
    [KeyboardInterrupt], [SystemExit] and [GeneratorExit] derive from
    [BaseException] only; every other class derives from [Exception]. *)
Inductive exn_class :=
| BaseException | KeyboardInterrupt | SystemExit | GeneratorExit
| Exception | ValueError | RuntimeError | TypeError | KeyError | IndexError
| AttributeError | UnboundLocalError | FileNotFoundError | FileExistsError.

(** [isinstance(ex, Exception)]: what [except Exception] catches. *)
Definition is_Exception (c : exn_class) : bool :=
  match c with
  | BaseException | KeyboardInterrupt | SystemExit | GeneratorExit => false
  | _ => true
  end.

(** An exception object: class, message and [__cause__] (set by
    [raise ... from ex]). *)
#[warnings="-register-all"]
Inductive exn :=
| PyErr (cls : exn_class) (msg : string) (cause : option exn).

Definition exn_cls (e : exn) : exn_class := let 'PyErr c _ _ := e in c.
Definition exn_msg (e : exn) : string := let 'PyErr _ m _ := e in m.
Definition exn_cause (e : exn) : option exn := let 'PyErr _ _ c := e in c.

(** [raise cls(msg) from ex] *)
Definition raise_from (cls : exn_class) (msg : string) (ex : exn) : exn :=
  PyErr cls msg (Some ex).

Inductive res (A : Type) :=
| Ok (a : A)
| Err (e : exn).
Arguments Ok {A} a.
Arguments Err {A} e.

Definition res_bind {A B} (m : res A) (f : A -> res B) : res B :=
  match m with
  | Ok a => f a
  | Err e => Err e
  end.

(** [for x in xs: acc = body(acc, x)], stopping at the first exception. *)
Fixpoint for_each {A S} (body : S -> A -> res S) (xs : list A) (acc : S) : res S :=
  match xs with
  | [] => Ok acc
  | x :: xs' => res_bind (body acc x) (for_each body xs')
  end.

(** [l.index(x)]: the first position of [x], [ValueError] when absent. *)
Fixpoint index_from (x : string) (l : list string) (i : Z) : res Z :=
  match l with
  | [] => Err (PyErr ValueError "x is not in list" None)
  | y :: l' => if String.eqb x y then Ok i else index_from x l' (i + 1)
  end.

Definition list_index (x : string) (l : list string) : res Z := index_from x l 0.

End Py.
Export Py.

Notation "'let*' x := e 'in' k" := (res_bind e (fun x => k))
  (at level 10, x pattern, e at level 100, k at level 200, only parsing).

(** ** The platform's data model (sc_sdk), as far as the sources read it *)

Record Label := { label_name : string }.

Record ScoredLabel := { sl_label : Label; probability : Q }.

(** [ScoredLabel.name] *)
Definition name (l : ScoredLabel) : string := label_name (sl_label l).

(** Shapes of an annotation; coordinates are relative to the image size. *)
Inductive Shape :=
| Box (x1 y1 x2 y2 : Q) (labels : list ScoredLabel)
| Ellipse (x1 y1 x2 y2 : Q) (labels : list ScoredLabel)
| Polygon (points : list (Q * Q)) (labels : list ScoredLabel).

Inductive Subset := NONE | TRAINING | VALIDATION | TESTING.

Record DatasetItem := {
  width : Z;
  height : Z;
  numpy : Z;                (* the pixel data, opaque here *)
  shapes : list Shape;      (* dataset_item.annotation.shapes *)
  subset : Subset
}.

Record Dataset := { ds_id : Z; ds_items : list DatasetItem }.

Definition Subset_eqb (a b : Subset) : bool :=
  match a, b with
  | NONE, NONE | TRAINING, TRAINING | VALIDATION, VALIDATION | TESTING, TESTING => true
  | _, _ => false
  end.

(** [dataset.get_subset(subset)] *)
Definition get_subset (d : Dataset) (s : Subset) : Dataset :=
  {| ds_id := ds_id d;
     ds_items := List.filter (fun it => Subset_eqb (subset it) s) (ds_items d) |}.

(** [dataset_item.append_shapes(shapes)] *)
Definition append_shapes (it : DatasetItem) (new : list Shape) : DatasetItem :=
  {| width := width it; height := height it; numpy := numpy it;
     shapes := shapes it ++ new; subset := subset it |}.

(** ** mmdataset.py: [get_annotation_mmdet_format] *)

(** The returned [dict(bboxes=..., labels=...)]: an (n, 4) array and an
    integer vector. *)
Record ann_info := { bboxes : list (list Q); ann_labels : list Z }.

(** The three loop variables; [is_empty_label] is unbound ([None]) until the
    first [Box] has been visited. *)
Record ann_loop := {
  gt_bboxes : list (list Q);
  gt_labels : list Z;
  is_empty_label : option bool
}.

(** One iteration of [for box in dataset_item.annotation.shapes] (lines 48-61). *)
Definition annotation_step (w h : Z) (label_list : list string)
    (st : ann_loop) (box : Shape) : res ann_loop :=
  match box with
  | Box x1 y1 x2 y2 labels =>
      let gt_bboxes' :=
        gt_bboxes st ++ [[x1 * inject_Z w; y1 * inject_Z h; x2 * inject_Z w; y2 * inject_Z h]%Q] in
      match labels with
      | label :: _ =>
          let* idx := list_index (name label) label_list in
          Ok {| gt_bboxes := gt_bboxes'; gt_labels := gt_labels st ++ [idx];
                is_empty_label := Some false |}
      | [] =>
          Ok {| gt_bboxes := gt_bboxes'; gt_labels := gt_labels st;
                is_empty_label := Some true |}
      end
  | _ => Ok st                     (* not isinstance(box, Box): continue *)
  end.

(** Lines 63-71.  [(len(gt_bboxes) == 1) and is_empty_label] reads
    [is_empty_label] only when the length test holds. *)
Definition annotation_result (st : ann_loop) : res ann_info :=
  let normal := {| bboxes := gt_bboxes st; ann_labels := gt_labels st |} in
  if (Z.of_nat (List.length (gt_bboxes st)) =? 1)%Z then
    match is_empty_label st with
    | Some true => Ok {| bboxes := [[0; 0; 0; 0]%Q]; ann_labels := [-1] |}
    | Some false => Ok normal
    | None => Err (PyErr UnboundLocalError "is_empty_label" None)
    end
  else Ok normal.

Definition get_annotation_mmdet_format (dataset_item : DatasetItem)
    (label_list : list string) : res ann_info :=
  let* st := for_each (annotation_step (width dataset_item) (height dataset_item) label_list)
               (shapes dataset_item)
               {| gt_bboxes := []; gt_labels := []; is_empty_label := None |} in
  annotation_result st.

(** ** Stateful methods: state and exceptions *)

(** A method of an object with state [S]: it returns the state it leaves
    behind together with its result or the exception it raised. *)
Definition SE (S A : Type) : Type := S -> S * res A.

Definition ret {S A} (a : A) : SE S A := fun s => (s, Ok a).

Definition bind {S A B} (m : SE S A) (f : A -> SE S B) : SE S B :=
  fun s => match m s with
           | (s', Ok a) => f a s'
           | (s', Err e) => (s', Err e)
           end.

Definition raise {S A} (e : exn) : SE S A := fun s => (s, Err e).
Definition get {S} : SE S S := fun s => (s, Ok s).
Definition modify {S} (f : S -> S) : SE S unit := fun s => (f s, Ok tt).

(** A computation without effect on the state. *)
Definition lift {S A} (r : res A) : SE S A := fun s => (s, r).

(** A method of a component [T] of the state [S]. *)
Definition zoom {S T A} (proj : S -> T) (upd : T -> S -> S) (m : SE T A) : SE S A :=
  fun s => let (t', r) := m (proj s) in (upd t' s, r).

(** [try: body except <catches> as ex: raise mk(ex)] *)
Definition try_reraise {S A} (body : SE S A) (catches : exn -> bool) (mk : exn -> exn) : SE S A :=
  fun s => match body s with
           | (s', Ok a) => (s', Ok a)
           | (s', Err ex) => if catches ex then (s', Err (mk ex)) else (s', Err ex)
           end.

Notation "'do*' x := e 'in' k" := (bind e (fun x => k))
  (at level 10, x pattern, e at level 100, k at level 200, only parsing).

(** [for x in xs: body(x)] *)
Fixpoint for_ {S A} (xs : list A) (body : A -> SE S unit) : SE S unit :=
  match xs with
  | [] => ret tt
  | x :: xs' => do* _ := body x in for_ xs' body
  end.

(** ** Python numbers of the configurable parameters *)

Inductive pynum := PInt (z : Z) | PFloat (q : Q).

(** [int(n)]: truncation toward zero. *)
Definition py_int (n : pynum) : Z :=
  match n with
  | PInt z => z
  | PFloat q => Z.quot (Qnum q) (Zpos (Qden q))
  end.

(** [float(n)] *)
Definition py_float (n : pynum) : Q :=
  match n with
  | PInt z => inject_Z z
  | PFloat q => q
  end.

(** [n > 0] *)
Definition py_gt0 (n : pynum) : bool :=
  match n with
  | PInt z => (0 <? z)%Z
  | PFloat q => negb (Qle_bool q 0)
  end.

(** ** mmcv configurations ([Config], [ConfigDict]) *)

(** Learning curves recorded by [OTELoggerHook]: per metric, the x and y
    values. *)
Definition Curves : Type := list (string * (list Q * list Q)).

(** Platform objects a configuration can hold besides plain data. *)
Inductive pyobj :=
| OLabel (l : Label)
| ODataset (d : Dataset)
| OCurves (c : Curves)          (* the task's learning curves, held by a hook *)
| OTimeMonitor.                 (* a [TimeMonitorCallback] *)

(** A configuration value.  A dict is the list of its items in insertion
    order; Python keeps the keys of a dict distinct ([wf]). *)
#[warnings="-register-all"]
Inductive cfg :=
| CNone
| CBool (b : bool)
| CInt (z : Z)
| CFloat (q : Q)
| CStr (s : string)
| CObj (o : pyobj)
| CList (l : list cfg)
| CDict (d : list (string * cfg)).

Definition cfg_of_num (n : pynum) : cfg :=
  match n with
  | PInt z => CInt z
  | PFloat q => CFloat q
  end.

Definition is_dict (c : cfg) : bool :=
  match c with CDict _ => true | _ => false end.

Section Dict.
Context {V : Type}.

(** [d.get(k)] *)
Fixpoint dict_get (k : string) (d : list (string * V)) : option V :=
  match d with
  | [] => None
  | (k', v) :: d' => if String.eqb k k' then Some v else dict_get k d'
  end.

(** [k in d] *)
Definition dict_has (k : string) (d : list (string * V)) : bool :=
  match dict_get k d with Some _ => true | None => false end.

(** [d[k] = v]: an existing key keeps its position, a new one goes last. *)
Fixpoint dict_set (k : string) (v : V) (d : list (string * V)) : list (string * V) :=
  match d with
  | [] => [(k, v)]
  | (k', v') :: d' =>
      if String.eqb k k' then (k, v) :: d' else (k', v') :: dict_set k v d'
  end.

(** [d.pop(k, default)], the dict it leaves behind. *)
Definition dict_pop (k : string) (d : list (string * V)) : list (string * V) :=
  List.filter (fun kv => negb (String.eqb k (fst kv))) d.

End Dict.

(** Truth value of a configuration value ([bool(v)]). *)
Definition truthy (c : cfg) : bool :=
  match c with
  | CNone => false
  | CBool b => b
  | CInt z => negb (z =? 0)%Z
  | CFloat q => negb (Qeq_bool q 0)
  | CStr s => negb (String.eqb s "")
  | CObj _ => true
  | CList l => match l with [] => false | _ => true end
  | CDict d => match d with [] => false | _ => true end
  end.

(** Python dicts have distinct keys, at every level. *)
Fixpoint wf (c : cfg) : bool :=
  match c with
  | CDict d => bool_decide (NoDup (List.map fst d)) && forallb (fun '(_, v) => wf v) d
  | CList l => forallb wf l
  | _ => true
  end.

Definition attribute_error (k : string) : exn := PyErr AttributeError k None.

(** [c.k] ([ConfigDict.__getattr__] raises [AttributeError] for a missing
    key; values that are no dict have no such attribute). *)
Definition getattr (c : cfg) (k : string) : res cfg :=
  match c with
  | CDict d =>
      match dict_get k d with
      | Some v => Ok v
      | None => Err (attribute_error k)
      end
  | _ => Err (attribute_error k)
  end.

(** [c.k = v] *)
Definition setattr (c : cfg) (k : string) (v : cfg) : res cfg :=
  match c with
  | CDict d => Ok (CDict (dict_set k v d))
  | _ => Err (attribute_error k)
  end.

(** [c.k1.k2...kn] *)
Fixpoint getattr_path (c : cfg) (p : list string) : res cfg :=
  match p with
  | [] => Ok c
  | k :: p' => let* c' := getattr c k in getattr_path c' p'
  end.

(** [c.k1.k2...kn = v]: the dict reached through [k1 ... k(n-1)] is updated
    in place, so the change shows in [c]. *)
Fixpoint setattr_path (c : cfg) (p : list string) (v : cfg) : res cfg :=
  match p with
  | [] => Ok v
  | [k] => setattr c k v
  | k :: p' =>
      let* c' := getattr c k in
      let* c'' := setattr_path c' p' v in
      setattr c k c''
  end.

(** *** [Config._merge_a_into_b] (mmcv)

    The function is mmcv's; the sources call it on files and on configurations.
    Its definition in mmcv, with [allow_list_keys=False] as it is called here:
<<
    b = b.copy()
    for k, v in a.items():
        if isinstance(v, dict) and k in b and not v.pop(DELETE_KEY, False):
            if not isinstance(b[k], dict):
                raise TypeError(...)
            b[k] = Config._merge_a_into_b(v, b[k])
        else:
            b[k] = v
    return b
>>
    [v.pop(DELETE_KEY, False)] removes the key ['_delete_'] from [v] itself.
    The recursive call therefore runs on [v] without that key; here it runs
    on [v] with [popped = true], which skips the key ([merge_popped] below
    proves the two the same). *)

Definition DELETE_KEY : string := "_delete_".

Section MergeItems.

Variable rec : cfg -> list (string * cfg) -> res (list (string * cfg)).

(** The body of the loop for one item [(k, v)] of [a]. *)
Definition merge_entry (k : string) (v : cfg) (b : list (string * cfg))
  : res (list (string * cfg)) :=
  match v, dict_get k b with
  | CDict vd, Some bk =>
      if truthy (default (CBool false) (dict_get DELETE_KEY vd))
      then Ok (dict_set k (CDict (dict_pop DELETE_KEY vd)) b)
      else
        match bk with
        | CDict bkd => let* m := rec v bkd in Ok (dict_set k (CDict m) b)
        | _ => Err (PyErr TypeError "a dict in the child config cannot inherit from a non-dict" None)
        end
  | _, _ => Ok (dict_set k v b)
  end.

Fixpoint merge_items (popped : bool) (items : list (string * cfg))
    (b : list (string * cfg)) : res (list (string * cfg)) :=
  match items with
  | [] => Ok b
  | (k, v) :: rest =>
      if popped && String.eqb k DELETE_KEY then merge_items popped rest b
      else let* b' := merge_entry k v b in merge_items popped rest b'
  end.

End MergeItems.

Fixpoint merge_from (popped : bool) (a : cfg) (b : list (string * cfg)) {struct a}
  : res (list (string * cfg)) :=
  match a with
  | CDict items => merge_items (merge_from true) popped items b
  | _ => Err (attribute_error "items")
  end.

Definition _merge_a_into_b (a : cfg) (b : list (string * cfg)) : res (list (string * cfg)) :=
  merge_from false a b.

(** A top-level configuration ([Config], or the [ConfigDict] that
    [copy.deepcopy] of a [Config] yields) is a dict. *)
Abbreviation config_dict := (list (string * cfg)).

(** [Config(cfg_dict)]: mmcv refuses its reserved keys. *)
Definition RESERVED_KEYS : list string := ["filename"; "text"; "pretty_text"].

Definition Config (cfg_dict : config_dict) : res config_dict :=
  if existsb (fun k => dict_has k cfg_dict) RESERVED_KEYS
  then Err (PyErr KeyError "reserved for config file" None)
  else Ok cfg_dict.

(** [copy.deepcopy]: values carry no identity, a copy is the value itself;
    what matters is which variable later assignments go to. *)
Definition deepcopy {A} (a : A) : A := a.

(** The functions of mmcv's [Config] that read or print Python text. *)
Record mmcv_api := {
  (** [Config.fromfile(filename)] for a configuration file of the repository *)
  fromfile : string -> res config_dict;
  (** [Config.fromfile] on a temporary file holding the given text *)
  fromfile_text : string -> res config_dict;
  (** [Config(c).pretty_text] *)
  pretty_text : config_dict -> string
}.

(** [config_mapper.py] ([ConfigMappings]), a table of file names that is not
    among the sources: taken as a parameter. *)
Record ConfigMappings := {
  get_schedule_file : string -> res string;
  get_schedule_friendly_name : string -> res string
}.

(** ** configuration_manager.py: [MMDetectionConfigManager] *)

(** The learning parameters of [MMDetectionParameters]
    ([configurable_parameters.py]), each the [.value] of its parameter. *)
Record LearningParameters := {
  learning_rate_schedule : string;
  learning_rate_warmup_iters : pynum;
  num_epochs : pynum;
  learning_rate : pynum;
  batch_size : pynum
}.

Record Postprocessing := {
  confidence_threshold : Q;
  result_based_confidence_threshold : bool
}.

Record MMDetectionParameters := {
  learning_parameters : LearningParameters;
  postprocessing : Postprocessing
}.

Record ConfigManager := {
  config : config_dict;
  custom_lr_schedule : config_dict;
  model_name : string;
  label_names : list string
}.

Definition set_config (c : config_dict) (cm : ConfigManager) : ConfigManager :=
  {| config := c; custom_lr_schedule := custom_lr_schedule cm;
     model_name := model_name cm; label_names := label_names cm |}.

(** [c.k1...kn = v] on a top-level configuration. *)
Definition config_setattr (c : config_dict) (p : list string) (v : cfg) : res config_dict :=
  let* c' := setattr_path (CDict c) p v in
  match c' with
  | CDict d => Ok d
  | _ => Err (attribute_error "")
  end.

(** [c.k1...kn] on a top-level configuration. *)
Definition config_getattr (c : config_dict) (p : list string) : res cfg :=
  getattr_path (CDict c) p.

(** [cfg.data.<subset>.ote_dataset = dataset.get_subset(...)] for the three
    subsets, in the order of lines 163-165. *)
Definition set_ote_datasets (c : config_dict) (test train val : cfg) : res config_dict :=
  let* c := config_setattr c ["data"; "test"; "ote_dataset"] test in
  let* c := config_setattr c ["data"; "train"; "ote_dataset"] train in
  config_setattr c ["data"; "val"; "ote_dataset"] val.

(** [for label in labels] *)
Definition iterate (c : cfg) : res (list cfg) :=
  match c with
  | CList l => Ok l
  | CDict d => Ok (List.map (fun kv => CStr (fst kv)) d)
  | CStr s => Ok (List.map (fun a => CStr (String a EmptyString)) (list_ascii_of_string s))
  | _ => Err (PyErr TypeError "object is not iterable" None)
  end.

(** [label.name] *)
Definition label_name_attr (c : cfg) : res cfg :=
  match c with
  | CObj (OLabel l) => Ok (CStr (label_name l))
  | _ => Err (attribute_error "name")
  end.

(** [[f(x) for x in xs]] *)
Fixpoint comprehension {A B} (f : A -> res B) (xs : list A) : res (list B) :=
  match xs with
  | [] => Ok []
  | x :: xs' => let* y := f x in let* ys := comprehension f xs' in Ok (y :: ys)
  end.

(** Lines 186-191 of [config_to_string]: the copy that is printed, without
    dataset and label entities. *)
Definition cleaned_copy (config : config_dict) : res config_dict :=
  let config_copy := deepcopy config in
  let* config_copy := set_ote_datasets config_copy CNone CNone CNone in
  let* labels := config_getattr config ["labels"] in
  let* labels := iterate labels in
  let* names := comprehension label_name_attr labels in
  config_setattr config_copy ["labels"] (CList names).

Section ConfigManagerMethods.

Variables (mmcv : mmcv_api) (config_mapper : ConfigMappings).

(** Lines 122-125, the body of the loop over the file names. *)
Definition merge_file (config : config_dict) (filename : option string) : res config_dict :=
  match filename with
  | None => Ok config                                      (* continue *)
  | Some f =>
      let* update_config := fromfile mmcv f in
      _merge_a_into_b (CDict update_config) config
  end.

(** Lines 110-126.  [self.config] is assigned at the end only. *)
Definition _compose_config (model_file schedule_file dataset_file runtime_file : option string)
  : SE ConfigManager unit :=
  let config_file_list := [model_file; schedule_file; dataset_file; runtime_file] in
  do* config := lift (for_each merge_file config_file_list []) in
  do* c := lift (Config config) in
  modify (set_config c).

(** Lines 148-166, with [model is None]: the manager's own configuration is
    updated. *)
Definition update_dataset_subsets_config (dataset : Dataset) : SE ConfigManager unit :=
  do* cm := get in
  do* c := lift (set_ote_datasets (config cm)
                   (CObj (ODataset (get_subset dataset TESTING)))
                   (CObj (ODataset (get_subset dataset TRAINING)))
                   (CObj (ODataset (get_subset dataset VALIDATION)))) in
  modify (set_config c).

(** Lines 168-176. *)
Definition config_copy (cm : ConfigManager) : config_dict := deepcopy (config cm).

(** Lines 178-192.  The state is the object passed as [config]: every
    assignment goes to [config_copy]. *)
Definition config_to_string : SE config_dict string :=
  do* config := get in
  lift (let* config_copy := cleaned_copy config in
        let* c := Config config_copy in
        Ok (pretty_text mmcv c)).

(** Lines 194-205. *)
Definition config_from_string (config_string : string) : res config_dict :=
  fromfile_text mmcv config_string.

(** Lines 214-225. *)
Definition _replace_config_section_from_file (file : string) : SE ConfigManager config_dict :=
  do* cm := get in
  let config := config_copy cm in
  do* config_section := lift (fromfile mmcv file) in
  do* new_config := lift (_merge_a_into_b (CDict config_section) config) in
  do* c := lift (Config new_config) in
  do* _ := modify (set_config c) in
  ret config_section.

Definition schedule_sections : list string :=
  ["optimizer"; "optimizer_config"; "lr_config"; "momentum_config"].

(** [self.config.<p> = v] *)
Definition assign (p : list string) (v : cfg) : SE ConfigManager unit :=
  do* cm := get in
  do* c := lift (config_setattr (config cm) p v) in
  modify (set_config c).

(** Lines 227-256. *)
Definition _update_learning_rate_schedule (schedule_name : string) (warmup_iters : pynum)
  : SE ConfigManager unit :=
  let sections_to_pop := schedule_sections in
  do* _ := for_ sections_to_pop (fun section =>
             do* cm := get in
             if dict_has section (config cm)
             then modify (set_config (dict_pop section (config cm)))
             else ret tt) in
  do* _ := (if String.eqb schedule_name "custom" then
              for_ sections_to_pop (fun section =>
                do* cm := get in
                (* [Config.__setitem__] stores [ConfigDict(value)], a copy of
                   the section: later writes do not reach [custom_lr_schedule] *)
                match dict_get section (custom_lr_schedule cm) with
                | Some o => modify (set_config (dict_set section (deepcopy o) (config cm)))
                | None => ret tt
                end)
            else
              do* schedule_file := lift (get_schedule_file config_mapper schedule_name) in
              do* _ := _replace_config_section_from_file schedule_file in
              ret tt) in
  if py_gt0 warmup_iters then
    do* _ := assign ["lr_config"; "warmup"] (CStr "linear") in
    do* _ := assign ["lr_config"; "warmup_ratio"] (CFloat (1 / 3)) in
    assign ["lr_config"; "warmup_iters"] (cfg_of_num warmup_iters)
  else ret tt.

(** Lines 134-146. *)
Definition update_project_configuration (configurable_parameters : MMDetectionParameters)
  : SE ConfigManager unit :=
  let lp := learning_parameters configurable_parameters in
  let learning_rate_schedule_name := learning_rate_schedule lp in
  let learning_rate_warmup_iters := learning_rate_warmup_iters lp in
  do* _ := _update_learning_rate_schedule learning_rate_schedule_name learning_rate_warmup_iters in
  do* _ := assign ["runner"; "max_epochs"] (CInt (py_int (num_epochs lp))) in
  do* _ := assign ["optimizer"; "lr"] (CFloat (py_float (learning_rate lp))) in
  assign ["data"; "samples_per_gpu"] (CInt (py_int (batch_size lp))).

(** Lines 269-276. *)
Definition get_lr_schedule_friendly_name (lr_policy_type : string) : res string :=
  get_schedule_friendly_name config_mapper lr_policy_type.

End ConfigManagerMethods.

(** ** The wrapped frameworks as seen from task.py *)

(** [model.state_dict()]: parameter names and values. *)
Definition StateDict : Type := list (string * list Q).

(** A detector ([torch.nn.Module]): its weights, the attribute [cfg] that
    task.py attaches to it (absent on a freshly built model), and the
    training/eval mode flag. *)
Record TorchModule := {
  weights : StateDict;
  mcfg : option config_dict;
  training : bool
}.

Definition state_dict (m : TorchModule) : StateDict := weights m.

Definition set_mcfg (c : config_dict) (m : TorchModule) : TorchModule :=
  {| weights := weights m; mcfg := Some c; training := training m |}.

(** [model.eval()] *)
Definition eval (m : TorchModule) : TorchModule :=
  {| weights := weights m; mcfg := mcfg m; training := false |}.

(** Objects that [torch.save] writes and [torch.load] returns. *)
#[warnings="-register-all"]
Inductive pyvalue :=
| VNone
| VNum (q : Q)
| VStr (s : string)
| VState (sd : StateDict)
| VDict (d : list (string * pyvalue)).

(** [v[k]] *)
Definition subscript (v : pyvalue) (k : string) : res pyvalue :=
  match v with
  | VDict d =>
      match dict_get k d with
      | Some x => Ok x
      | None => Err (PyErr KeyError k None)
      end
  | _ => Err (PyErr TypeError "object is not subscriptable" None)
  end.

(** One detection: a row [x1, y1, x2, y2, score] of the per-class array. *)
Record Detection := { dx1 : Q; dy1 : Q; dx2 : Q; dy2 : Q; dscore : Q }.

(** The output for one image: one array of detections per class. *)
Definition Output : Type := list (list Detection).

(** [OTEDataset] as built by [build_dataset]. *)
Record OTEDataset := {
  ote_dataset : Dataset;
  CLASSES : list string;
  test_mode : bool
}.

(** The file system: directories, and files with their contents. *)
Record FS := { dirs : gset string; files : gmap string string }.

(** What a training run leaves behind. *)
Record Trained := {
  trained_model : TorchModule;
  trained_fs : FS;
  trained_curves : Curves;
  elapsed : Q
}.

Record torch_api := {
  (** [torch.save(obj, buffer); bytes(buffer.getbuffer())] *)
  torch_save : pyvalue -> string;
  (** [torch.load(io.BytesIO(blob))] *)
  torch_load : string -> res pyvalue;
  (** [model.load_state_dict(obj)], the model it leaves behind *)
  load_state_dict : TorchModule -> pyvalue -> res TorchModule
}.

Record mmdet_api := {
  build_detector : cfg -> res TorchModule;
  load_checkpoint : TorchModule -> cfg -> res TorchModule;
  inference_detector : option TorchModule -> Z -> res Output;
  build_dataset : cfg -> res OTEDataset;
  (** [single_gpu_test] on the data loader built for the dataset *)
  single_gpu_test : TorchModule -> OTEDataset -> res (list Output);
  (** [dataset.evaluate(predictions, metric='mAP')['mAP']] *)
  evaluate_mAP : OTEDataset -> list Output -> res Q;
  (** [train_detector(model, [dataset], cfg, validate=True)] and the time it
      took; it reads and writes the work directory *)
  train_detector : TorchModule -> OTEDataset -> config_dict -> FS -> res Trained;
  (** [export_model(model, tempdir, ...)]: the names in [tempdir] afterwards *)
  export_model : option TorchModule -> string -> res (list string)
}.

Record sc_sdk_api := {
  (** [BinaryRepo(project).save_file_at_path(path, folder)] *)
  save_file_at_path : string -> string -> res string
}.

(** ** sc_sdk entities produced by the task *)

Inductive Metric :=
| InfoMetric (metric_name value : string)
| CurveMetric (xs ys : list Q) (metric_name : string).

Inductive VisualizationInfo :=
| TextInfo (vis_name : string)
| LineChartInfo (vis_name x_axis_label y_axis_label : string).

Record MetricsGroup := { metrics : list Metric; visualization_info : VisualizationInfo }.

Record Performance := {
  score : Q;                               (* ScoreMetric(value, name="mAP") *)
  dashboard_metrics : list MetricsGroup
}.

(** [Model]: the fields the task fills in; project, task node and model
    configuration are copied from the task environment and never read here. *)
Inductive Model :=
| NullModel
| SavedModel (data : string) (performance : Performance) (train_dataset : Dataset)
    (training_duration : Q).

Definition is_NullModel (m : Model) : bool :=
  match m with NullModel => true | SavedModel _ _ _ _ => false end.

Record TaskEnvironment := {
  te_model : Model;
  te_parameters : MMDetectionParameters;   (* get_configurable_parameters *)
  te_labels : list Label
}.

Definition set_te_model (m : Model) (te : TaskEnvironment) : TaskEnvironment :=
  {| te_model := m; te_parameters := te_parameters te; te_labels := te_labels te |}.

Inductive Precision := FP32.

Record OpenVINOModel := {
  ov_model : Model;
  openvino_bin_url : string;
  openvino_xml_url : string;
  ov_precision : Precision
}.

Record TrainParameters := { train_on_empty_model : bool }.
Record AnalyseParameters := { is_evaluation : bool }.

(** ** task.py: [MMObjectDetectionTask] *)

(** The attributes of the task object.  Loggers, [in_channels], [labels] and
    [time_monitor] (progress reporting) are written once or only handed to
    the frameworks, and are left out. *)
Record Task := {
  scratch_space : string;
  task_environment : TaskEnvironment;
  config_manager : ConfigManager;
  should_stop : bool;
  is_training : bool;
  n_samples_in_current_training_set : Z;
  train_model : option TorchModule;
  inference_model : option TorchModule;
  learning_curves : Curves
}.

Definition set_task_environment (x : TaskEnvironment) (t : Task) : Task :=
  {| scratch_space := scratch_space t; task_environment := x;
     config_manager := config_manager t; should_stop := should_stop t;
     is_training := is_training t;
     n_samples_in_current_training_set := n_samples_in_current_training_set t;
     train_model := train_model t; inference_model := inference_model t;
     learning_curves := learning_curves t |}.

Definition set_config_manager (x : ConfigManager) (t : Task) : Task :=
  {| scratch_space := scratch_space t; task_environment := task_environment t;
     config_manager := x; should_stop := should_stop t;
     is_training := is_training t;
     n_samples_in_current_training_set := n_samples_in_current_training_set t;
     train_model := train_model t; inference_model := inference_model t;
     learning_curves := learning_curves t |}.

Definition set_should_stop (x : bool) (t : Task) : Task :=
  {| scratch_space := scratch_space t; task_environment := task_environment t;
     config_manager := config_manager t; should_stop := x;
     is_training := is_training t;
     n_samples_in_current_training_set := n_samples_in_current_training_set t;
     train_model := train_model t; inference_model := inference_model t;
     learning_curves := learning_curves t |}.

Definition set_is_training (x : bool) (t : Task) : Task :=
  {| scratch_space := scratch_space t; task_environment := task_environment t;
     config_manager := config_manager t; should_stop := should_stop t;
     is_training := x;
     n_samples_in_current_training_set := n_samples_in_current_training_set t;
     train_model := train_model t; inference_model := inference_model t;
     learning_curves := learning_curves t |}.

Definition set_n_samples (x : Z) (t : Task) : Task :=
  {| scratch_space := scratch_space t; task_environment := task_environment t;
     config_manager := config_manager t; should_stop := should_stop t;
     is_training := is_training t;
     n_samples_in_current_training_set := x;
     train_model := train_model t; inference_model := inference_model t;
     learning_curves := learning_curves t |}.

Definition set_train_model (x : option TorchModule) (t : Task) : Task :=
  {| scratch_space := scratch_space t; task_environment := task_environment t;
     config_manager := config_manager t; should_stop := should_stop t;
     is_training := is_training t;
     n_samples_in_current_training_set := n_samples_in_current_training_set t;
     train_model := x; inference_model := inference_model t;
     learning_curves := learning_curves t |}.

Definition set_inference_model (x : option TorchModule) (t : Task) : Task :=
  {| scratch_space := scratch_space t; task_environment := task_environment t;
     config_manager := config_manager t; should_stop := should_stop t;
     is_training := is_training t;
     n_samples_in_current_training_set := n_samples_in_current_training_set t;
     train_model := train_model t; inference_model := x;
     learning_curves := learning_curves t |}.

Definition set_learning_curves (x : Curves) (t : Task) : Task :=
  {| scratch_space := scratch_space t; task_environment := task_environment t;
     config_manager := config_manager t; should_stop := should_stop t;
     is_training := is_training t;
     n_samples_in_current_training_set := n_samples_in_current_training_set t;
     train_model := train_model t; inference_model := inference_model t;
     learning_curves := x |}.

(** The task object together with the file system it works on. *)
Record World := { task : Task; fs : FS }.

Definition set_task (t : Task) (w : World) : World := {| task := t; fs := fs w |}.
Definition set_fs (f : FS) (w : World) : World := {| task := task w; fs := f |}.

Definition get_task : SE World Task := fun w => (w, Ok (task w)).
Definition modify_task (f : Task -> Task) : SE World unit :=
  modify (fun w => set_task (f (task w)) w).

(** A method of [self.config_manager]. *)
Definition on_config_manager {A} (m : SE ConfigManager A) : SE World A :=
  zoom (fun w => config_manager (task w))
       (fun cm w => set_task (set_config_manager cm (task w)) w) m.

(** *** Paths and files *)

Definition ends_with_sep (a : string) : bool :=
  match List.last (list_ascii_of_string a) " "%char with
  | "/"%char => true
  | _ => false
  end.

(** [os.path.join(a, b)] (posixpath) *)
Definition os_path_join (a b : string) : string :=
  if String.prefix "/" b then b
  else if String.eqb a "" || ends_with_sep a then a +:+ b
  else a +:+ "/" +:+ b.

(** [open(path, 'a').close()]: the file is created empty unless it exists;
    an existing file keeps its contents.  The directory of [path] is taken to
    exist and to be writable (the work directory is made by [tempfile.mkdtemp]
    or [os.makedirs] before its path is stored in the configuration). *)
Definition touch (path : string) (f : FS) : FS :=
  match files f !! path with
  | Some _ => f
  | None => {| dirs := dirs f; files := <[path := ""]> (files f) |}
  end.

(** [with open(path, 'w') as f: f.write(text)] *)
Definition write_file (path text : string) (f : FS) : FS :=
  {| dirs := dirs f; files := <[path := text]> (files f) |}.

(** [os.makedirs(path)] *)
Definition makedirs (path : string) (f : FS) : res FS :=
  if bool_decide (path ∈ dirs f) || bool_decide (is_Some (files f !! path))
  then Err (PyErr FileExistsError path None)
  else Ok {| dirs := {[ path ]} ∪ dirs f; files := files f |}.

(** [len(glob.glob(prefix + "*"))]: the entries whose name continues [prefix]
    within the same directory. *)
Definition glob_count (prefix : string) (f : FS) : nat :=
  let matches (p : string) : Prop :=
    String.prefix prefix p = true
    /\ String.index (String.length prefix) "/" p = None in
  size (filter matches (dirs f)) + size (filter matches (dom (files f))).

(** [s.endswith(suffix)] *)
Definition endswith (s suffix : string) : bool :=
  let n := String.length s in
  let m := String.length suffix in
  (m <=? n)%nat && String.eqb (String.substring (n - m) m s) suffix.

(** [self.model] when it must be a model: [None] has no attributes. *)
Definition the_model (m : option TorchModule) : res TorchModule :=
  match m with
  | Some x => Ok x
  | None => Err (PyErr AttributeError "'NoneType' object has no attribute" None)
  end.

(** [model.cfg] *)
Definition the_cfg (m : TorchModule) : res config_dict :=
  match mcfg m with
  | Some c => Ok c
  | None => Err (attribute_error "cfg")
  end.

(** A path component must be a string. *)
Definition as_str (c : cfg) : res string :=
  match c with
  | CStr s => Ok s
  | _ => Err (PyErr TypeError "expected str, bytes or os.PathLike object" None)
  end.

(** Lines 148-166 of configuration_manager.py with a model: its [cfg.data] is
    updated and the model returned. *)
Definition update_dataset_subsets_model (dataset : Dataset) (model : TorchModule)
  : res TorchModule :=
  let* c := the_cfg model in
  let* c := set_ote_datasets c
              (CObj (ODataset (get_subset dataset TESTING)))
              (CObj (ODataset (get_subset dataset TRAINING)))
              (CObj (ODataset (get_subset dataset VALIDATION))) in
  Ok (set_mcfg c model).

(** [np.clip(x, 0, 1)] *)
Definition clip01 (x : Q) : Q := Qmin (Qmax x 0) 1.

(** [x < y] on floats *)
Definition Qltb (x y : Q) : bool := negb (Qle_bool y x).

(** [labels[i]] as the [Label] handed to [ScoredLabel]. *)
Definition label_at (labels : cfg) (i : nat) : res Label :=
  match labels with
  | CList l =>
      match nth_error l i with
      | Some (CObj (OLabel lab)) => Ok lab
      | Some _ => Err (PyErr TypeError "not a Label" None)
      | None => Err (PyErr IndexError "list index out of range" None)
      end
  | _ => Err (PyErr TypeError "not a list of labels" None)
  end.

(** Lines 197-214 of task.py: one detection of class [label_idx], turned into
    the [Box] to append or skipped ([None], the two [continue]s). *)
Definition detection_shape (config : config_dict) (width height : Z)
    (confidence_threshold : Q) (label_idx : nat) (d : Detection) : res (option Shape) :=
  let probability := dscore d in
  let c0 := clip01 (dx1 d / inject_Z width) in
  let c1 := clip01 (dy1 d / inject_Z height) in
  let c2 := clip01 (dx2 d / inject_Z width) in
  let c3 := clip01 (dy2 d / inject_Z height) in
  if Qltb probability confidence_threshold then Ok None
  else
    let* labels := config_getattr config ["labels"] in
    let* label := label_at labels label_idx in
    let assigned_label := [{| sl_label := label; probability := probability |}] in
    if Qle_bool (c3 - c1) 0 || Qle_bool (c2 - c0) 0 then Ok None
    else Ok (Some (Box c0 c1 c2 c3 assigned_label)).

(** [enumerate(xs)] *)
Definition enumerate {A} (xs : list A) : list (nat * A) :=
  List.combine (List.seq 0 (List.length xs)) xs.

(** Lines 194-214: the shapes collected for one image. *)
Definition output_shapes (config : config_dict) (width height : Z)
    (confidence_threshold : Q) (output : Output) : res (list Shape) :=
  for_each
    (fun shapes '(label_idx, detections) =>
       for_each
         (fun shapes d =>
            let* s := detection_shape config width height confidence_threshold label_idx d in
            Ok (match s with Some box => shapes ++ [box] | None => shapes end))
         detections shapes)
    (enumerate output) [].

(** Lines 190-216: [for dataset_item, output in zip(dataset, prediction_results)];
    items beyond the predictions stay as they are. *)
Fixpoint assign_predictions (config : config_dict) (confidence_threshold : Q)
    (items : list DatasetItem) (prediction_results : list Output) : res (list DatasetItem) :=
  match items, prediction_results with
  | dataset_item :: items', output :: results' =>
      let* shapes := output_shapes config (width dataset_item) (height dataset_item)
                       confidence_threshold output in
      let* rest := assign_predictions config confidence_threshold items' results' in
      Ok (append_shapes dataset_item shapes :: rest)
  | _, _ => Ok items
  end.

(** [[f for f in names if f.endswith(suffix)][0]] *)
Definition first_with_suffix (suffix : string) (names : list string) : res string :=
  match List.filter (fun f => endswith f suffix) names with
  | f :: _ => Ok f
  | [] => Err (PyErr IndexError "list index out of range" None)
  end.

(** The name [tempfile.TemporaryDirectory()] picks. *)
Record os_api := { temporary_directory : FS -> string }.

Section TaskMethods.

Variables (mmcv : mmcv_api) (config_mapper : ConfigMappings) (torch : torch_api)
          (mmdet : mmdet_api) (sc_sdk : sc_sdk_api) (os : os_api).

(** Lines 74-88. *)
Definition safe_inference_detector (model : option TorchModule) (image : Z) : res Output :=
  inference_detector mmdet model image.

(** Lines 129-158. *)
Definition _create_model (config : config_dict) (from_scratch : bool) : SE World TorchModule :=
  do* model_section := lift (config_getattr config ["model"]) in
  let model_cfg := deepcopy model_section in
  do* _ := modify_task (set_learning_curves []) in
  let init_from := default CNone (dict_get "init_from" config) in
  do* (model_cfg, init_from) :=
    (if from_scratch
     then do* model_cfg := lift (setattr model_cfg "pretrained" CNone) in
          ret (model_cfg, CNone)
     else ret (model_cfg, init_from)) in
  match init_from with
  | CNone => lift (build_detector mmdet model_cfg)
  | _ =>
      do* model_cfg := lift (setattr model_cfg "pretrained" CNone) in
      do* model := lift (build_detector mmdet model_cfg) in
      lift (load_checkpoint mmdet model init_from)
  end.

(** Lines 633-649. *)
Definition _get_confidence (is_evaluation : bool) : SE World Q :=
  do* t := get_task in
  let conf_params := te_parameters (task_environment t) in
  let confidence_threshold := confidence_threshold (postprocessing conf_params) in
  let result_based_confidence_threshold :=
    result_based_confidence_threshold (postprocessing conf_params) in
  ret (if is_evaluation
       then if result_based_confidence_threshold then 0%Q else confidence_threshold
       else confidence_threshold).

(** [gpu_ids[0]] *)
Definition first_gpu (c : config_dict) : res cfg :=
  let* ids := config_getattr c ["gpu_ids"] in
  match ids with
  | CList (i :: _) => Ok i
  | CList [] => Err (PyErr IndexError "index out of range" None)
  | _ => Err (PyErr TypeError "object is not subscriptable" None)
  end.

(** Lines 160-218. *)
Definition analyse (dataset : Dataset) (analyse_parameters : option AnalyseParameters)
  : SE World Dataset :=
  let is_evaluation :=
    match analyse_parameters with
    | Some p => is_evaluation p
    | None => false
    end in
  do* confidence_threshold := _get_confidence is_evaluation in
  let batch_size := 1%Z in
  do* prediction_results :=
    (if (Z.of_nat (List.length (ds_items dataset)) <=? batch_size)%Z then
       do* t := get_task in
       lift (comprehension
               (fun dataset_item =>
                  safe_inference_detector (inference_model t) (numpy dataset_item))
               (ds_items dataset))
     else
       do* t := get_task in
       do* m := lift (the_model (inference_model t)) in
       do* c := lift (the_cfg m) in
       do* c := lift (config_setattr c ["data"; "test"; "ote_dataset"]
                        (CObj (ODataset dataset))) in
       do* _ := modify_task (set_inference_model (Some (set_mcfg c m))) in
       do* test_cfg := lift (config_getattr c ["data"; "test"]) in
       do* mm_test_dataset := lift (build_dataset mmdet (deepcopy test_cfg)) in
       do* _ := lift (config_getattr (config (config_manager t)) ["data"; "workers_per_gpu"]) in
       do* _ := lift (first_gpu (config (config_manager t))) in
       lift (single_gpu_test mmdet (set_mcfg c m) mm_test_dataset)) in
  do* t := get_task in
  do* items := lift (assign_predictions (config (config_manager t)) confidence_threshold
                       (ds_items dataset) prediction_results) in
  ret {| ds_id := ds_id dataset; ds_items := items |}.

(** Lines 590-592. *)
Definition _get_model_from_bytes (blob : string) : res pyvalue := torch_load torch blob.

(** The text of a pickled string. *)
Definition as_text (v : pyvalue) : res string :=
  match v with
  | VStr s => Ok s
  | _ => Err (PyErr TypeError "write() argument must be str" None)
  end.

Definition invalid_model_file : string :=
  "Could not load the saved model. The model file structure is invalid.".

(** Line 241, the statement guarded by the [try]:
    [torch_model.load_state_dict(model_data['state_dict'])].  The two
    [logger.info] lines after it read [model.data_url] and
    [model_config.model.type], which exist once the model has been built. *)
Definition load_weights (torch_model : TorchModule) (model_data : pyvalue) : res TorchModule :=
  let* sd := subscript model_data "state_dict" in
  load_state_dict torch torch_model sd.

(** Lines 220-267. *)
Definition load_model (task_environment : TaskEnvironment) : SE World unit :=
  do* _ := modify_task (set_task_environment task_environment) in
  let model := te_model task_environment in
  do* model_config :=
    match model with
    | SavedModel data _ _ _ =>
        do* model_data := lift (_get_model_from_bytes data) in
        do* config_text := lift (let* c := subscript model_data "config" in as_text c) in
        do* model_config := lift (config_from_string mmcv config_text) in
        do* torch_model := _create_model model_config true in
        do* torch_model :=
          try_reraise
            (lift (load_weights torch_model model_data))
            (fun _ => true)                                  (* except BaseException *)
            (raise_from ValueError invalid_model_file) in
        do* _ := modify_task (set_inference_model (Some torch_model)) in
        do* _ := modify_task (fun t => set_train_model (deepcopy (inference_model t)) t) in
        ret model_config
    | NullModel =>
        do* t := get_task in
        let model_config := config_copy (config_manager t) in
        do* _ := lift (snd (config_to_string mmcv model_config)) in   (* logged *)
        do* torch_model := _create_model model_config false in
        do* _ := modify_task (set_train_model (Some torch_model)) in
        do* _ := modify_task (fun t => set_inference_model (deepcopy (train_model t)) t) in
        ret model_config
    end in
  do* t := get_task in
  do* im := lift (the_model (inference_model t)) in
  do* _ := modify_task (set_inference_model (Some (set_mcfg model_config im))) in
  do* tm := lift (the_model (train_model t)) in
  do* _ := modify_task (set_train_model (Some (set_mcfg (config_copy (config_manager t)) tm))) in
  modify_task (fun t => set_inference_model (option_map eval (inference_model t)) t).

(** Lines 207-212 of configuration_manager.py. *)
Definition save_config_to_file : SE World unit :=
  do* t := get_task in
  do* work_dir := lift (let* d := config_getattr (config (config_manager t)) ["work_dir"] in
                        as_str d) in
  let filepath := os_path_join work_dir "config.py" in
  do* config_string := on_config_manager
                         (zoom config set_config (config_to_string mmcv)) in
  modify (fun w => set_fs (write_file filepath config_string (fs w)) w).

(** [self.config_manager.config.<p> = v] *)
Definition assign_config (p : list string) (v : cfg) : SE World unit :=
  on_config_manager (assign p v).

(** Lines 269-288. *)
Definition _create_training_checkpoint_dirs : SE World string :=
  do* w := get in
  let checkpoint_dirs :=
    glob_count (os_path_join (scratch_space (task w)) "checkpoints_round_") (fs w) in
  let train_round_checkpoint_dir :=
    os_path_join (scratch_space (task w)) ("checkpoints_round_" +:+ pretty checkpoint_dirs) in
  do* f := lift (makedirs train_round_checkpoint_dir (fs w)) in
  do* _ := modify (set_fs f) in
  do* _ := assign_config ["work_dir"] (CStr train_round_checkpoint_dir) in
  do* _ := assign_config ["runner"; "meta"; "exp_name"]
             (CStr ("train_round_" +:+ pretty checkpoint_dirs)) in
  do* _ := save_config_to_file in
  ret train_round_checkpoint_dir.

(** Lines 290-310. *)
Definition _is_train_from_scratch (train_parameters : option TrainParameters)
  : SE World (option TorchModule * bool) :=
  do* t := get_task in
  let old_train_model := deepcopy (train_model t) in
  match train_parameters with
  | Some p =>
      if train_on_empty_model p then
        do* m := _create_model (config (config_manager t)) true in
        do* _ := modify_task (set_train_model (Some m)) in
        ret (old_train_model, true)
      else ret (old_train_model, false)
  | None => ret (old_train_model, false)
  end.

(** Lines 312-344. *)
Definition _do_pre_evaluation (dataset : Dataset) : SE World (Q * bool) :=
  do* t := get_task in
  match inference_model t with
  | Some im =>
      do* im := lift (update_dataset_subsets_model dataset im) in
      do* _ := modify_task (set_inference_model (Some im)) in
      do* val_cfg := lift (let* c := the_cfg im in config_getattr c ["data"; "val"]) in
      do* mm_val_dataset := lift (build_dataset mmdet (deepcopy val_cfg)) in
      do* _ := lift (config_getattr (config (config_manager t)) ["data"; "samples_per_gpu"]) in
      do* _ := lift (config_getattr (config (config_manager t)) ["data"; "workers_per_gpu"]) in
      do* _ := lift (first_gpu (config (config_manager t))) in
      do* pre_eval_predictions := lift (single_gpu_test mmdet im mm_val_dataset) in
      do* pretraining_performance :=
        lift (evaluate_mAP mmdet mm_val_dataset pre_eval_predictions) in
      ret (pretraining_performance, true)
  | None => ret (0%Q, false)
  end.

(** Lines 505-515. *)
Definition cancel_training : SE World unit :=
  do* _ := modify_task (set_should_stop true) in
  do* t := get_task in
  do* work_dir := lift (let* d := config_getattr (config (config_manager t)) ["work_dir"] in
                        as_str d) in
  let stop_training_filepath := os_path_join work_dir ".stop_training" in
  modify (fun w => set_fs (touch stop_training_filepath (fs w)) w).

(** Training runs on a worker thread; the platform may call a method of the
    task from its own thread meanwhile.  [concurrently happens m] is such a
    call at this point of the worker's run; what [m] raises is raised in the
    platform's thread. *)
Definition concurrently (happens : bool) (m : SE World unit) : SE World unit :=
  fun w => if happens then (fst (m w), Ok tt) else (w, Ok tt).

(** When the platform asks to cancel during a call of [train]. *)
Record Cancellation := {
  cancel_before_training : bool;    (* while the model is pre-evaluated *)
  cancel_while_training : bool      (* while [train_detector] runs *)
}.

(** [config.custom_hooks.append(hook)] *)
Definition append_custom_hook (c : config_dict) (hook : cfg) : res config_dict :=
  let* hooks := config_getattr c ["custom_hooks"] in
  match hooks with
  | CList l => config_setattr c ["custom_hooks"] (CList (l ++ [hook]))
  | _ => Err (attribute_error "append")
  end.

(** Lines 346-375. *)
Definition _do_model_training (cancellation : Cancellation) (mm_train_dataset : OTEDataset)
  : SE World Q :=
  do* _ := modify_task
             (set_n_samples (Z.of_nat (List.length (ds_items (ote_dataset mm_train_dataset))))) in
  do* t := get_task in
  let config := config_copy (config_manager t) in
  do* config := lift (config_setattr config ["log_config"; "hooks"]
                        (CList [CDict [("type", CStr "OTELoggerHook");
                                       ("curves", CObj (OCurves (learning_curves t)))]])) in
  do* config := lift (match default CNone (dict_get "custom_hooks" config) with
                      | CNone => config_setattr config ["custom_hooks"] (CList [])
                      | _ => Ok config
                      end) in
  do* config := lift (append_custom_hook config
                        (CDict [("type", CStr "OTEProgressHook");
                                ("time_monitor", CObj OTimeMonitor);
                                ("verbose", CBool true)])) in
  do* tm := lift (the_model (train_model t)) in
  let tm := set_mcfg (config_copy (config_manager t)) tm in
  do* _ := modify_task (set_train_model (Some tm)) in
  do* _ := modify_task (set_is_training true) in
  do* _ := concurrently (cancel_while_training cancellation) cancel_training in
  do* w := get in
  do* r := lift (train_detector mmdet tm mm_train_dataset config (fs w)) in
  do* _ := modify (set_fs (trained_fs r)) in
  do* _ := modify_task (set_train_model (Some (trained_model r))) in
  do* _ := modify_task (set_learning_curves (trained_curves r)) in
  ret (elapsed r).

(** [torch.load(path)] *)
Definition torch_load_file (path : string) : SE World pyvalue :=
  do* w := get in
  match files (fs w) !! path with
  | Some blob => lift (torch_load torch blob)
  | None => raise (PyErr FileNotFoundError path None)
  end.

(** [best_score > pretraining_performance] *)
Definition score_gt (best_score : pyvalue) (pretraining_performance : Q) : res bool :=
  match best_score with
  | VNum q => Ok (Qltb pretraining_performance q)
  | _ => Err (PyErr TypeError "'>' not supported" None)
  end.

(** Lines 377-402. *)
Definition _load_best_model_and_check_if_model_improved (pretraining_performance : Q)
    (compare_pre_and_post_training_performance : bool) : SE World (pyvalue * bool) :=
  do* t := get_task in
  do* work_dir := lift (let* d := config_getattr (config (config_manager t)) ["work_dir"] in
                        as_str d) in
  do* last_checkpoint := torch_load_file (os_path_join work_dir "latest.pth") in
  do* hook_msgs := lift (let* meta := subscript last_checkpoint "meta" in
                         subscript meta "hook_msgs") in
  do* best_ckpt := lift (let* n := subscript hook_msgs "best_ckpt" in
                         match n with
                         | VStr s => Ok s
                         | _ => Err (PyErr TypeError "expected str" None)
                         end) in
  do* best_checkpoint := torch_load_file (os_path_join work_dir best_ckpt) in
  do* best_score := lift (subscript hook_msgs "best_score") in
  do* improved :=
    lift (if compare_pre_and_post_training_performance
          then score_gt best_score pretraining_performance
          else Ok false) in
  do* tm := lift (the_model (train_model t)) in
  do* tm := lift (let* sd := subscript best_checkpoint "state_dict" in
                  load_state_dict torch tm sd) in
  do* _ := modify_task (set_train_model (Some tm)) in
  ret (best_score, improved).

(** Lines 544-575. *)
Definition _generate_training_metrics_group : SE World (list MetricsGroup) :=
  do* t := get_task in
  let architecture := InfoMetric "Model architecture" (model_name (config_manager t)) in
  let output := [{| metrics := [architecture];
                    visualization_info := TextInfo "Model architecture" |}] in
  do* policy := lift (let* tm := the_model (train_model t) in
                      let* c := the_cfg tm in
                      config_getattr c ["lr_config"; "policy"]) in
  do* friendly := lift (match policy with
                        | CStr s => get_lr_schedule_friendly_name config_mapper s
                        | _ => Err (PyErr KeyError "policy" None)
                        end) in
  let learning_rate_schedule := InfoMetric "Model architecture" friendly in
  let output := output ++ [{| metrics := [learning_rate_schedule];
                              visualization_info := TextInfo "Learning rate schedule" |}] in
  ret (output ++
       List.map (fun '(key, (x, y)) =>
                   {| metrics := [CurveMetric x y key];
                      visualization_info := LineChartInfo key "Epoch" key |})
                (learning_curves t)).

(** Lines 577-588. *)
Definition _get_model_bytes : SE World string :=
  do* t := get_task in
  do* tm := lift (the_model (train_model t)) in
  do* c := lift (the_cfg tm) in
  let (c', r) := config_to_string mmcv c in
  do* _ := modify_task (set_train_model (Some (set_mcfg c' tm))) in
  do* config_str := lift r in
  ret (torch_save torch (VDict [("state_dict", VState (state_dict tm));
                                ("config", VStr config_str)])).

(** Lines 404-427. *)
Definition _persist_new_model (dataset : Dataset) (performance : Performance)
    (training_duration : Q) : SE World unit :=
  do* t := get_task in
  do* tm := lift (the_model (train_model t)) in
  do* _ := modify_task (set_train_model (Some (set_mcfg (config_copy (config_manager t)) tm))) in
  do* model_data := _get_model_bytes in
  let model := SavedModel model_data performance dataset training_duration in
  do* _ := modify_task (fun t => set_task_environment (set_te_model model (task_environment t)) t) in
  do* _ := modify_task (fun t => set_inference_model (deepcopy (train_model t)) t) in
  modify_task (fun t => set_inference_model (option_map eval (inference_model t)) t).

(** Lines 440-453: everything [train] does before it first looks at
    [should_stop]. *)
Definition train_setup (cancellation : Cancellation) (dataset : Dataset)
    (train_parameters : option TrainParameters)
  : SE World (OTEDataset * option TorchModule * bool * Q * bool) :=
  do* _ := on_config_manager (update_dataset_subsets_config dataset) in
  do* t := get_task in
  do* mm_train_dataset :=
    lift (let* c := config_getattr (config_copy (config_manager t)) ["data"; "train"] in
          build_dataset mmdet c) in
  do* train_round_checkpoint_dir := _create_training_checkpoint_dirs in
  do* (old_train_model, train_from_scratch) := _is_train_from_scratch train_parameters in
  do* _ := concurrently (cancel_before_training cancellation) cancel_training in
  do* (pretraining_performance, compare_performance) := _do_pre_evaluation dataset in
  ret (mm_train_dataset, old_train_model, train_from_scratch,
       pretraining_performance, compare_performance).

(** Lines 474-495: after a training run that was not cancelled. *)
Definition train_finish (dataset : Dataset) (old_train_model : option TorchModule)
    (train_from_scratch : bool) (pretraining_performance : Q) (compare_performance : bool)
    (training_duration : Q) : SE World Model :=
  do* (best_score, improved) :=
    _load_best_model_and_check_if_model_improved pretraining_performance compare_performance in
  do* t := get_task in
  do* _ :=
    (if improved || is_NullModel (te_model (task_environment t)) then
       do* value := lift (match best_score with
                          | VNum q => Ok q
                          | _ => Err (PyErr TypeError "score is not a number" None)
                          end) in
       do* dashboard := _generate_training_metrics_group in
       let performance := {| score := value; dashboard_metrics := dashboard |} in
       _persist_new_model dataset performance training_duration
     else
       if train_from_scratch
       then modify_task (set_train_model old_train_model)
       else ret tt) in
  do* _ := modify_task (set_is_training false) in
  do* t := get_task in
  ret (te_model (task_environment t)).

(** Lines 429-495. *)
Definition train (cancellation : Cancellation) (dataset : Dataset)
    (train_parameters : option TrainParameters) : SE World Model :=
  do* (mm_train_dataset, old_train_model, train_from_scratch,
       pretraining_performance, compare_performance) :=
    train_setup cancellation dataset train_parameters in
  do* t := get_task in
  if should_stop t then
    do* _ := modify_task (set_should_stop false) in
    do* _ := (if train_from_scratch
              then modify_task (set_train_model old_train_model)
              else ret tt) in
    do* t := get_task in
    ret (te_model (task_environment t))
  else
    do* training_duration := _do_model_training cancellation mm_train_dataset in
    do* t := get_task in
    if should_stop t then
      do* _ := modify_task (set_should_stop false) in
      do* _ := modify_task (set_train_model old_train_model) in
      do* t := get_task in
      ret (te_model (task_environment t))
    else
      train_finish dataset old_train_model train_from_scratch
        pretraining_performance compare_performance training_duration.

(** Lines 697-703, the body of the [try]: the model is exported and the
    exported files are collected. *)
Definition export_and_collect (model : option TorchModule) (tempdir : string)
  : res (string * string) :=
  let* listing := export_model mmdet model tempdir in
  let* bin_file := first_with_suffix ".bin" listing in
  let* openvino_bin_url :=
    save_file_at_path sc_sdk (os_path_join tempdir bin_file) "optimized_models" in
  let* xml_file := first_with_suffix ".xml" listing in
  let* openvino_xml_url :=
    save_file_at_path sc_sdk (os_path_join tempdir xml_file) "optimized_models" in
  Ok (openvino_bin_url, openvino_xml_url).

Definition optimization_unsuccessful : string := "Optimization was unsuccessful.".

(** Lines 689-710.  The temporary directory is gone when the [with] block
    is left, so it leaves no trace in the file system. *)
Definition _generate_openvino_model : SE World OpenVINOModel :=
  let optimized_model_precision := FP32 in
  do* w := get in
  let tempdir := temporary_directory os (fs w) in
  do* (openvino_bin_url, openvino_xml_url) :=
    try_reraise
      (lift (export_and_collect (inference_model (task w)) tempdir))
      (fun ex => is_Exception (exn_cls ex))                  (* except Exception *)
      (raise_from RuntimeError optimization_unsuccessful) in
  ret {| ov_model := te_model (task_environment (task w));
         openvino_bin_url := openvino_bin_url;
         openvino_xml_url := openvino_xml_url;
         ov_precision := optimized_model_precision |}.

(** Lines 682-687. *)
Definition optimize_loaded_model : SE World (list OpenVINOModel) :=
  do* m := _generate_openvino_model in
  let optimized_models := [m] in
  ret optimized_models.

(** Lines 623-631. *)
Definition update_configurable_parameters (task_environment : TaskEnvironment) : SE World unit :=
  let new_conf_params := te_parameters task_environment in
  do* _ := modify_task (set_task_environment task_environment) in
  on_config_manager (update_project_configuration mmcv config_mapper new_conf_params).

End TaskMethods.

(** * Further methods of the sources *)

(** ** configuration_manager.py: the remaining methods *)

(** [c[k]] ([ConfigDict.__getitem__]): [KeyError] for a missing key; a value
    that is no dict cannot be indexed by a string. *)
Definition getitem (c : cfg) (k : string) : res cfg :=
  match c with
  | CDict d =>
      match dict_get k d with
      | Some v => Ok v
      | None => Err (PyErr KeyError k None)
      end
  | _ => Err (PyErr TypeError "indices must be integers" None)
  end.

(** Line 132, the body of the loop over the subsets:
    [self.config.data[subset]] is read by item, [.classes] is written by
    attribute. *)
Definition set_subset_classes (subset : string) : SE ConfigManager unit :=
  do* cm := get in
  do* data := lift (config_getattr (config cm) ["data"]) in
  do* _ := lift (getitem data subset) in
  assign ["data"; subset; "classes"] (CList (List.map CStr (label_names cm))).

(** Lines 128-132.  The subsets before a failing one keep their new
    [classes]. *)
Definition set_data_classes : SE ConfigManager unit :=
  let subsets := ["train"; "val"; "test"] in
  for_ subsets set_subset_classes.

(** [for head in heads: head.num_classes = n] (lines 262-263): the list after
    the loop, and the exception that ended it early, if any. *)
Fixpoint set_num_classes (n : cfg) (heads : list cfg) : list cfg * res unit :=
  match heads with
  | [] => ([], Ok tt)
  | head :: rest =>
      match setattr head "num_classes" n with
      | Ok head' => let (rest', r) := set_num_classes n rest in (head' :: rest', r)
      | Err e => (head :: rest, Err e)
      end
  end.

(** Lines 258-267. *)
Definition _update_model_classification_heads : SE ConfigManager unit :=
  do* cm := get in
  let n := CInt (Z.of_nat (List.length (label_names cm))) in
  do* model := lift (config_getattr (config cm) ["model"]) in
  match model with
  | CDict m =>
      if dict_has "roi_head" m then
        do* bbox_head := lift (config_getattr (config cm) ["model"; "roi_head"; "bbox_head"]) in
        match bbox_head with
        | CList heads =>
            let (heads', r) := set_num_classes n heads in
            do* _ := assign ["model"; "roi_head"; "bbox_head"] (CList heads') in
            lift r
        | _ => assign ["model"; "roi_head"; "bbox_head"; "num_classes"] n
        end
      else if dict_has "bbox_head" m then
        assign ["model"; "bbox_head"; "num_classes"] n
      else ret tt
  | _ => raise (attribute_error "keys")
  end.

(** A key met by [_search_in_config_dict]: the key of a dict, or the position
    in a list ([enumerate]). *)
Inductive key :=
| KStr (s : string)
| KInt (i : nat).

(** [key == key_to_search] *)
Definition key_eqb (a b : key) : bool :=
  match a, b with
  | KStr s, KStr t => String.eqb s t
  | KInt i, KInt j => Nat.eqb i j
  | _, _ => false
  end.

(** Lines 278-300.  [results] is the list the calls append to; a result is the
    pair [[value, prior_keys]]. *)
Fixpoint _search_in_config_dict (config_dict : cfg) (key_to_search : key)
    (prior_keys : list key) (results : list (cfg * list key)) {struct config_dict}
  : list (cfg * list key) :=
  match config_dict with
  | CList l =>
      (fix items (l : list cfg) (i : nat) (results : list (cfg * list key)) {struct l} :=
         match l with
         | [] => results
         | value :: l' =>
             let current_key_path := prior_keys ++ [KInt i] in
             let results :=
               if key_eqb (KInt i) key_to_search then results ++ [(value, prior_keys)]
               else results in
             items l' (S i)
               (_search_in_config_dict value key_to_search current_key_path results)
         end) l 0%nat results
  | CDict d =>
      (fix items (d : list (string * cfg)) (results : list (cfg * list key)) {struct d} :=
         match d with
         | [] => results
         | (k, value) :: d' =>
             let current_key_path := prior_keys ++ [KStr k] in
             let results :=
               if key_eqb (KStr k) key_to_search then results ++ [(value, prior_keys)]
               else results in
             items d'
               (_search_in_config_dict value key_to_search current_key_path results)
         end) d results
  | _ => results
  end.

Section MoreConfigManagerMethods.

Variable mmcv : mmcv_api.

(** Lines 102-109. *)
Definition _get_custom_lr_schedule (model_file : string) : res config_dict :=
  let* model_config := fromfile mmcv model_file in
  Ok (List.fold_left
        (fun schedule_config section =>
           match dict_get section model_config with
           | Some v => dict_set section v schedule_config
           | None => schedule_config
           end)
        schedule_sections []).

End MoreConfigManagerMethods.

(** ** mmdataset.py: [MMDatasetAdapter] *)

(** [l[i]] on a Python list: a negative index counts from the end. *)
Definition list_getitem {A} (l : list A) (i : Z) : res A :=
  let n := Z.of_nat (List.length l) in
  let j := if (i <? 0)%Z then (i + n)%Z else i in
  match (if (0 <=? j)%Z then nth_error l (Z.to_nat j) else None) with
  | Some x => Ok x
  | None => Err (PyErr IndexError "list index out of range" None)
  end.

(** Lines 207-208, with [self.project_labels] as a parameter. *)
Definition label_name_to_project_label (project_labels : list Label) (wanted : string)
  : res Label :=
  match List.filter (fun label => String.eqb (label_name label) wanted) project_labels with
  | label :: _ => Ok label
  | [] => Err (PyErr IndexError "list index out of range" None)
  end.

(** What [self.coco_dataset[indx]] yields after the two pipeline steps
    [LoadImageFromFile] and [LoadAnnotations]: the image, its shape
    [(height, width)], the entry ['ori_shape'] and the ground truth in
    pixels. *)
Record CocoItem := {
  img : Z;
  img_shape : Z * Z;
  ori_shape : Z * Z;
  item_gt_bboxes : list (Q * Q * Q * Q);
  item_gt_labels : list Z
}.

(** Lines 225-229 and 236: [create_gt_box] on the coordinates of one box and
    [self.labels[label_id]].  [ScoredLabel(label=...)] has probability 0. *)
Definition create_gt_box (labels : list string) (project_labels : list Label)
    (coords : Q * Q * Q * Q) (label_id : Z) : res Shape :=
  let* label := list_getitem labels label_id in
  let* project_label := label_name_to_project_label project_labels label in
  let '(x1, y1, x2, y2) := coords in
  Ok (Box x1 y1 x2 y2 [{| sl_label := project_label; probability := 0 |}]).

(** Lines 224-243, for the item [self.coco_dataset[indx]]; [self.labels] and
    [self.project_labels] are parameters.  The dataset item takes its width
    and height from the image. *)
Definition MMDatasetAdapter_getitem (labels : list string) (project_labels : list Label)
    (item : CocoItem) : res DatasetItem :=
  let '(h, w) := ori_shape item in
  let bboxes :=
    List.map (fun '(x1, y1, x2, y2) =>
                (x1 / inject_Z w, y1 / inject_Z h, x2 / inject_Z w, y2 / inject_Z h)%Q)
      (item_gt_bboxes item) in
  let* shapes := comprehension (fun '(coords, label_id) =>
                                  create_gt_box labels project_labels coords label_id)
                   (List.combine bboxes (item_gt_labels item)) in
  Ok {| width := snd (img_shape item); height := fst (img_shape item);
        numpy := img item; shapes := shapes; subset := NONE |}.

(** ** task.py: [compute_performance] *)

Inductive ResultsetPurpose := EVALUATION | TEST | PREEVALUATION.

(** A result set: its purpose; the predictions and the ground truth are only
    handed to [MetricsHelper]. *)
Record ResultSetEntity := { purpose : ResultsetPurpose; resultset_id : Z }.

(** What [MetricsHelper.compute_f_measure] returns, as far as it is read. *)
Record FMeasureMetrics := {
  best_confidence_threshold : option Q;
  f_measure : Q;
  get_performance : Performance
}.

Record metrics_api := {
  (** [MetricsHelper.compute_f_measure(resultset, vary_confidence_threshold,
      vary_nms_threshold, cross_class_nms)] *)
  compute_f_measure : ResultSetEntity -> bool -> bool -> bool -> res FMeasureMetrics
}.

(** [params.postprocessing.confidence_threshold.value = x] *)
Definition set_confidence_threshold (x : Q) (params : MMDetectionParameters)
  : MMDetectionParameters :=
  {| learning_parameters := learning_parameters params;
     postprocessing :=
       {| confidence_threshold := x;
          result_based_confidence_threshold :=
            result_based_confidence_threshold (postprocessing params) |} |}.

(** [task_environment.set_configurable_parameters(params)] *)
Definition set_configurable_parameters (params : MMDetectionParameters)
    (te : TaskEnvironment) : TaskEnvironment :=
  {| te_model := te_model te; te_parameters := params; te_labels := te_labels te |}.

Section MoreTaskMethods.

Variable metrics_helper : metrics_api.

(** Lines 517-542. *)
Definition compute_performance (resultset : ResultSetEntity) : SE World Performance :=
  do* t := get_task in
  let params := te_parameters (task_environment t) in
  let result_based_confidence_threshold :=
    result_based_confidence_threshold (postprocessing params) in
  do* f_measure_metrics :=
    lift (compute_f_measure metrics_helper resultset result_based_confidence_threshold
            false false) in
  do* _ :=
    match purpose resultset with
    | EVALUATION =>
        do* params :=
          (if result_based_confidence_threshold then
             match best_confidence_threshold f_measure_metrics with
             | Some best => ret (set_confidence_threshold best params)
             | None => raise (PyErr ValueError
                                "Cannot compute metrics: Invalid confidence threshold!" None)
             end
           else ret params) in
        modify_task (fun t => set_task_environment
                                (set_configurable_parameters params (task_environment t)) t)
    | _ => ret tt
    end in
  ret (get_performance f_measure_metrics).

End MoreTaskMethods.

(** ** spn_head.py: [SPNHead.get_bboxes] *)

(** A predicted mask of one image at one level, as far as [get_bboxes] reads
    it: [mask_cpu.shape] is [(mask_height, mask_width)]. *)
Record MaskPrediction := { mask_id : Z; mask_width : Z; mask_height : Z }.

Record cv2_api := {
  (** [cv2.boundingRect(c)] for the contours [c] of the thresholded mask,
      approximated and unclipped (lines 173-181), in their order *)
  bounding_rects : MaskPrediction -> list (Z * Z * Z * Z)
}.

(** Lines 187-198, the body of the loop over the contours for the bounding
    rectangle of one of them: the row appended to [boxes], if any. *)
Definition proposal_row (mask : MaskPrediction) (rect : Z * Z * Z * Z) : option (list Q) :=
  let '(x, y, w, h) := rect in
  let '(xmin, ymin, xmax, ymax) := (x, y, x + w, y + h) in
  let xmin := Z.max 0 xmin in
  let ymin := Z.max 0 ymin in
  let xmax := Z.min xmax (mask_width mask - 1) in
  let ymax := Z.min ymax (mask_height mask - 1) in
  let min_side := 2 in
  if ((min_side <? xmax - xmin) && (min_side <? ymax - ymin))%Z
  then Some [inject_Z xmin; inject_Z ymin; inject_Z xmax; inject_Z ymax; 1%Q]
  else None.

(** Lines 186-198: the rows appended to [boxes] over the loop. *)
Fixpoint proposal_rows (mask : MaskPrediction) (rects : list (Z * Z * Z * Z)) : list (list Q) :=
  match rects with
  | [] => []
  | rect :: rects' =>
      match proposal_row mask rect with
      | Some row => row :: proposal_rows mask rects'
      | None => proposal_rows mask rects'
      end
  end.

Section SPNHead.

Variable cv2 : cv2_api.

(** Lines 155-217: one tensor of rows per level and image, empty when no
    contour gives a box. *)
Definition get_bboxes (mask_preds : list (list MaskPrediction)) : list (list (list Q)) :=
  List.flat_map
    (fun level_pred =>
       List.map (fun mask_in_batch =>
                   proposal_rows mask_in_batch (bounding_rects cv2 mask_in_batch))
         level_pred)
    mask_preds.

End SPNHead.

(** * Vocabulary of the properties *)

(** ** Annotations in mmdet format *)

Definition is_Box (s : Shape) : bool :=
  match s with Box _ _ _ _ _ => true | _ => false end.

(** The [Box] shapes of an item, in annotation order. *)
Definition boxes_of (it : DatasetItem) : list Shape := List.filter is_Box (shapes it).

Definition box_labels (s : Shape) : list ScoredLabel :=
  match s with
  | Box _ _ _ _ l | Ellipse _ _ _ _ l | Polygon _ l => l
  end.

Definition has_label (s : Shape) : bool :=
  match box_labels s with [] => false | _ :: _ => true end.

(** The corners of a box scaled by the image width and height. *)
Definition scaled_row (w h : Z) (s : Shape) : list Q :=
  match s with
  | Box x1 y1 x2 y2 _ =>
      [x1 * inject_Z w; y1 * inject_Z h; x2 * inject_Z w; y2 * inject_Z h]%Q
  | _ => []
  end.

(** The first label of the shape is one of the project's label names. *)
Definition first_label_known (label_list : list string) (s : Shape) : Prop :=
  match box_labels s with
  | l :: _ => In (name l) label_list
  | [] => True
  end.

(** [idx] is the position in [label_list] of the first label of [s]. *)
Definition first_label_index (label_list : list string) (s : Shape) (idx : Z) : Prop :=
  match box_labels s with
  | l :: _ => list_index (name l) label_list = Ok idx
  | [] => False
  end.

(** Exactly one [Box], and it carries no label. *)
Definition sentinel_case (it : DatasetItem) : bool :=
  match boxes_of it with
  | [b] => negb (has_label b)
  | _ => false
  end.

Definition sentinel_ann : ann_info :=
  {| bboxes := [[0; 0; 0; 0]%Q]; ann_labels := [-1] |}.

Definition with_shapes (it : DatasetItem) (l : list Shape) : DatasetItem :=
  {| width := width it; height := height it; numpy := numpy it;
     shapes := l; subset := subset it |}.

(** ** Predictions appended by [analyse] *)

(** A box as [analyse] may append it: inside the unit square, of positive
    width and height, labelled once with a probability of at least [thr]. *)
Definition box_ok (thr : Q) (s : Shape) : Prop :=
  match s with
  | Box x1 y1 x2 y2 [l] =>
      (0 <= x1 <= 1 /\ 0 <= y1 <= 1 /\ 0 <= x2 <= 1 /\ 0 <= y2 <= 1
       /\ 0 < x2 - x1 /\ 0 < y2 - y1 /\ thr <= probability l)%Q
  | _ => False
  end.

(** [it'] is [it] with valid boxes appended. *)
Definition appended_ok (thr : Q) (it it' : DatasetItem) : Prop :=
  exists new, it' = append_shapes it new /\ Forall (box_ok thr) new.

(** The confidence threshold in effect for a call of [analyse]. *)
Definition threshold_in_effect (t : Task) (analyse_parameters : option AnalyseParameters) : Q :=
  let p := postprocessing (te_parameters (task_environment t)) in
  match analyse_parameters with
  | Some {| is_evaluation := true |} =>
      if result_based_confidence_threshold p then 0%Q else confidence_threshold p
  | _ => confidence_threshold p
  end.

(** The detection is empty once it is clipped to the image. *)
Definition empty_after_clipping (width height : Z) (d : Detection) : Prop :=
  (clip01 (dy2 d / inject_Z height) - clip01 (dy1 d / inject_Z height) <= 0
   \/ clip01 (dx2 d / inject_Z width) - clip01 (dx1 d / inject_Z width) <= 0)%Q.

(** ** Composition of configuration files *)

(** The key path is about to be replaced or merged into by [a]: [a] holds a
    value at the path, or a value that is no dict at one of its prefixes, or a
    dict marked with a true ['_delete_'] at one of its prefixes. *)
Fixpoint touches (a : cfg) (p : list string) : bool :=
  match p with
  | [] => true
  | k :: p' =>
      match a with
      | CDict d =>
          match dict_get k d with
          | None => false
          | Some (CDict vd as v) =>
              truthy (default (CBool false) (dict_get DELETE_KEY vd)) || touches v p'
          | Some _ => true
          end
      | _ => true
      end
  end.

(** The value that is no dict which the file holds at the key path. *)
Definition leaf_at (file : config_dict) (p : list string) : option cfg :=
  match config_getattr file p with
  | Ok v => if is_dict v then None else Some v
  | Err _ => None
  end.

(** The value of the last file that defines the key path. *)
Definition last_defined (files : list config_dict) (p : list string) : option cfg :=
  List.fold_left (fun acc f => match leaf_at f p with Some v => Some v | None => acc end)
    files None.

(** The value at the key path in the last file that touches it, provided it
    is no dict there. *)
Definition last_touched (files : list config_dict) (p : list string) : option cfg :=
  List.fold_left (fun acc f => if touches (CDict f) p then leaf_at f p else acc) files None.

(** The names that are not [None], in order. *)
Fixpoint given {A} (names : list (option A)) : list A :=
  match names with
  | [] => []
  | Some f :: names' => f :: given names'
  | None :: names' => given names'
  end.

(** The contents of the files that are given, in order. *)
Definition parse_files (mmcv : mmcv_api) (names : list (option string)) : res (list config_dict) :=
  comprehension (fromfile mmcv) (given names).

(** ** Further vocabulary *)

(** The entry an item leaves at its key. *)
Inductive entry_result (rec : cfg -> list (string * cfg) -> res (list (string * cfg)))
    (k : string) (v : cfg) (b : list (string * cfg)) : cfg -> Prop :=
| entry_replaces :
    (is_dict v = false \/ dict_get k b = None) -> entry_result rec k v b v
| entry_deletes vd :
    v = CDict vd -> dict_get k b <> None ->
    truthy (default (CBool false) (dict_get DELETE_KEY vd)) = true ->
    entry_result rec k v b (CDict (dict_pop DELETE_KEY vd))
| entry_merges vd bkd m :
    v = CDict vd -> dict_get k b = Some (CDict bkd) ->
    truthy (default (CBool false) (dict_get DELETE_KEY vd)) = false ->
    rec v bkd = Ok m ->
    entry_result rec k v b (CDict m).

(** The statement of C5 as the specification words it: whatever the export or
    the collection of its files raises comes out as the [RuntimeError]. *)
Definition every_export_failure_is_wrapped : Prop :=
  forall mmdet sc_sdk os w ex,
    export_and_collect mmdet sc_sdk (inference_model (task w)) (temporary_directory os (fs w))
    = Err ex ->
    snd (_generate_openvino_model mmdet sc_sdk os w)
    = Err (raise_from RuntimeError optimization_unsuccessful ex).

(** [m] never changes the part [proj] of the world, whether it returns or
    raises. *)
Definition keeps {X A} (proj : World -> X) (m : SE World A) : Prop :=
  forall w, proj (fst (m w)) = proj w.

Definition env_of (w : World) : TaskEnvironment := task_environment (task w).
Definition train_model_of (w : World) : option TorchModule := train_model (task w).

(** The two paths part ways before either ends. *)
Fixpoint diverge (p q : list string) : bool :=
  match p, q with
  | a :: p', b :: q' => if String.eqb a b then diverge p' q' else true
  | _, _ => false
  end.

(** [config_from_string(config_to_string(config))] *)
Definition roundtrip (mmcv : mmcv_api) (c : config_dict) : res config_dict :=
  let* s := snd (config_to_string mmcv c) in
  config_from_string mmcv s.

(** [names] are the names of the label objects [labels]. *)
Definition names_of (labels names : list cfg) : Prop :=
  Forall2 (fun l n => exists lab, l = CObj (OLabel lab) /\ n = CStr (label_name lab))
    labels names.

(** The paths [config_to_string] overwrites in its copy. *)
Definition cleaned_paths : list (list string) :=
  [["data"; "test"; "ote_dataset"]; ["data"; "train"; "ote_dataset"];
   ["data"; "val"; "ote_dataset"]; ["labels"]].

(** The statement of C3 as the specification words it: at every key path, the
    result holds the value of the last file that defines the path (the only
    one, when a single file defines it). *)
Definition last_definition_wins : Prop :=
  forall mmcv model_file schedule_file dataset_file runtime_file cm cm' parsed p v,
    _compose_config mmcv model_file schedule_file dataset_file runtime_file cm = (cm', Ok tt) ->
    parse_files mmcv [model_file; schedule_file; dataset_file; runtime_file] = Ok parsed ->
    last_defined parsed p = Some v ->
    config_getattr (config cm') p = Ok v.

(** ** Vocabulary of the further properties *)

(** [c[k]] for a key of either kind: the entry of a dict, the element of a
    list. *)
Definition lookup_key (c : cfg) (k : key) : option cfg :=
  match c, k with
  | CDict d, KStr s => dict_get s d
  | CList l, KInt i => nth_error l i
  | _, _ => None
  end.

(** [c[k1][k2]...[kn]] *)
Fixpoint value_at (c : cfg) (p : list key) : option cfg :=
  match p with
  | [] => Some c
  | k :: p' =>
      match lookup_key c k with
      | Some c' => value_at c' p'
      | None => None
      end
  end.

(** The row of a ground-truth box. *)
Definition coords_row (b : Q * Q * Q * Q) : list Q :=
  let '(x1, y1, x2, y2) := b in [x1; y1; x2; y2].

(** The paths [update_dataset_subsets] writes. *)
Definition dataset_paths : list (list string) :=
  [["data"; "test"; "ote_dataset"]; ["data"; "train"; "ote_dataset"];
   ["data"; "val"; "ote_dataset"]].

(** [c'] is [c] with the three subsets of [dataset] in place, and nothing
    else changed. *)
Definition subsets_set (dataset : Dataset) (c c' : config_dict) : Prop :=
  config_getattr c' ["data"; "test"; "ote_dataset"]
  = Ok (CObj (ODataset (get_subset dataset TESTING)))
  /\ config_getattr c' ["data"; "train"; "ote_dataset"]
     = Ok (CObj (ODataset (get_subset dataset TRAINING)))
  /\ config_getattr c' ["data"; "val"; "ote_dataset"]
     = Ok (CObj (ODataset (get_subset dataset VALIDATION)))
  /\ forall q, forallb (fun p => diverge p q) dataset_paths = true ->
       config_getattr c' q = config_getattr c q.

(** The paths [set_data_classes] writes. *)
Definition classes_paths : list (list string) :=
  [["data"; "train"; "classes"]; ["data"; "val"; "classes"]; ["data"; "test"; "classes"]].

(** The computation never gives a configuration an [optimizer] section that
    has none, and raises nothing but [AttributeError]. *)
Definition without_optimizer {A} (m : SE ConfigManager A) : Prop :=
  forall cm,
    dict_get "optimizer" (config cm) = None ->
    dict_get "optimizer" (config (fst (m cm))) = None
    /\ forall e, snd (m cm) = Err e -> exn_cls e = AttributeError.


(** How a result [x] of a search for [k] below the keys [prior] comes from
    the entry [c'] at the key [a] of the value searched: it is that entry, [a]
    being the key searched, or an occurrence of the key inside the entry. *)
Definition found_at (k : key) (prior : list key) (x : cfg * list key) (a : key) (c' : cfg)
  : Prop :=
  (key_eqb a k = true /\ x = (c', prior))
  \/ (exists p', snd x = prior ++ a :: p' /\ value_at c' (p' ++ [k]) = Some (fst x)).

(** The results of a search in [c] are the results so far and the occurrences
    of the key in [c]: the value at the key, with the keys that lead to it. *)
Definition search_spec (k : key) (c : cfg) : Prop :=
  forall prior results x,
    In x (_search_in_config_dict c k prior results)
    <-> In x results
        \/ exists p, snd x = prior ++ p /\ value_at c (p ++ [k]) = Some (fst x).

(** [item['gt_bboxes'] / divisor] for one box. *)
Definition scaled_down (w h : Z) (b : Q * Q * Q * Q) : Q * Q * Q * Q :=
  let '(x1, y1, x2, y2) := b in
  (x1 / inject_Z w, y1 / inject_Z h, x2 / inject_Z w, y2 / inject_Z h)%Q.

(** A row of proposals for [mask]: a box inside the mask whose sides are
    longer than two pixels, with score 1. *)
Definition proposal_in_mask (mask : MaskPrediction) (row : list Q) : Prop :=
  exists xmin ymin xmax ymax,
    row = [inject_Z xmin; inject_Z ymin; inject_Z xmax; inject_Z ymax; 1%Q]
    /\ 0 <= xmin /\ 0 <= ymin
    /\ xmax <= mask_width mask - 1 /\ ymax <= mask_height mask - 1
    /\ 2 < xmax - xmin /\ 2 < ymax - ymin.

(** * Sample data for the instances of the properties *)

Definition sample_label (n : string) : ScoredLabel :=
  {| sl_label := {| label_name := n |}; probability := 1 |}.

Definition sample_item : DatasetItem :=
  {| width := 640; height := 480; numpy := 0;
     shapes := [Box (1#4) (1#4) (1#2) (1#2) [sample_label "ellipse"];
                Ellipse 0 0 1 1 [sample_label "ellipse"];
                Box 0 0 1 1 []];
     subset := TRAINING |}.

Definition sample_labels : list Label :=
  [{| label_name := "rectangle" |}; {| label_name := "ellipse" |}].

Definition sample_dataset : Dataset := {| ds_id := 7; ds_items := [sample_item] |}.

Definition sample_subset_cfg : cfg :=
  CDict [("type", CStr "OTEDataset"); ("ote_dataset", CNone); ("classes", CNone)].

Definition sample_config : config_dict :=
  [("model", CDict [("type", CStr "SingleStageDetector"); ("pretrained", CNone)]);
   ("data", CDict [("samples_per_gpu", CInt 2); ("workers_per_gpu", CInt 2);
                   ("train", sample_subset_cfg); ("val", sample_subset_cfg);
                   ("test", sample_subset_cfg)]);
   ("runner", CDict [("type", CStr "EpochBasedRunner"); ("max_epochs", CInt 5);
                     ("meta", CDict [])]);
   ("log_config", CDict [("interval", CInt 10); ("hooks", CList [])]);
   ("optimizer", CDict [("type", CStr "SGD"); ("lr", CFloat (1 # 100))]);
   ("lr_config", CDict [("policy", CStr "step")]);
   ("gpu_ids", CList [CInt 0]);
   ("work_dir", CStr "/tmp/ote-scratch-0");
   ("seed", CInt 42);
   ("labels", CList (List.map (fun l => CObj (OLabel l)) sample_labels))].

Definition sample_module : TorchModule :=
  {| weights := [("backbone.weight", [1; 2]%Q)]; mcfg := Some sample_config; training := false |}.

Definition sample_parameters : MMDetectionParameters :=
  {| learning_parameters :=
       {| learning_rate_schedule := "custom"; learning_rate_warmup_iters := PInt 3;
          num_epochs := PInt 5; learning_rate := PFloat (1 # 100); batch_size := PInt 2 |};
     postprocessing :=
       {| confidence_threshold := 1 # 2; result_based_confidence_threshold := true |} |}.

Definition sample_task : Task :=
  {| scratch_space := "/tmp/ote-scratch-0";
     task_environment := {| te_model := NullModel; te_parameters := sample_parameters;
                            te_labels := sample_labels |};
     config_manager := {| config := sample_config;
                          custom_lr_schedule :=
                            [("optimizer", CDict [("type", CStr "SGD"); ("lr", CFloat (1 # 100))]);
                             ("lr_config", CDict [("policy", CStr "step")])];
                          model_name := "some_detection_model";
                          label_names := ["rectangle"; "ellipse"] |};
     should_stop := false;
     is_training := false;
     n_samples_in_current_training_set := 0;
     train_model := Some sample_module;
     inference_model := Some sample_module;
     learning_curves := [] |}.

Definition sample_world : World :=
  {| task := sample_task;
     fs := {| dirs := {[ "/tmp/ote-scratch-0" ]}; files := ∅ |} |}.

(** Three detections of class 0: a good one, one below the threshold and one
    that is empty after clipping. *)
Definition sample_output : Output :=
  [[{| dx1 := 64; dy1 := 48; dx2 := 320; dy2 := 240; dscore := 9 # 10 |};
    {| dx1 := 64; dy1 := 48; dx2 := 320; dy2 := 240; dscore := 1 # 10 |};
    {| dx1 := 700; dy1 := 48; dx2 := 900; dy2 := 240; dscore := 9 # 10 |}]; []].

Definition sample_dataset_of (c : cfg) : res OTEDataset :=
  match c with
  | CDict d =>
      match dict_get "ote_dataset" d with
      | Some (CObj (ODataset ds)) =>
          Ok {| ote_dataset := ds; CLASSES := ["rectangle"; "ellipse"]; test_mode := false |}
      | _ => Err (PyErr TypeError "ote_dataset" None)
      end
  | _ => Err (PyErr TypeError "cfg must be a dict" None)
  end.

(** A framework that detects [sample_output] in every image and whose
    training writes the checkpoints mmdet's runner writes. *)
Definition sample_mmdet : mmdet_api :=
  {| build_detector := fun _ => Ok {| weights := [("backbone.weight", [0; 0]%Q)];
                                      mcfg := None; training := true |};
     load_checkpoint := fun m _ => Ok m;
     inference_detector := fun _ _ => Ok sample_output;
     build_dataset := sample_dataset_of;
     single_gpu_test := fun _ d => Ok (List.map (fun _ => sample_output) (ds_items (ote_dataset d)));
     evaluate_mAP := fun _ _ => Ok (1 # 4)%Q;
     train_detector := fun m _ c f =>
       Ok {| trained_model := {| weights := [("backbone.weight", [3; 4]%Q)];
                                 mcfg := mcfg m; training := true |};
             trained_fs := f; trained_curves := [("loss", ([1], [1 # 2]))%Q];
             elapsed := 60 |};
     export_model := fun _ _ => Ok ["otedet"; "model.bin"; "model.xml"] |}.

Definition sample_sc_sdk : sc_sdk_api :=
  {| save_file_at_path := fun path folder => Ok ("binary://" +:+ folder +:+ path) |}.

Definition sample_os : os_api := {| temporary_directory := fun _ => "/tmp/tmpq1w2e3" |}.

(** The user interrupts the export. *)
Definition interrupted_mmdet : mmdet_api :=
  {| build_detector := build_detector sample_mmdet;
     load_checkpoint := load_checkpoint sample_mmdet;
     inference_detector := inference_detector sample_mmdet;
     build_dataset := build_dataset sample_mmdet;
     single_gpu_test := single_gpu_test sample_mmdet;
     evaluate_mAP := evaluate_mAP sample_mmdet;
     train_detector := train_detector sample_mmdet;
     export_model := fun _ _ => Err (PyErr KeyboardInterrupt "" None) |}.

Definition sample_weights : StateDict := [("backbone.weight", [3; 4]%Q)].

(** The configuration as [config_to_string] prints it: no datasets, labels
    by name. *)
Definition sample_printed_config : config_dict :=
  dict_set "labels" (CList [CStr "rectangle"; CStr "ellipse"]) sample_config.

Definition sample_artifact : pyvalue :=
  VDict [("state_dict", VState sample_weights); ("config", VStr "model = dict(...)")].

Definition sample_mmcv : mmcv_api :=
  {| fromfile := fun f =>
       if String.eqb f "schedules/step.py"
       then Ok [("optimizer", CDict [("type", CStr "SGD"); ("lr", CFloat (1 # 50))]);
                ("lr_config", CDict [("policy", CStr "step"); ("step", CList [CInt 8; CInt 11])])]
       else Err (PyErr FileNotFoundError f None);
     fromfile_text := fun text =>
       if String.eqb text "model = dict(...)" then Ok sample_printed_config
       else Err (PyErr ValueError "invalid syntax" None);
     pretty_text := fun _ => "model = dict(...)" |}.

(** [load_state_dict] is strict: the parameter names must be the model's. *)
Definition sample_torch : torch_api :=
  {| torch_save := fun _ => "PK-sample-artifact";
     torch_load := fun blob =>
       if String.eqb blob "PK-sample-artifact" then Ok sample_artifact
       else Err (PyErr RuntimeError "invalid load key" None);
     load_state_dict := fun m v =>
       match v with
       | VState sd =>
           if bool_decide (List.map fst sd = List.map fst (weights m))
           then Ok {| weights := sd; mcfg := mcfg m; training := training m |}
           else Err (PyErr RuntimeError "Error(s) in loading state_dict" None)
       | _ => Err (PyErr AttributeError "object has no attribute 'copy'" None)
       end |}.

Definition sample_saved_environment : TaskEnvironment :=
  {| te_model := SavedModel "PK-sample-artifact"
                   {| score := 3 # 4; dashboard_metrics := [] |} sample_dataset 60;
     te_parameters := sample_parameters;
     te_labels := sample_labels |}.

Definition sample_trained_world : World :=
  {| task := set_train_model
               (Some {| weights := sample_weights; mcfg := Some sample_config;
                        training := true |}) sample_task;
     fs := fs sample_world |}.

Definition sample_config_mapper : ConfigMappings :=
  {| get_schedule_file := fun n =>
       if String.eqb n "step" then Ok "schedules/step.py"
       else Err (PyErr KeyError n None);
     get_schedule_friendly_name := fun n => Ok ("Schedule " +:+ n) |}.

Definition cancel_early : Cancellation :=
  {| cancel_before_training := true; cancel_while_training := false |}.

Definition cancel_late : Cancellation :=
  {| cancel_before_training := false; cancel_while_training := true |}.

Definition sample_setup (c : Cancellation) :=
  train_setup sample_mmcv sample_mmdet c sample_dataset None sample_world.

Definition setup_locals (c : Cancellation) : OTEDataset * option TorchModule * bool * Q * bool :=
  match snd (sample_setup c) with
  | Ok a => a
  | Err _ => ({| ote_dataset := sample_dataset; CLASSES := []; test_mode := false |},
              None, false, 0%Q, false)
  end.

Definition sample_train (c : Cancellation) :=
  train sample_mmcv sample_config_mapper sample_torch sample_mmdet c sample_dataset None
    sample_world.

(** A configuration with a dataset in it, as [train] leaves the manager's. *)
Definition sample_config_with_dataset : config_dict :=
  dict_set "data"
    (CDict [("samples_per_gpu", CInt 2); ("workers_per_gpu", CInt 2);
            ("train", CDict [("type", CStr "OTEDataset");
                             ("ote_dataset", CObj (ODataset sample_dataset));
                             ("classes", CNone)]);
            ("val", sample_subset_cfg); ("test", sample_subset_cfg)])
    sample_config.

(** The model file configures the training of the head; the dataset file sets
    the same section to [None]. *)
Definition overriding_mmcv : mmcv_api :=
  {| fromfile := fun f =>
       if String.eqb f "model.py"
       then Ok [("train_cfg", CDict [("assigner", CStr "MaxIoUAssigner")])]
       else if String.eqb f "data.py" then Ok [("train_cfg", CNone)]
       else Err (PyErr FileNotFoundError f None);
     fromfile_text := fromfile_text sample_mmcv;
     pretty_text := pretty_text sample_mmcv |}.

(** Three layers: the runtime file overrides the learning rate of the model
    file and leaves the optimizer type alone. *)
Definition layered_mmcv : mmcv_api :=
  {| fromfile := fun f =>
       if String.eqb f "model.py"
       then Ok [("model", CDict [("type", CStr "SingleStageDetector")]);
                ("optimizer", CDict [("type", CStr "SGD"); ("lr", CFloat (1 # 100))])]
       else if String.eqb f "data.py"
       then Ok [("data", CDict [("samples_per_gpu", CInt 2)])]
       else if String.eqb f "runtime.py"
       then Ok [("optimizer", CDict [("lr", CFloat (1 # 50))]);
                ("runner", CDict [("max_epochs", CInt 5)])]
       else Err (PyErr FileNotFoundError f None);
     fromfile_text := fromfile_text sample_mmcv;
     pretty_text := pretty_text sample_mmcv |}.

(** ** Sample data for the further properties *)

(** An image of 640 x 480 pixels with two boxes, an ellipse and a
    rectangle. *)
Definition sample_coco_item : CocoItem :=
  {| img := 0; img_shape := (480, 640); ori_shape := (480, 640);
     item_gt_bboxes := [(64, 48, 320, 240)%Q; (0, 0, 640, 480)%Q];
     item_gt_labels := [1; 0] |}.

(** A two-stage detector with a cascade of two box heads. *)
Definition sample_cascade_config : config_dict :=
  [("model",
    CDict [("type", CStr "CascadeRCNN");
           ("roi_head",
            CDict [("type", CStr "CascadeRoIHead");
                   ("bbox_head",
                    CList [CDict [("type", CStr "Shared2FCBBoxHead"); ("num_classes", CInt 80)];
                           CDict [("type", CStr "Shared2FCBBoxHead");
                                  ("num_classes", CInt 80)]])]);
           ("bbox_head", CDict [("num_classes", CInt 80)])])].

Definition sample_cascade_manager : ConfigManager :=
  {| config := sample_cascade_config; custom_lr_schedule := [];
     model_name := "cascade"; label_names := ["rectangle"; "ellipse"] |}.

(** A manager whose model file defines no optimizer. *)
Definition sample_manager_without_optimizer : ConfigManager :=
  {| config := sample_config;
     custom_lr_schedule := [("lr_config", CDict [("policy", CStr "step")])];
     model_name := "some_detection_model"; label_names := ["rectangle"; "ellipse"] |}.

(** A file that makes a section of what the configuration holds as a
    number. *)
Definition clashing_mmcv : mmcv_api :=
  {| fromfile := fun f =>
       if String.eqb f "clash.py" then Ok [("seed", CDict [("value", CInt 1)])]
       else Err (PyErr FileNotFoundError f None);
     fromfile_text := fromfile_text sample_mmcv;
     pretty_text := pretty_text sample_mmcv |}.

(** An export that writes no [.bin] file. *)
Definition binless_mmdet : mmdet_api :=
  {| build_detector := build_detector sample_mmdet;
     load_checkpoint := load_checkpoint sample_mmdet;
     inference_detector := inference_detector sample_mmdet;
     build_dataset := build_dataset sample_mmdet;
     single_gpu_test := single_gpu_test sample_mmdet;
     evaluate_mAP := evaluate_mAP sample_mmdet;
     train_detector := train_detector sample_mmdet;
     export_model := fun _ _ => Ok ["otedet"; "model.xml"] |}.

(** An F-measure whose best threshold is 0.3 when the threshold is varied. *)
Definition sample_metrics : metrics_api :=
  {| compute_f_measure := fun _ vary _ _ =>
       Ok {| best_confidence_threshold := if vary then Some (3 # 10) else None;
             f_measure := 4 # 5;
             get_performance := {| score := 4 # 5; dashboard_metrics := [] |} |} |}.

Definition sample_resultset : ResultSetEntity := {| purpose := EVALUATION; resultset_id := 1 |}.

(** The checkpoints a training run leaves in the work directory. *)
Definition checkpoint_torch : torch_api :=
  {| torch_save := torch_save sample_torch;
     torch_load := fun blob =>
       if String.eqb blob "ckpt-latest"
       then Ok (VDict [("meta",
                        VDict [("hook_msgs",
                                VDict [("best_ckpt", VStr "best_mAP.pth");
                                       ("best_score", VNum (3 # 4))])])])
       else if String.eqb blob "ckpt-best"
       then Ok (VDict [("state_dict", VState sample_weights)])
       else torch_load sample_torch blob;
     load_state_dict := load_state_dict sample_torch |}.

Definition sample_checkpoint_fs : FS :=
  {| dirs := {[ "/tmp/ote-scratch-0" ]};
     files := <["/tmp/ote-scratch-0/latest.pth" := "ckpt-latest"]>
                {[ "/tmp/ote-scratch-0/best_mAP.pth" := "ckpt-best" ]} |}.

(** After the first training round: no model in the task environment yet. *)
Definition sample_checkpoint_world : World :=
  {| task := sample_task; fs := sample_checkpoint_fs |}.

(** After a later training round: the task environment has a model. *)
Definition sample_retrained_world : World :=
  {| task := set_task_environment sample_saved_environment sample_task;
     fs := sample_checkpoint_fs |}.

Definition sample_best_world : World :=
  fst (_load_best_model_and_check_if_model_improved checkpoint_torch 0 false
         sample_checkpoint_world).

Definition sample_dashboard : list MetricsGroup :=
  [{| metrics := [InfoMetric "Model architecture" "some_detection_model"];
      visualization_info := TextInfo "Model architecture" |};
   {| metrics := [InfoMetric "Model architecture" "Schedule step"];
      visualization_info := TextInfo "Learning rate schedule" |}].

(** A scratch space in which round 0 has been removed and round 1 is left. *)
Definition sample_gap_world : World :=
  {| task := sample_task;
     fs := {| dirs := {[ "/tmp/ote-scratch-0"; "/tmp/ote-scratch-0/checkpoints_round_1" ]};
              files := ∅ |} |}.

(** A task whose training was cancelled after it had ended. *)
Definition sample_stale_world : World :=
  {| task := set_should_stop true sample_task; fs := fs sample_world |}.

Definition no_cancel : Cancellation :=
  {| cancel_before_training := false; cancel_while_training := false |}.

Definition stale_setup :=
  train_setup sample_mmcv sample_mmdet no_cancel sample_dataset None sample_stale_world.

Definition stale_locals : OTEDataset * option TorchModule * bool * Q * bool :=
  match snd stale_setup with
  | Ok a => a
  | Err _ => ({| ote_dataset := sample_dataset; CLASSES := []; test_mode := false |},
              None, false, 0%Q, false)
  end.

(** * Properties *)


(** ** [get_annotation_mmdet_format] *)

Section Annotation.

Variables (w h : Z) (label_list : list string).

Lemma index_from_found x l i :
  In x l -> exists k, index_from x l i = Ok k.
Proof.
  revert i. induction l as [|y l IH]; intros i Hin; simpl in *.
  - contradiction.
  - destruct (String.eqb x y) eqn:E.
    + eauto.
    + destruct Hin as [->|Hin].
      * rewrite String.eqb_refl in E. discriminate.
      * apply IH, Hin.
Qed.

(** Non-[Box] shapes leave the loop state alone. *)
Lemma annotation_loop_filter l st :
  for_each (annotation_step w h label_list) l st
  = for_each (annotation_step w h label_list) (List.filter is_Box l) st.
Proof.
  revert st. induction l as [|s l IH]; intros st; simpl; [reflexivity|].
  destruct s as [x1 y1 x2 y2 labels| |].
  - cbn [List.filter is_Box for_each].
    destruct (annotation_step w h label_list st (Box x1 y1 x2 y2 labels)) as [st'|e];
      cbn [res_bind]; [apply IH | reflexivity].
  - cbn [List.filter is_Box for_each annotation_step res_bind]. apply IH.
  - cbn [List.filter is_Box for_each annotation_step res_bind]. apply IH.
Qed.

(** The loop invariant: rows and label indices are appended in order, and
    [is_empty_label] describes the last box visited. *)
Lemma annotation_loop_boxes l : forall st,
  Forall (fun s => is_Box s = true) l ->
  Forall (first_label_known label_list) l ->
  exists idxs,
    for_each (annotation_step w h label_list) l st
    = Ok {| gt_bboxes := gt_bboxes st ++ List.map (scaled_row w h) l;
            gt_labels := gt_labels st ++ idxs;
            is_empty_label :=
              List.fold_left (fun _ b => Some (negb (has_label b))) l (is_empty_label st) |}
    /\ Forall2 (first_label_index label_list) (List.filter has_label l) idxs.
Proof.
  induction l as [|s l IH]; intros st Hb Hk.
  - exists []. simpl. rewrite !app_nil_r. destruct st; split; [reflexivity|constructor].
  - inversion Hb as [|? ? Hs Hb']; inversion Hk as [|? ? Hks Hk']; subst.
    destruct s as [x1 y1 x2 y2 labels| |]; try discriminate.
    destruct labels as [|lab labels].
    + destruct (IH {| gt_bboxes := gt_bboxes st ++ [scaled_row w h (Box x1 y1 x2 y2 [])];
                      gt_labels := gt_labels st; is_empty_label := Some true |} Hb' Hk')
        as (idxs & Hrun & Hidx).
      exists idxs. split; [|exact Hidx].
      cbn [for_each annotation_step res_bind]. cbn [scaled_row] in Hrun. rewrite Hrun.
      cbn [gt_bboxes gt_labels is_empty_label]. rewrite <- app_assoc. reflexivity.
    + unfold first_label_known in Hks; simpl in Hks.
      destruct (index_from_found _ _ 0 Hks) as [k Hkidx].
      destruct (IH {| gt_bboxes := gt_bboxes st ++ [scaled_row w h (Box x1 y1 x2 y2 (lab :: labels))];
                      gt_labels := gt_labels st ++ [k]; is_empty_label := Some false |} Hb' Hk')
        as (idxs & Hrun & Hidx).
      exists (k :: idxs). split.
      * cbn [for_each annotation_step res_bind]. unfold list_index. rewrite Hkidx.
        cbn [res_bind]. cbn [scaled_row] in Hrun. rewrite Hrun.
        cbn [gt_bboxes gt_labels is_empty_label]. rewrite <- !app_assoc. reflexivity.
      * simpl. constructor; [exact Hkidx | exact Hidx].
Qed.

End Annotation.

Lemma boxes_of_are_boxes it : Forall (fun s => is_Box s = true) (boxes_of it).
Proof.
  unfold boxes_of. induction (shapes it) as [|s l IH]; simpl; [constructor|].
  destruct (is_Box s) eqn:E; [constructor; assumption | assumption].
Qed.

(** C9. For every dataset item whose boxes are labelled with names of
    [label_list], [get_annotation_mmdet_format] returns: in the sentinel case
    (exactly one [Box], carrying no label) [bboxes = [[0,0,0,0]]] and
    [labels = [-1]]; otherwise one row per [Box], its corners scaled by the image
    width and height, and one label index per [Box] that has a label.  Shapes
    that are not a [Box] never influence the result. *)
Theorem get_annotation_mmdet_format_boxes (it : DatasetItem) (label_list : list string) :
  Forall (first_label_known label_list) (boxes_of it) ->
  get_annotation_mmdet_format it label_list
  = get_annotation_mmdet_format (with_shapes it (boxes_of it)) label_list
  /\ exists r,
      get_annotation_mmdet_format it label_list = Ok r
      /\ if sentinel_case it then r = sentinel_ann
         else bboxes r = List.map (scaled_row (width it) (height it)) (boxes_of it)
              /\ Forall2 (first_label_index label_list)
                   (List.filter has_label (boxes_of it)) (ann_labels r).
Proof.
  intros Hk. split.
  - unfold get_annotation_mmdet_format, with_shapes, boxes_of; cbn [width height shapes].
    now rewrite <- annotation_loop_filter.
  - unfold get_annotation_mmdet_format. rewrite annotation_loop_filter.
    fold (boxes_of it).
    destruct (annotation_loop_boxes (width it) (height it) label_list (boxes_of it)
                {| gt_bboxes := []; gt_labels := []; is_empty_label := None |}
                (boxes_of_are_boxes it) Hk) as (idxs & Hrun & Hidx).
    rewrite Hrun. cbn [res_bind gt_bboxes gt_labels is_empty_label app].
    unfold annotation_result, sentinel_case. cbn [gt_bboxes gt_labels is_empty_label].
    rewrite length_map.
    destruct (boxes_of it) as [|b [|b' bs]] eqn:Hboxes.
    + eexists; split; [reflexivity|]. simpl. split; [reflexivity|exact Hidx].
    + cbn [List.length Z.of_nat Pos.of_succ_nat Z.eqb Pos.eqb fold_left].
      destruct (has_label b) eqn:Hl; cbn [negb].
      * eexists; split; [reflexivity|]. split; [reflexivity|].
        cbn [List.filter] in *. rewrite Hl in *. exact Hidx.
      * eexists; split; reflexivity.
    + replace (Z.of_nat (List.length (b :: b' :: bs)) =? 1)%Z with false
        by (symmetry; apply Z.eqb_neq; cbn [List.length]; lia).
      eexists; split; [reflexivity|]. split; [reflexivity|exact Hidx].
Qed.

Lemma get_annotation_mmdet_format_boxes_witness :
  Forall (first_label_known ["rectangle"; "ellipse"]) (boxes_of sample_item)
  /\ exists r,
      get_annotation_mmdet_format sample_item ["rectangle"; "ellipse"] = Ok r
      /\ bboxes r = [[(1#4) * 640; (1#4) * 480; (1#2) * 640; (1#2) * 480];
                     [0 * 640; 0 * 480; 1 * 640; 1 * 480]]%Q
      /\ Forall2 (first_label_index ["rectangle"; "ellipse"])
           [Box (1#4) (1#4) (1#2) (1#2) [sample_label "ellipse"]] (ann_labels r).
Proof.
  assert (Hk : Forall (first_label_known ["rectangle"; "ellipse"]) (boxes_of sample_item))
    by (repeat constructor; simpl; auto).
  split; [exact Hk|].
  exact (proj2 (get_annotation_mmdet_format_boxes sample_item ["rectangle"; "ellipse"] Hk)).
Defined.

(** ** Generic facts about loops and the state monad *)

Lemma for_each_invariant {A S} (P : S -> Prop) (body : S -> A -> res S) xs :
  (forall s a s', P s -> body s a = Ok s' -> P s') ->
  forall s0 s, P s0 -> for_each body xs s0 = Ok s -> P s.
Proof.
  intros Hbody. induction xs as [|x xs IH]; intros s0 s H0 Hrun; simpl in Hrun.
  - now inversion Hrun; subst.
  - destruct (body s0 x) as [s1|e] eqn:E; simpl in Hrun; [|discriminate].
    eapply IH; [|exact Hrun]. eapply Hbody; eauto.
Qed.

Lemma bind_Ok {S A B} (m : SE S A) (f : A -> SE S B) s s' b :
  bind m f s = (s', Ok b) ->
  exists s1 a, m s = (s1, Ok a) /\ f a s1 = (s', Ok b).
Proof.
  unfold bind. destruct (m s) as [s1 [a|e]]; intros H; [eauto | discriminate].
Qed.

Lemma lift_Ok {S A} (r : res A) (s s' : S) a :
  lift r s = (s', Ok a) -> s' = s /\ r = Ok a.
Proof. unfold lift. intros H. now inversion H. Qed.

Lemma res_bind_Ok {A B} (m : res A) (f : A -> res B) b :
  res_bind m f = Ok b -> exists a, m = Ok a /\ f a = Ok b.
Proof. destruct m; simpl; intros H; [eauto | discriminate]. Qed.

(** ** [analyse] *)

Lemma clip01_range x : (0 <= clip01 x <= 1)%Q.
Proof.
  unfold clip01. split.
  - apply Q.min_glb; [apply Q.le_max_r | discriminate].
  - apply Q.le_min_r.
Qed.

Lemma detection_shape_valid config w h thr idx d box :
  detection_shape config w h thr idx d = Ok (Some box) -> box_ok thr box.
Proof.
  unfold detection_shape.
  destruct (Qltb (dscore d) thr) eqn:Ethr; [discriminate|].
  intros H. apply res_bind_Ok in H as (labels & _ & H).
  apply res_bind_Ok in H as (label & _ & H).
  destruct (Qle_bool _ 0 || Qle_bool _ 0) eqn:Edeg; [discriminate|].
  inversion H; subst; clear H.
  apply orb_false_elim in Edeg as [Ey Ex].
  unfold Qltb in Ethr. apply negb_false_iff, Qle_bool_iff in Ethr.
  cbn [box_ok probability].
  repeat split; try apply clip01_range; try assumption.
  - apply Qnot_le_lt. intros Hle. apply Qle_bool_iff in Hle. congruence.
  - apply Qnot_le_lt. intros Hle. apply Qle_bool_iff in Hle. congruence.
Qed.

(** A detection below the threshold is skipped before anything else is
    looked at. *)
Lemma detection_shape_below_threshold config w h thr idx d :
  (dscore d < thr)%Q -> detection_shape config w h thr idx d = Ok None.
Proof.
  intros Hp. unfold detection_shape.
  destruct (Qltb (dscore d) thr) eqn:Ethr; [reflexivity|].
  unfold Qltb in Ethr. apply negb_false_iff, Qle_bool_iff in Ethr.
  exfalso. eapply Qlt_not_le; eauto.
Qed.

(** An empty detection is skipped without an exception once its class has
    been given its label. *)
Lemma detection_shape_empty config w h thr idx d labels label :
  config_getattr config ["labels"] = Ok labels ->
  label_at labels idx = Ok label ->
  empty_after_clipping w h d ->
  detection_shape config w h thr idx d = Ok None.
Proof.
  intros Hl Hi Hrej. unfold detection_shape.
  destruct (Qltb (dscore d) thr) eqn:Ethr; [reflexivity|].
  rewrite Hl; cbn [res_bind]. rewrite Hi; cbn [res_bind].
  destruct Hrej as [Hy | Hx].
  - apply Qle_bool_iff in Hy. rewrite Hy. reflexivity.
  - apply Qle_bool_iff in Hx. rewrite Hx. now rewrite orb_true_r.
Qed.

Lemma output_shapes_valid config w h thr output shapes :
  output_shapes config w h thr output = Ok shapes -> Forall (box_ok thr) shapes.
Proof.
  unfold output_shapes.
  apply (for_each_invariant (Forall (box_ok thr))); [|constructor].
  intros s [idx dets] s' Hs.
  apply (for_each_invariant (Forall (box_ok thr))); [|exact Hs].
  clear. intros s d s' Hs H.
  apply res_bind_Ok in H as ([box|] & Hd & H); inversion H; subst; [|exact Hs].
  apply Forall_app; split; [exact Hs|].
  constructor; [|constructor]. eapply detection_shape_valid; eauto.
Qed.

Lemma append_shapes_nil it : it = append_shapes it [].
Proof. destruct it; unfold append_shapes; simpl. now rewrite app_nil_r. Qed.

Lemma assign_predictions_valid config thr items : forall results items',
  assign_predictions config thr items results = Ok items' ->
  Forall2 (appended_ok thr) items items'.
Proof.
  induction items as [|it items IH]; intros results items' H.
  - simpl in H. inversion H; subst. constructor.
  - destruct results as [|output results].
    + simpl in H. inversion H; subst.
      apply Forall2_same_length_lookup_2; [reflexivity|].
      intros i x y Hx Hy. assert (x = y) by congruence. subst y.
      exists []. split; [apply append_shapes_nil | constructor].
    + cbn [assign_predictions] in H.
      apply res_bind_Ok in H as (shapes & Hshapes & H).
      apply res_bind_Ok in H as (rest & Hrest & H).
      inversion H; subst. constructor; [|eapply IH; eauto].
      exists shapes. split; [reflexivity|]. eapply output_shapes_valid; eauto.
Qed.

Lemma _get_confidence_in_effect ap w :
  _get_confidence (match ap with Some p => is_evaluation p | None => false end) w
  = (w, Ok (threshold_in_effect (task w) ap)).
Proof.
  unfold _get_confidence, threshold_in_effect, bind, get_task, ret.
  destruct ap as [[[|]]|]; reflexivity.
Qed.

(** C10. Every [Box] that [analyse] appends to a dataset item lies in the unit
    square, has positive width and height and carries a label whose probability
    is at least the confidence threshold in effect; a detection below the
    threshold, or empty after clipping, is skipped without an exception being
    raised. *)
Theorem analyse_appends_valid_boxes (mmdet : mmdet_api) dataset analyse_parameters w :
  (forall w' dataset',
      analyse mmdet dataset analyse_parameters w = (w', Ok dataset') ->
      Forall2 (appended_ok (threshold_in_effect (task w) analyse_parameters))
        (ds_items dataset) (ds_items dataset'))
  /\ (forall config width height thr label_idx d,
         (dscore d < thr)%Q ->
         detection_shape config width height thr label_idx d = Ok None)
  /\ (forall config width height thr label_idx d labels label,
         config_getattr config ["labels"] = Ok labels ->
         label_at labels label_idx = Ok label ->
         empty_after_clipping width height d ->
         detection_shape config width height thr label_idx d = Ok None).
Proof.
  split; [|split; intros; [now apply detection_shape_below_threshold
                          | eapply detection_shape_empty; eauto]].
  intros w' dataset' H. unfold analyse in H.
  apply bind_Ok in H as (w1 & thr & Hthr & H).
  rewrite _get_confidence_in_effect in Hthr. inversion Hthr; subst w1 thr; clear Hthr.
  apply bind_Ok in H as (w2 & results & _ & H).
  apply bind_Ok in H as (w3 & t & _ & H).
  apply bind_Ok in H as (w4 & items & Hitems & H).
  apply lift_Ok in Hitems as [_ Hitems].
  unfold ret in H. inversion H; subst. cbn [ds_items].
  eapply assign_predictions_valid; eauto.
Qed.

Lemma analyse_appends_valid_boxes_witness :
  analyse sample_mmdet sample_dataset None sample_world
  = (sample_world,
     Ok {| ds_id := 7;
           ds_items := [append_shapes sample_item
                          [Box (clip01 (64 / 640)) (clip01 (48 / 480))
                               (clip01 (320 / 640)) (clip01 (240 / 480))
                               [{| sl_label := {| label_name := "rectangle" |};
                                   probability := 9 # 10 |}]]] |})
  /\ Forall2 (appended_ok (1 # 2)) [sample_item]
       [append_shapes sample_item
          [Box (clip01 (64 / 640)) (clip01 (48 / 480))
               (clip01 (320 / 640)) (clip01 (240 / 480))
               [{| sl_label := {| label_name := "rectangle" |}; probability := 9 # 10 |}]]].
Proof.
  assert (Hrun : analyse sample_mmdet sample_dataset None sample_world
                 = (sample_world,
                    Ok {| ds_id := 7;
                          ds_items := [append_shapes sample_item
                            [Box (clip01 (64 / 640)) (clip01 (48 / 480))
                                 (clip01 (320 / 640)) (clip01 (240 / 480))
                                 [{| sl_label := {| label_name := "rectangle" |};
                                     probability := 9 # 10 |}]]] |}))
    by (vm_compute; reflexivity).
  split; [exact Hrun|].
  exact (proj1 (analyse_appends_valid_boxes sample_mmdet sample_dataset None sample_world)
           _ _ Hrun).
Defined.

(** ** [cancel_training] *)

Lemma touch_spec path f :
  dirs (touch path f) = dirs f
  /\ files (touch path f) !! path = Some (default "" (files f !! path))
  /\ forall p, p <> path -> files (touch path f) !! p = files f !! p.
Proof.
  unfold touch. destruct (files f !! path) as [content|] eqn:E; cbn [dirs files].
  - auto.
  - repeat split.
    + apply lookup_insert_eq.
    + intros p Hp. now apply lookup_insert_ne.
Qed.

(** C6. [cancel_training] always sets [should_stop] and changes nothing else
    in the task.  With [work_dir] a path of the configuration, it returns
    normally and the file ['.stop_training'] in that directory exists
    afterwards: created empty, or left with the contents it had; every other
    file and directory is as before. *)
Theorem cancel_training_effect (w : World) :
  task (fst (cancel_training w)) = set_should_stop true (task w)
  /\ forall work_dir,
      config_getattr (config (config_manager (task w))) ["work_dir"] = Ok (CStr work_dir) ->
      let sentinel := os_path_join work_dir ".stop_training" in
      snd (cancel_training w) = Ok tt
      /\ dirs (fs (fst (cancel_training w))) = dirs (fs w)
      /\ files (fs (fst (cancel_training w))) !! sentinel
         = Some (default "" (files (fs w) !! sentinel))
      /\ forall p, p <> sentinel ->
           files (fs (fst (cancel_training w))) !! p = files (fs w) !! p.
Proof.
  unfold cancel_training, bind, modify_task, modify, get_task, lift.
  cbn [task set_task config_manager set_should_stop fst snd].
  split.
  - destruct (config_getattr _ ["work_dir"]) as [d|e]; cbn [res_bind fst task]; [|reflexivity].
    destruct (as_str d); reflexivity.
  - intros work_dir Hwd. rewrite Hwd. cbn [res_bind as_str fst snd fs set_fs set_task].
    split; [reflexivity|]. apply touch_spec.
Qed.

Lemma cancel_training_effect_witness :
  config_getattr (config (config_manager (task sample_world))) ["work_dir"]
  = Ok (CStr "/tmp/ote-scratch-0")
  /\ snd (cancel_training sample_world) = Ok tt
  /\ should_stop (task (fst (cancel_training sample_world))) = true
  /\ files (fs (fst (cancel_training sample_world))) !! "/tmp/ote-scratch-0/.stop_training"
     = Some "".
Proof.
  assert (Hwd : config_getattr (config (config_manager (task sample_world))) ["work_dir"]
                = Ok (CStr "/tmp/ote-scratch-0")) by reflexivity.
  destruct (cancel_training_effect sample_world) as [Htask Hfile].
  destruct (Hfile _ Hwd) as (Hret & _ & Hsentinel & _).
  split; [exact Hwd|]. split; [exact Hret|].
  split; [now rewrite Htask | exact Hsentinel].
Defined.

(** ** [optimize_loaded_model] *)

(** [except Exception] lets a [KeyboardInterrupt] through as it is. *)
Lemma keyboard_interrupt_is_not_wrapped : ~ every_export_failure_is_wrapped.
Proof.
  intros H.
  specialize (H interrupted_mmdet sample_sc_sdk sample_os sample_world
                (PyErr KeyboardInterrupt "" None) eq_refl).
  vm_compute in H. discriminate H.
Qed.

(** C5, as the code has it. An exception raised by the export or by the
    collection of the exported files is re-raised as
    [RuntimeError("Optimization was unsuccessful.")] chained from it when it
    derives from [Exception]; one that does not ([KeyboardInterrupt],
    [SystemExit], [GeneratorExit]) propagates unchanged.  On success
    [optimize_loaded_model] returns a list of exactly one [OpenVINOModel], for
    the model of the task environment. *)
Theorem optimize_loaded_model_result mmdet sc_sdk os (w : World) :
  match export_and_collect mmdet sc_sdk (inference_model (task w))
          (temporary_directory os (fs w)) with
  | Err ex =>
      snd (_generate_openvino_model mmdet sc_sdk os w)
      = Err (if is_Exception (exn_cls ex)
             then PyErr RuntimeError "Optimization was unsuccessful." (Some ex)
             else ex)
      /\ snd (optimize_loaded_model mmdet sc_sdk os w)
         = Err (if is_Exception (exn_cls ex)
                then PyErr RuntimeError "Optimization was unsuccessful." (Some ex)
                else ex)
  | Ok (bin_url, xml_url) =>
      snd (optimize_loaded_model mmdet sc_sdk os w)
      = Ok [{| ov_model := te_model (task_environment (task w));
               openvino_bin_url := bin_url; openvino_xml_url := xml_url;
               ov_precision := FP32 |}]
  end.
Proof.
  unfold optimize_loaded_model, _generate_openvino_model, bind, get, try_reraise, lift, ret.
  destruct (export_and_collect _ _ _ _) as [[bin_url xml_url]|ex]; cbn [fst snd].
  - reflexivity.
  - destruct (is_Exception (exn_cls ex)); split; reflexivity.
Qed.

(** ** [load_model] *)

Section LoadModel.

Variables (mmcv : mmcv_api) (torch : torch_api) (mmdet : mmdet_api).

(** C1. For a saved model whose artifact deserializes, whose configuration
    text parses and for which an empty model is built: if loading the state
    dict into that model raises anything at all, [load_model] raises the one
    [ValueError] "Could not load the saved model. The model file structure is
    invalid." chained from what was raised; if it succeeds, [load_model]
    returns normally and both [inference_model] and [train_model] are the
    model with the loaded weights. *)
Theorem load_model_saved (w w2 : World) (env : TaskEnvironment) data perf ds dur
    (model_data : pyvalue) (text : string) (model_config : config_dict)
    (torch_model : TorchModule) :
  te_model env = SavedModel data perf ds dur ->
  _get_model_from_bytes torch data = Ok model_data ->
  subscript model_data "config" = Ok (VStr text) ->
  config_from_string mmcv text = Ok model_config ->
  _create_model mmdet model_config true
    (set_task (set_task_environment env (task w)) w) = (w2, Ok torch_model) ->
  match load_weights torch torch_model model_data with
  | Err ex =>
      snd (load_model mmcv torch mmdet env w)
      = Err (PyErr ValueError
               "Could not load the saved model. The model file structure is invalid."
               (Some ex))
  | Ok loaded =>
      snd (load_model mmcv torch mmdet env w) = Ok tt
      /\ inference_model (task (fst (load_model mmcv torch mmdet env w)))
         = Some (eval (set_mcfg model_config loaded))
      /\ train_model (task (fst (load_model mmcv torch mmdet env w)))
         = Some (set_mcfg (config_copy (config_manager (task w2))) loaded)
      /\ option_map state_dict (inference_model (task (fst (load_model mmcv torch mmdet env w))))
         = Some (state_dict loaded)
      /\ option_map state_dict (train_model (task (fst (load_model mmcv torch mmdet env w))))
         = Some (state_dict loaded)
  end.
Proof.
  intros Hmodel Hbytes Hconfig Hparse Hcreate.
  unfold load_model. rewrite Hmodel.
  unfold bind, modify_task, modify, lift, try_reraise, get_task, ret.
  unfold _get_model_from_bytes in Hbytes. unfold _get_model_from_bytes.
  rewrite Hbytes, Hconfig. cbn [res_bind as_text]. rewrite Hparse, Hcreate.
  destruct (load_weights torch torch_model model_data) as [loaded|ex].
  - cbn. repeat split; reflexivity.
  - reflexivity.
Qed.

End LoadModel.

Lemma load_model_saved_witness :
  snd (load_model sample_mmcv sample_torch sample_mmdet sample_saved_environment sample_world)
  = Ok tt
  /\ option_map state_dict
       (inference_model
          (task (fst (load_model sample_mmcv sample_torch sample_mmdet
                        sample_saved_environment sample_world))))
     = Some sample_weights
  /\ option_map state_dict
       (train_model
          (task (fst (load_model sample_mmcv sample_torch sample_mmdet
                        sample_saved_environment sample_world))))
     = Some sample_weights.
Proof.
  pose proof (load_model_saved sample_mmcv sample_torch sample_mmdet sample_world _
                sample_saved_environment _ _ _ _ sample_artifact "model = dict(...)"
                sample_printed_config _ eq_refl eq_refl eq_refl eq_refl eq_refl) as H.
  cbn [load_weights subscript dict_get sample_artifact String.eqb Ascii.eqb Bool.eqb
       res_bind load_state_dict sample_torch] in H.
  destruct H as (Hret & _ & _ & Hinf & Htrain).
  split; [exact Hret|]. split; [exact Hinf | exact Htrain].
Defined.

(** ** The model artifact *)

(** C4. For a train model with a configuration that [config_to_string]
    prints, and a [torch.save]/[torch.load] pair that restores the saved dict:
    [_get_model_bytes] returns bytes that [_get_model_from_bytes] turns back
    into a dict with exactly the two keys ['state_dict'] and ['config'], holding
    the train model's state dict and the text of its configuration, which are
    the two entries [load_model] reads. *)
Theorem model_bytes_self_contained (mmcv : mmcv_api) (torch : torch_api) (w : World)
    (tm : TorchModule) (c : config_dict) (config_str : string) :
  train_model (task w) = Some tm ->
  mcfg tm = Some c ->
  snd (config_to_string mmcv c) = Ok config_str ->
  torch_load torch
    (torch_save torch (VDict [("state_dict", VState (state_dict tm)); ("config", VStr config_str)]))
  = Ok (VDict [("state_dict", VState (state_dict tm)); ("config", VStr config_str)]) ->
  exists blob model_data,
    snd (_get_model_bytes mmcv torch w) = Ok blob
    /\ _get_model_from_bytes torch blob = Ok model_data
    /\ model_data = VDict [("state_dict", VState (state_dict tm)); ("config", VStr config_str)]
    /\ subscript model_data "state_dict" = Ok (VState (state_dict tm))
    /\ subscript model_data "config" = Ok (VStr config_str)
    /\ forall torch_model,
         load_weights torch torch_model model_data
         = load_state_dict torch torch_model (VState (state_dict tm)).
Proof.
  intros Htm Hcfg Hstr Hload.
  eexists _, _. split; [|split; [exact Hload|]].
  - unfold _get_model_bytes, bind, get_task, lift, modify_task, modify, ret.
    rewrite Htm. cbn [the_model]. unfold the_cfg. rewrite Hcfg.
    destruct (config_to_string mmcv c) as [c' r]. cbn [snd] in Hstr. subst r. reflexivity.
  - repeat split; reflexivity.
Qed.

Lemma model_bytes_self_contained_witness :
  exists blob,
    snd (_get_model_bytes sample_mmcv sample_torch sample_trained_world) = Ok blob
    /\ _get_model_from_bytes sample_torch blob
       = Ok (VDict [("state_dict", VState sample_weights);
                    ("config", VStr "model = dict(...)")]).
Proof.
  destruct (model_bytes_self_contained sample_mmcv sample_torch sample_trained_world
              {| weights := sample_weights; mcfg := Some sample_config; training := true |}
              sample_config "model = dict(...)" eq_refl eq_refl eq_refl eq_refl)
    as (blob & model_data & Hbytes & Hload & Hdata & _).
  exists blob. split; [exact Hbytes|]. rewrite Hload, Hdata. reflexivity.
Defined.

(** ** Frame properties: what a method leaves alone *)

Section Frame.

Context {X : Type} (proj : World -> X).

Lemma keeps_ret {A} (a : A) : keeps proj (ret a).
Proof. intros w. reflexivity. Qed.

Lemma keeps_lift {A} (r : res A) : keeps proj (lift r).
Proof. intros w. reflexivity. Qed.

Lemma keeps_raise {A} (e : exn) : keeps proj (raise (A := A) e).
Proof. intros w. reflexivity. Qed.

Lemma keeps_get : keeps proj get.
Proof. intros w. reflexivity. Qed.

Lemma keeps_get_task : keeps proj get_task.
Proof. intros w. reflexivity. Qed.

Lemma keeps_bind {A B} (m : SE World A) (f : A -> SE World B) :
  keeps proj m -> (forall a, keeps proj (f a)) -> keeps proj (bind m f).
Proof.
  intros Hm Hf w. unfold bind. specialize (Hm w).
  destruct (m w) as [w1 [a|e]]; cbn [fst] in *; [|exact Hm].
  now rewrite Hf.
Qed.

Lemma keeps_modify (f : World -> World) :
  (forall w, proj (f w) = proj w) -> keeps proj (modify f).
Proof. intros Hf w. apply Hf. Qed.

Lemma keeps_modify_task (f : Task -> Task) :
  (forall w, proj (set_task (f (task w)) w) = proj w) -> keeps proj (modify_task f).
Proof. intros Hf w. apply Hf. Qed.

Lemma keeps_on_config_manager {A} (m : SE ConfigManager A) :
  (forall cm w, proj (set_task (set_config_manager cm (task w)) w) = proj w) ->
  keeps proj (on_config_manager m).
Proof.
  intros Hf w. unfold on_config_manager, zoom.
  destruct (m (config_manager (task w))) as [cm r]. apply Hf.
Qed.

Lemma keeps_try_reraise {A} (m : SE World A) catches mk :
  keeps proj m -> keeps proj (try_reraise m catches mk).
Proof.
  intros Hm w. unfold try_reraise. specialize (Hm w).
  destruct (m w) as [w1 [a|e]]; cbn [fst] in *; [exact Hm|].
  destruct (catches e); exact Hm.
Qed.

Lemma keeps_concurrently (b : bool) (m : SE World unit) :
  keeps proj m -> keeps proj (concurrently b m).
Proof. intros Hm w. unfold concurrently. destruct b; [apply Hm | reflexivity]. Qed.

End Frame.

(** Decomposes a method into its statements and closes the goal when each
    leaves the projection alone. *)
Ltac frame :=
  repeat (intros;
    lazymatch goal with
    | |- keeps _ (bind _ _) => apply keeps_bind
    | |- keeps _ (ret _) => apply keeps_ret
    | |- keeps _ (lift _) => apply keeps_lift
    | |- keeps _ (raise _) => apply keeps_raise
    | |- keeps _ get => apply keeps_get
    | |- keeps _ get_task => apply keeps_get_task
    | |- keeps _ (modify_task _) => apply keeps_modify_task; intros; reflexivity
    | |- keeps _ (modify _) => apply keeps_modify; intros; reflexivity
    | |- keeps _ (on_config_manager _) => apply keeps_on_config_manager; intros; reflexivity
    | |- keeps _ (try_reraise _ _ _) => apply keeps_try_reraise
    | |- keeps _ (concurrently _ _) => apply keeps_concurrently
    | |- keeps _ (match ?x with _ => _ end) => destruct x
    end).

Section Train.

Variables (mmcv : mmcv_api) (torch : torch_api) (mmdet : mmdet_api).

Lemma cancel_training_keeps_env : keeps env_of cancel_training.
Proof. unfold cancel_training. frame. Qed.

Lemma cancel_training_keeps_train_model : keeps train_model_of cancel_training.
Proof. unfold cancel_training. frame. Qed.

Lemma _create_model_keeps_env c b : keeps env_of (_create_model mmdet c b).
Proof. unfold _create_model. frame. Qed.

Lemma save_config_to_file_keeps {X} (proj : World -> X) :
  (forall cm w, proj (set_task (set_config_manager cm (task w)) w) = proj w) ->
  (forall f w, proj (set_fs f w) = proj w) ->
  keeps proj (save_config_to_file mmcv).
Proof.
  intros Hcm Hfs. unfold save_config_to_file.
  repeat (intros; first
    [ apply keeps_bind | apply keeps_get_task | apply keeps_lift
    | apply keeps_on_config_manager, Hcm
    | apply keeps_modify; intros; apply Hfs ]).
Qed.

Lemma _create_training_checkpoint_dirs_keeps {X} (proj : World -> X) :
  (forall cm w, proj (set_task (set_config_manager cm (task w)) w) = proj w) ->
  (forall f w, proj (set_fs f w) = proj w) ->
  keeps proj (_create_training_checkpoint_dirs mmcv).
Proof.
  intros Hcm Hfs. unfold _create_training_checkpoint_dirs, assign_config.
  repeat (intros; first
    [ apply keeps_bind | apply keeps_get | apply keeps_lift | apply keeps_ret
    | apply keeps_on_config_manager, Hcm
    | apply keeps_modify; intros; apply Hfs
    | apply save_config_to_file_keeps; assumption ]).
Qed.

Lemma _is_train_from_scratch_keeps_env p : keeps env_of (_is_train_from_scratch mmdet p).
Proof.
  unfold _is_train_from_scratch.
  repeat (intros; first
    [ apply keeps_bind | apply keeps_get_task | apply keeps_ret
    | apply _create_model_keeps_env
    | apply keeps_modify_task; intros; reflexivity
    | match goal with |- keeps _ (match ?x with _ => _ end) => destruct x end ]).
Qed.

Lemma _is_train_from_scratch_old p w w' old scratch :
  _is_train_from_scratch mmdet p w = (w', Ok (old, scratch)) ->
  old = train_model (task w).
Proof.
  unfold _is_train_from_scratch. intros H.
  apply bind_Ok in H as (w1 & t & Ht & H). inversion Ht; subst; clear Ht.
  destruct p as [[[|]]|]; unfold ret in H.
  - apply bind_Ok in H as (w2 & m & _ & H).
    apply bind_Ok in H as (w3 & u & _ & H). now inversion H.
  - now inversion H.
  - now inversion H.
Qed.

Lemma _is_train_from_scratch_continues p w w' old :
  _is_train_from_scratch mmdet p w = (w', Ok (old, false)) ->
  train_model (task w') = train_model (task w).
Proof.
  unfold _is_train_from_scratch. intros H.
  apply bind_Ok in H as (w1 & t & Ht & H). inversion Ht; subst; clear Ht.
  destruct p as [[[|]]|]; unfold ret in H.
  - apply bind_Ok in H as (w2 & m & _ & H).
    apply bind_Ok in H as (w3 & u & _ & H). inversion H.
  - now inversion H.
  - now inversion H.
Qed.

Lemma _do_pre_evaluation_keeps_env d : keeps env_of (_do_pre_evaluation mmdet d).
Proof. unfold _do_pre_evaluation. frame. Qed.

Lemma _do_pre_evaluation_keeps_train_model d :
  keeps train_model_of (_do_pre_evaluation mmdet d).
Proof. unfold _do_pre_evaluation. frame. Qed.

Lemma _do_model_training_keeps_env c d : keeps env_of (_do_model_training mmdet c d).
Proof.
  unfold _do_model_training.
  repeat (intros; first
    [ apply keeps_bind | apply keeps_get_task | apply keeps_get | apply keeps_ret
    | apply keeps_lift
    | apply keeps_concurrently, cancel_training_keeps_env
    | apply keeps_modify_task; intros; reflexivity
    | apply keeps_modify; intros; reflexivity ]).
Qed.

Lemma update_dataset_subsets_keeps {X} (proj : World -> X) d :
  (forall cm w, proj (set_task (set_config_manager cm (task w)) w) = proj w) ->
  keeps proj (on_config_manager (update_dataset_subsets_config d)).
Proof. intros H. now apply keeps_on_config_manager. Qed.

Lemma train_setup_keeps_env c d p : keeps env_of (train_setup mmcv mmdet c d p).
Proof.
  unfold train_setup.
  repeat (intros; first
    [ apply update_dataset_subsets_keeps; intros; reflexivity
    | apply _create_training_checkpoint_dirs_keeps; intros; reflexivity
    | apply _is_train_from_scratch_keeps_env
    | apply keeps_concurrently, cancel_training_keeps_env
    | apply _do_pre_evaluation_keeps_env
    | apply keeps_get_task | apply keeps_ret | apply keeps_lift
    | match goal with |- keeps _ (match ?x with _ => _ end) => destruct x end
    | apply keeps_bind ]).
Qed.

Lemma keeps_run {X A} (proj : World -> X) (m : SE World A) w w' r :
  keeps proj m -> m w = (w', r) -> proj w' = proj w.
Proof. intros Hk Hrun. specialize (Hk w). now rewrite Hrun in Hk. Qed.

(** What [train] holds when it first looks at [should_stop]: the task
    environment is the one it was called with, and [old_train_model] is the
    train model it was called with. *)
Lemma train_setup_frame c d p w w1 mm old scratch pre cmp :
  train_setup mmcv mmdet c d p w = (w1, Ok (mm, old, scratch, pre, cmp)) ->
  env_of w1 = env_of w /\ old = train_model (task w)
  /\ (scratch = false -> train_model (task w1) = train_model (task w)).
Proof.
  intros H. split; [eapply keeps_run; [apply train_setup_keeps_env | exact H]|].
  unfold train_setup in H.
  apply bind_Ok in H as (wa & [] & Ha & H).
  apply (keeps_run train_model_of) in Ha;
    [|apply update_dataset_subsets_keeps; intros; reflexivity].
  apply bind_Ok in H as (wa' & t & Ht & H). inversion Ht; subst wa' t; clear Ht.
  apply bind_Ok in H as (wa' & mm' & Hmm & H). apply lift_Ok in Hmm as [-> _].
  apply bind_Ok in H as (wb & dir & Hb & H).
  apply (keeps_run train_model_of) in Hb;
    [|apply _create_training_checkpoint_dirs_keeps; intros; reflexivity].
  apply bind_Ok in H as (wc & [old' scratch'] & Hc & H).
  pose proof (_is_train_from_scratch_old _ _ _ _ _ Hc) as Hold.
  apply bind_Ok in H as (wd & [] & Hd & H).
  apply (keeps_run train_model_of) in Hd;
    [|apply keeps_concurrently, cancel_training_keeps_train_model].
  apply bind_Ok in H as (we & [pre' cmp'] & He & H).
  apply (keeps_run train_model_of) in He; [|apply _do_pre_evaluation_keeps_train_model].
  unfold ret in H. inversion H; subst.
  unfold train_model_of in *. split; [congruence|].
  intros ->. apply _is_train_from_scratch_continues in Hc. congruence.
Qed.

End Train.

(** ** [train] and cancellation *)

Section TrainCancelled.

Variables (mmcv : mmcv_api) (config_mapper : ConfigMappings) (torch : torch_api)
          (mmdet : mmdet_api).

(** C2. When [should_stop] is set at one of the two places where [train] reads
    it, [train] resets [should_stop], returns the model the task environment
    already had, leaves the task environment as it was, and has the saved old
    train model (the train model [train] was called with) as train model: at
    the check after training always, at the check before training when
    training is from scratch (otherwise the train model has not been touched
    by then). *)
Theorem train_cancelled (cancellation : Cancellation) (dataset : Dataset)
    (train_parameters : option TrainParameters) (w w1 : World)
    mm_train_dataset old_train_model train_from_scratch pretraining_performance
    compare_performance :
  train_setup mmcv mmdet cancellation dataset train_parameters w
  = (w1, Ok (mm_train_dataset, old_train_model, train_from_scratch,
             pretraining_performance, compare_performance)) ->
  let result := train mmcv config_mapper torch mmdet cancellation dataset train_parameters w in
  old_train_model = train_model (task w)
  /\ (should_stop (task w1) = true ->
        snd result = Ok (te_model (task_environment (task w)))
        /\ should_stop (task (fst result)) = false
        /\ task_environment (task (fst result)) = task_environment (task w)
        /\ (train_from_scratch = true -> train_model (task (fst result)) = old_train_model)
        /\ (train_from_scratch = false ->
              train_model (task (fst result)) = train_model (task w1))
        /\ train_model (task (fst result)) = train_model (task w))
  /\ (should_stop (task w1) = false ->
      forall w2 training_duration,
        _do_model_training mmdet cancellation mm_train_dataset w1 = (w2, Ok training_duration) ->
        should_stop (task w2) = true ->
        snd result = Ok (te_model (task_environment (task w)))
        /\ should_stop (task (fst result)) = false
        /\ task_environment (task (fst result)) = task_environment (task w)
        /\ train_model (task (fst result)) = old_train_model).
Proof.
  intros Hsetup result.
  destruct (train_setup_frame _ _ _ _ _ _ _ _ _ _ _ _ Hsetup) as (Henv & Hold & Hsame).
  unfold env_of in Henv.
  split; [exact Hold|]. split.
  - intros Hstop.
    assert (Hrun : result
                   = (set_task
                        ((if train_from_scratch then set_train_model old_train_model
                          else fun t => t) (set_should_stop false (task w1))) w1,
                      Ok (te_model (task_environment (task w1))))).
    { subst result. unfold train. unfold bind at 1. rewrite Hsetup.
      unfold bind at 1. unfold get_task at 1. rewrite Hstop.
      unfold bind, modify_task, modify, get_task, ret.
      destruct train_from_scratch; reflexivity. }
    rewrite Hrun. cbn [fst snd task set_task]. rewrite Henv.
    destruct train_from_scratch; repeat split; intros;
      try discriminate; try reflexivity; try exact Henv;
      cbn [train_model set_train_model set_should_stop]; auto.
  - intros Hstop w2 training_duration Htrain Hstop2.
    pose proof (keeps_run env_of _ _ _ _ (_do_model_training_keeps_env mmdet _ _) Htrain)
      as Henv2.
    unfold env_of in Henv2.
    assert (Hrun : result
                   = (set_task (set_train_model old_train_model
                                  (set_should_stop false (task w2))) w2,
                      Ok (te_model (task_environment (task w2))))).
    { subst result. unfold train. unfold bind at 1. rewrite Hsetup.
      unfold bind at 1. unfold get_task at 1. rewrite Hstop.
      unfold bind at 1. rewrite Htrain.
      unfold bind at 1. unfold get_task at 1. rewrite Hstop2.
      reflexivity. }
    rewrite Hrun. cbn [fst snd task set_task]. rewrite Henv2, Henv.
    repeat split; try reflexivity. cbn. now rewrite Henv2.
Qed.

End TrainCancelled.

Lemma train_cancelled_witness :
  (snd (sample_train cancel_early) = Ok NullModel
   /\ should_stop (task (fst (sample_train cancel_early))) = false
   /\ train_model (task (fst (sample_train cancel_early))) = Some sample_module)
  /\ (snd (sample_train cancel_late) = Ok NullModel
      /\ should_stop (task (fst (sample_train cancel_late))) = false
      /\ train_model (task (fst (sample_train cancel_late))) = Some sample_module).
Proof.
  split.
  - assert (E : train_setup sample_mmcv sample_mmdet cancel_early sample_dataset None sample_world
                = (fst (sample_setup cancel_early),
                   Ok (fst (fst (fst (fst (setup_locals cancel_early)))),
                       snd (fst (fst (fst (setup_locals cancel_early)))),
                       snd (fst (fst (setup_locals cancel_early))),
                       snd (fst (setup_locals cancel_early)),
                       snd (setup_locals cancel_early))))
      by (vm_compute; reflexivity).
    destruct (train_cancelled sample_mmcv sample_config_mapper sample_torch sample_mmdet
                _ _ _ _ _ _ _ _ _ _ E) as (Hold & Hfirst & _).
    destruct (Hfirst eq_refl) as (Hret & Hstop & _ & _ & _ & Htm).
    split; [exact Hret|]. split; [exact Hstop|]. exact Htm.
  - assert (E : train_setup sample_mmcv sample_mmdet cancel_late sample_dataset None sample_world
                = (fst (sample_setup cancel_late),
                   Ok (fst (fst (fst (fst (setup_locals cancel_late)))),
                       snd (fst (fst (fst (setup_locals cancel_late)))),
                       snd (fst (fst (setup_locals cancel_late))),
                       snd (fst (setup_locals cancel_late)),
                       snd (setup_locals cancel_late))))
      by (vm_compute; reflexivity).
    destruct (train_cancelled sample_mmcv sample_config_mapper sample_torch sample_mmdet
                _ _ _ _ _ _ _ _ _ _ E) as (Hold & _ & Hsecond).
    assert (T : _do_model_training sample_mmdet cancel_late
                  (fst (fst (fst (fst (setup_locals cancel_late)))))
                  (fst (sample_setup cancel_late))
                = (fst (_do_model_training sample_mmdet cancel_late
                          (fst (fst (fst (fst (setup_locals cancel_late)))))
                          (fst (sample_setup cancel_late))),
                   Ok 60%Q))
      by (vm_compute; reflexivity).
    destruct (Hsecond eq_refl _ _ T eq_refl) as (Hret & Hstop & _ & Htm).
    split; [exact Hret|]. split; [exact Hstop|].
    unfold sample_train. rewrite Htm. exact Hold.
Defined.

(** ** Reading and writing configuration paths *)

Lemma dict_get_set_eq {V} k (v : V) d : dict_get k (dict_set k v d) = Some v.
Proof.
  induction d as [|[k' v'] d IH]; simpl.
  - now rewrite String.eqb_refl.
  - destruct (String.eqb k k') eqn:E; simpl; rewrite ?String.eqb_refl, ?E; auto.
Qed.

Lemma dict_get_set_ne {V} k k' (v : V) d :
  k' <> k -> dict_get k' (dict_set k v d) = dict_get k' d.
Proof.
  intros Hne. induction d as [|[k0 v0] d IH]; simpl.
  - destruct (String.eqb k' k) eqn:E; [apply String.eqb_eq in E; contradiction | reflexivity].
  - destruct (String.eqb k k0) eqn:E; simpl.
    + apply String.eqb_eq in E. subst k0.
      destruct (String.eqb k' k) eqn:E'; [apply String.eqb_eq in E'; contradiction | reflexivity].
    + now rewrite IH.
Qed.

Lemma getattr_setattr_eq c k v c' :
  setattr c k v = Ok c' -> getattr c' k = Ok v.
Proof.
  destruct c; simpl; intros H; inversion H; subst. simpl. now rewrite dict_get_set_eq.
Qed.

Lemma getattr_setattr_ne c k k' v c' :
  k' <> k -> setattr c k v = Ok c' -> getattr c' k' = getattr c k'.
Proof.
  intros Hne. destruct c; simpl; intros H; inversion H; subst. simpl.
  now rewrite dict_get_set_ne.
Qed.

Lemma getattr_path_cons c k p :
  getattr_path c (k :: p) = res_bind (getattr c k) (fun c' => getattr_path c' p).
Proof. reflexivity. Qed.

Lemma setattr_path_cons2 c k k2 p v :
  setattr_path c (k :: k2 :: p) v
  = res_bind (getattr c k) (fun c' =>
      res_bind (setattr_path c' (k2 :: p) v) (fun c'' => setattr c k c'')).
Proof. reflexivity. Qed.

Lemma getattr_path_set_eq p : forall c v c',
  p <> [] -> setattr_path c p v = Ok c' -> getattr_path c' p = Ok v.
Proof.
  induction p as [|k p IH]; intros c v c' Hne H; [contradiction|].
  destruct p as [|k2 p].
  - cbn [setattr_path] in H. rewrite getattr_path_cons.
    erewrite getattr_setattr_eq by eauto. reflexivity.
  - rewrite setattr_path_cons2 in H.
    apply res_bind_Ok in H as (c1 & Hc1 & H).
    apply res_bind_Ok in H as (c2 & Hc2 & H).
    rewrite getattr_path_cons. erewrite getattr_setattr_eq by eauto. cbn [res_bind].
    eapply IH; [discriminate | eauto].
Qed.

Lemma getattr_path_set_diverge p : forall q c v c',
  diverge p q = true -> setattr_path c p v = Ok c' ->
  getattr_path c' q = getattr_path c q.
Proof.
  induction p as [|k p IH]; intros q c v c' Hd H; [discriminate|].
  destruct q as [|b q]; [discriminate|]. cbn [diverge] in Hd.
  rewrite !getattr_path_cons.
  destruct (String.eqb k b) eqn:E.
  - apply String.eqb_eq in E. subst b.
    destruct p as [|k2 p]; [discriminate|].
    rewrite setattr_path_cons2 in H.
    apply res_bind_Ok in H as (c1 & Hc1 & H).
    apply res_bind_Ok in H as (c2 & Hc2 & H).
    erewrite getattr_setattr_eq by eauto. rewrite Hc1. cbn [res_bind].
    eapply IH; eauto.
  - apply String.eqb_neq in E.
    assert (Hget : getattr c' b = getattr c b).
    { destruct p as [|k2 p].
      - cbn [setattr_path] in H. eapply getattr_setattr_ne; eauto.
      - rewrite setattr_path_cons2 in H.
        apply res_bind_Ok in H as (c1 & Hc1 & H).
        apply res_bind_Ok in H as (c2 & Hc2 & H).
        eapply getattr_setattr_ne; eauto. }
    now rewrite Hget.
Qed.

Lemma config_getattr_set_eq c p v c' :
  p <> [] -> config_setattr c p v = Ok c' -> config_getattr c' p = Ok v.
Proof.
  unfold config_setattr, config_getattr. intros Hne H.
  apply res_bind_Ok in H as (x & Hx & H). destruct x; inversion H; subst.
  eapply getattr_path_set_eq; eauto.
Qed.

Lemma config_getattr_set_diverge c p q v c' :
  diverge p q = true -> config_setattr c p v = Ok c' ->
  config_getattr c' q = config_getattr c q.
Proof.
  unfold config_setattr, config_getattr. intros Hd H.
  apply res_bind_Ok in H as (x & Hx & H). destruct x; inversion H; subst.
  eapply getattr_path_set_diverge; eauto.
Qed.

(** Reading a path is not affected by an earlier write [H] to a path that
    parts ways with it. *)
Ltac past_write H :=
  rewrite (fun Hd => config_getattr_set_diverge _ _ _ _ _ Hd H) by reflexivity.

(** ** [update_project_configuration] *)

Section UpdateConfiguration.

Variables (mmcv : mmcv_api) (config_mapper : ConfigMappings).

Lemma assign_config_written p v cm cm' :
  assign p v cm = (cm', Ok tt) -> config_setattr (config cm) p v = Ok (config cm').
Proof.
  unfold assign, bind, get, lift, modify.
  destruct (config_setattr (config cm) p v) as [c|e]; [|discriminate].
  intros H; inversion H; reflexivity.
Qed.

(** The warm-up settings are the last thing the schedule update writes. *)
Lemma _update_learning_rate_schedule_warmup schedule_name warmup_iters cm cm' :
  _update_learning_rate_schedule mmcv config_mapper schedule_name warmup_iters cm = (cm', Ok tt) ->
  py_gt0 warmup_iters = true ->
  config_getattr (config cm') ["lr_config"; "warmup"] = Ok (CStr "linear")
  /\ config_getattr (config cm') ["lr_config"; "warmup_ratio"] = Ok (CFloat (1 / 3))
  /\ config_getattr (config cm') ["lr_config"; "warmup_iters"] = Ok (cfg_of_num warmup_iters).
Proof.
  intros H Hgt. unfold _update_learning_rate_schedule in H.
  apply bind_Ok in H as (cm1 & [] & _ & H).
  apply bind_Ok in H as (cm2 & [] & _ & H).
  rewrite Hgt in H.
  apply bind_Ok in H as (cm4 & [] & H1 & H).
  apply bind_Ok in H as (cm5 & [] & H2 & H3).
  apply assign_config_written in H1, H2, H3.
  repeat split.
  - past_write H3.
    past_write H2.
    eapply config_getattr_set_eq; [discriminate | exact H1].
  - past_write H3.
    eapply config_getattr_set_eq; [discriminate | exact H2].
  - eapply config_getattr_set_eq; [discriminate | exact H3].
Qed.

(** C7. When [update_project_configuration] returns, the configuration holds
    the chosen hyper-parameters: [runner.max_epochs = int(num_epochs)],
    [optimizer.lr = float(learning_rate)],
    [data.samples_per_gpu = int(batch_size)], and, when
    [learning_rate_warmup_iters > 0], [lr_config] has [warmup = 'linear'],
    [warmup_ratio = 1.0 / 3] and [warmup_iters] equal to that value. *)
Theorem update_project_configuration_sets (params : MMDetectionParameters)
    (cm cm' : ConfigManager) :
  update_project_configuration mmcv config_mapper params cm = (cm', Ok tt) ->
  let lp := learning_parameters params in
  config_getattr (config cm') ["runner"; "max_epochs"] = Ok (CInt (py_int (num_epochs lp)))
  /\ config_getattr (config cm') ["optimizer"; "lr"] = Ok (CFloat (py_float (learning_rate lp)))
  /\ config_getattr (config cm') ["data"; "samples_per_gpu"]
     = Ok (CInt (py_int (batch_size lp)))
  /\ (py_gt0 (learning_rate_warmup_iters lp) = true ->
      config_getattr (config cm') ["lr_config"; "warmup"] = Ok (CStr "linear")
      /\ config_getattr (config cm') ["lr_config"; "warmup_ratio"] = Ok (CFloat (1 / 3))
      /\ config_getattr (config cm') ["lr_config"; "warmup_iters"]
         = Ok (cfg_of_num (learning_rate_warmup_iters lp))).
Proof.
  intros H lp. unfold update_project_configuration in H. fold lp in H.
  apply bind_Ok in H as (cm1 & [] & Hlr & H).
  apply bind_Ok in H as (cm2 & [] & Hrunner & H).
  apply bind_Ok in H as (cm4 & [] & Hopt & Hdata).
  apply assign_config_written in Hrunner, Hopt, Hdata.
  repeat split.
  - past_write Hdata.
    past_write Hopt.
    eapply config_getattr_set_eq; [discriminate | exact Hrunner].
  - past_write Hdata.
    eapply config_getattr_set_eq; [discriminate | exact Hopt].
  - eapply config_getattr_set_eq; [discriminate | exact Hdata].
  - past_write Hdata.
    past_write Hopt.
    past_write Hrunner.
    eapply _update_learning_rate_schedule_warmup; eauto.
  - past_write Hdata.
    past_write Hopt.
    past_write Hrunner.
    eapply _update_learning_rate_schedule_warmup; eauto.
  - past_write Hdata.
    past_write Hopt.
    past_write Hrunner.
    eapply _update_learning_rate_schedule_warmup; eauto.
Qed.

End UpdateConfiguration.

Lemma update_project_configuration_sets_witness :
  snd (update_project_configuration sample_mmcv sample_config_mapper sample_parameters
         (config_manager sample_task)) = Ok tt
  /\ config_getattr
       (config (fst (update_project_configuration sample_mmcv sample_config_mapper
                       sample_parameters (config_manager sample_task))))
       ["lr_config"; "warmup_iters"] = Ok (CInt 3)
  /\ config_getattr
       (config (fst (update_project_configuration sample_mmcv sample_config_mapper
                       sample_parameters (config_manager sample_task))))
       ["runner"; "max_epochs"] = Ok (CInt 5).
Proof.
  assert (E : update_project_configuration sample_mmcv sample_config_mapper sample_parameters
                (config_manager sample_task)
              = (fst (update_project_configuration sample_mmcv sample_config_mapper
                        sample_parameters (config_manager sample_task)), Ok tt))
    by (vm_compute; reflexivity).
  destruct (update_project_configuration_sets sample_mmcv sample_config_mapper
              sample_parameters _ _ E) as (Hepochs & _ & _ & Hwarmup).
  destruct (Hwarmup eq_refl) as (_ & _ & Hiters).
  split; [now rewrite E|]. split; [exact Hiters | exact Hepochs].
Defined.

(** ** Configurations as text *)

(** Two configurations that differ in a dataset are printed alike, so no
    printer and parser can give both back. *)
Lemma roundtrip_loses_dataset :
  ~ (exists mmcv,
        roundtrip mmcv sample_config = Ok sample_config
        /\ roundtrip mmcv sample_config_with_dataset = Ok sample_config_with_dataset).
Proof.
  intros (mmcv & H1 & H2).
  assert (Hsame : roundtrip mmcv sample_config = roundtrip mmcv sample_config_with_dataset)
    by reflexivity.
  rewrite H1, H2 in Hsame. vm_compute in Hsame. discriminate Hsame.
Qed.

Lemma comprehension_names labels : forall names,
  comprehension label_name_attr labels = Ok names -> names_of labels names.
Proof.
  induction labels as [|l labels IH]; intros names H; simpl in H.
  - inversion H. constructor.
  - apply res_bind_Ok in H as (n & Hn & H).
    apply res_bind_Ok in H as (ns & Hns & H). inversion H; subst.
    constructor; [|now apply IH].
    destruct l as [| | | | |[lab| | |]| |]; inversion Hn. eauto.
Qed.

Lemma Config_Ok d c : Config d = Ok c -> c = d.
Proof. unfold Config. destruct (existsb _ _); intros H; now inversion H. Qed.

Section ConfigText.

Variable mmcv : mmcv_api.

(** C8, as the code has it. [config_to_string] leaves its input unmodified and
    prints a copy in which the three [ote_dataset] entries are [None] and
    [labels] is the list of the label names, every other entry being as in the
    input; [config_from_string] of that text is whatever mmcv reads back from
    it, which is the printed copy (not the original) when mmcv's printer and
    parser agree on it. *)
Theorem config_to_string_prints_cleaned_copy (c : config_dict) (s : string) :
  snd (config_to_string mmcv c) = Ok s ->
  fst (config_to_string mmcv c) = c
  /\ exists printed,
      cleaned_copy c = Ok printed
      /\ s = pretty_text mmcv printed
      /\ config_getattr printed ["data"; "test"; "ote_dataset"] = Ok CNone
      /\ config_getattr printed ["data"; "train"; "ote_dataset"] = Ok CNone
      /\ config_getattr printed ["data"; "val"; "ote_dataset"] = Ok CNone
      /\ (exists labels names,
             res_bind (config_getattr c ["labels"]) iterate = Ok labels
             /\ names_of labels names
             /\ config_getattr printed ["labels"] = Ok (CList names))
      /\ (forall q, forallb (fun p => diverge p q) cleaned_paths = true ->
            config_getattr printed q = config_getattr c q)
      /\ (fromfile_text mmcv (pretty_text mmcv printed) = Ok printed ->
          roundtrip mmcv c = Ok printed).
Proof.
  intros H. split; [reflexivity|].
  unfold config_to_string, bind, get, lift in H. cbn [snd] in H.
  apply res_bind_Ok in H as (printed & Hclean & H).
  apply res_bind_Ok in H as (c' & Hc' & H).
  pose proof (Config_Ok _ _ Hc') as Heq. subst c'.
  inversion H; subst s; clear H.
  exists printed. split; [exact Hclean|]. split; [reflexivity|].
  pose proof Hclean as Hsteps. unfold cleaned_copy, deepcopy, set_ote_datasets in Hsteps.
  apply res_bind_Ok in Hsteps as (c3 & Hsets & Hsteps).
  apply res_bind_Ok in Hsets as (c1 & Htest & Hsets).
  apply res_bind_Ok in Hsets as (c2 & Htrain & Hval).
  apply res_bind_Ok in Hsteps as (labels0 & Hlabels0 & Hsteps).
  apply res_bind_Ok in Hsteps as (labels & Hlabels & Hsteps).
  apply res_bind_Ok in Hsteps as (names & Hnames & Hset).
  repeat split.
  - past_write Hset. past_write Hval. past_write Htrain.
    eapply config_getattr_set_eq; [discriminate | exact Htest].
  - past_write Hset. past_write Hval.
    eapply config_getattr_set_eq; [discriminate | exact Htrain].
  - past_write Hset. eapply config_getattr_set_eq; [discriminate | exact Hval].
  - exists labels, names. rewrite Hlabels0. cbn [res_bind].
    split; [exact Hlabels|]. split; [now apply comprehension_names|].
    eapply config_getattr_set_eq; [discriminate | exact Hset].
  - intros q Hq. cbn [forallb cleaned_paths] in Hq.
    apply andb_prop in Hq as [Hq1 Hq]. apply andb_prop in Hq as [Hq2 Hq].
    apply andb_prop in Hq as [Hq3 Hq]. apply andb_prop in Hq as [Hq4 _].
    rewrite (config_getattr_set_diverge _ _ _ _ _ Hq4 Hset).
    rewrite (config_getattr_set_diverge _ _ _ _ _ Hq3 Hval).
    rewrite (config_getattr_set_diverge _ _ _ _ _ Hq2 Htrain).
    apply (config_getattr_set_diverge _ _ _ _ _ Hq1 Htest).
  - intros Hrt. unfold roundtrip, config_to_string, bind, get, lift. cbn [snd].
    rewrite Hclean. cbn [res_bind]. rewrite Hc'. exact Hrt.
Qed.

End ConfigText.

Lemma config_to_string_prints_cleaned_copy_witness :
  snd (config_to_string sample_mmcv sample_config_with_dataset) = Ok "model = dict(...)"
  /\ fst (config_to_string sample_mmcv sample_config_with_dataset) = sample_config_with_dataset
  /\ roundtrip sample_mmcv sample_config_with_dataset = Ok sample_printed_config.
Proof.
  assert (E : snd (config_to_string sample_mmcv sample_config_with_dataset)
              = Ok "model = dict(...)") by reflexivity.
  destruct (config_to_string_prints_cleaned_copy sample_mmcv _ _ E)
    as (Hsame & printed & Hclean & _ & _ & _ & _ & _ & _ & Hrt).
  split; [exact E|]. split; [exact Hsame|].
  assert (Hp : printed = sample_printed_config).
  { vm_compute in Hclean. inversion Hclean. vm_compute. reflexivity. }
  subst printed. apply Hrt. reflexivity.
Defined.

(** ** [Config._merge_a_into_b] *)

Lemma dict_get_pop_ne {V} k k' (d : list (string * V)) :
  k' <> k -> dict_get k' (dict_pop k d) = dict_get k' d.
Proof.
  intros Hne. induction d as [|[k0 v0] d IH]; simpl; [reflexivity|].
  destruct (String.eqb k k0) eqn:E; simpl.
  - apply String.eqb_eq in E. subst k0.
    destruct (String.eqb k' k) eqn:E'; [apply String.eqb_eq in E'; contradiction | exact IH].
  - destruct (String.eqb k' k0); [reflexivity | exact IH].
Qed.

Lemma dict_get_In {V} k (v : V) d : dict_get k d = Some v -> In k (List.map fst d).
Proof.
  induction d as [|[k0 v0] d IH]; simpl; [discriminate|].
  destruct (String.eqb k k0) eqn:E; [apply String.eqb_eq in E; auto | auto].
Qed.

Lemma dict_get_not_In {V} k (d : list (string * V)) :
  ~ In k (List.map fst d) -> dict_get k d = None.
Proof.
  destruct (dict_get k d) as [v|] eqn:E; [|reflexivity].
  intros Hn. exfalso. eapply Hn, dict_get_In, E.
Qed.

(** Popping ['_delete_'] first, or skipping it while merging, is the same. *)
Lemma merge_popped rec items : forall b,
  merge_items rec true items b = merge_items rec false (dict_pop DELETE_KEY items) b.
Proof.
  induction items as [|[k v] items IH]; intros b; [reflexivity|].
  cbn [merge_items dict_pop List.filter fst andb].
  rewrite (String.eqb_sym DELETE_KEY k).
  destruct (String.eqb k DELETE_KEY); cbn [negb].
  - apply IH.
  - cbn [merge_items andb]. destruct (merge_entry rec k v b); cbn [res_bind]; [apply IH | reflexivity].
Qed.

Section MergeFacts.

Variable rec : cfg -> list (string * cfg) -> res (list (string * cfg)).

(** An item only changes the entry of its own key. *)
Lemma merge_entry_other k v b b' k' :
  merge_entry rec k v b = Ok b' -> k' <> k -> dict_get k' b' = dict_get k' b.
Proof.
  unfold merge_entry. intros H Hne.
  destruct v; try (inversion H; subst; now apply dict_get_set_ne).
  destruct (dict_get k b) as [bk|]; [|inversion H; subst; now apply dict_get_set_ne].
  destruct (truthy _); [inversion H; subst; now apply dict_get_set_ne|].
  destruct bk; try discriminate.
  apply res_bind_Ok in H as (m & _ & H). inversion H; subst. now apply dict_get_set_ne.
Qed.

Lemma merge_entry_result k v b b' :
  merge_entry rec k v b = Ok b' ->
  exists x, dict_get k b' = Some x /\ entry_result rec k v b x.
Proof.
  unfold merge_entry. intros H.
  destruct v as [| | | | | | |vd];
    try (inversion H; subst; eexists; split;
         [apply dict_get_set_eq | apply entry_replaces; left; reflexivity]).
  destruct (dict_get k b) as [bk|] eqn:Ek.
  - destruct (truthy _) eqn:Et.
    + inversion H; subst. eexists; split; [apply dict_get_set_eq|].
      eapply entry_deletes; eauto. congruence.
    + destruct bk as [| | | | | | |bkd]; try discriminate.
      apply res_bind_Ok in H as (m & Hm & H). inversion H; subst.
      eexists; split; [apply dict_get_set_eq|]. eapply entry_merges; eauto.
  - inversion H; subst. eexists; split; [apply dict_get_set_eq|].
    apply entry_replaces. now right.
Qed.

(** Keys outside the items, and ['_delete_'] once popped, keep their entry. *)
Lemma merge_items_other popped items : forall b r k,
  merge_items rec popped items b = Ok r ->
  (~ In k (List.map fst items) \/ (popped = true /\ k = DELETE_KEY)) ->
  dict_get k r = dict_get k b.
Proof.
  induction items as [|[k0 v0] items IH]; intros b r k H Hk.
  - now inversion H.
  - cbn [merge_items] in H.
    destruct (popped && String.eqb k0 DELETE_KEY) eqn:Eskip.
    + eapply IH; [exact H|]. destruct Hk as [Hk|Hk]; [left|now right].
      intros Hin. apply Hk. now right.
    + apply res_bind_Ok in H as (b' & Hentry & H).
      assert (Hne : k <> k0).
      { destruct Hk as [Hk|[-> ->]].
        - intros ->. apply Hk. now left.
        - intros <-. now rewrite String.eqb_refl in Eskip. }
      rewrite (IH _ _ k H).
      * eapply merge_entry_other; eauto.
      * destruct Hk as [Hk|Hk]; [left|now right]. intros Hin. apply Hk. now right.
Qed.

(** The entry of a key among the items (keys being distinct) is what its item
    leaves. *)
Lemma merge_items_at popped items : forall b r k v,
  NoDup (List.map fst items) ->
  merge_items rec popped items b = Ok r ->
  dict_get k items = Some v ->
  k <> DELETE_KEY ->
  exists b1 x, dict_get k b1 = dict_get k b /\ dict_get k r = Some x
               /\ entry_result rec k v b1 x.
Proof.
  induction items as [|[k0 v0] items IH]; intros b r k v Hnd H Hget Hk; [discriminate|].
  cbn [List.map fst] in Hnd. apply NoDup_cons in Hnd as [Hnotin Hnd].
  rewrite list_elem_of_In in Hnotin.
  cbn [merge_items] in H. cbn [dict_get] in Hget.
  destruct (String.eqb k k0) eqn:E.
  - apply String.eqb_eq in E. subst k0. inversion Hget; subst v0; clear Hget.
    replace (popped && String.eqb k DELETE_KEY) with false in H
      by (symmetry; apply andb_false_iff; right; now apply String.eqb_neq).
    apply res_bind_Ok in H as (b' & Hentry & H).
    destruct (merge_entry_result _ _ _ _ Hentry) as (x & Hx & Hres).
    exists b, x. split; [reflexivity|]. split; [|exact Hres].
    rewrite (merge_items_other _ _ _ _ k H); [exact Hx | now left].
  - apply String.eqb_neq in E.
    destruct (popped && String.eqb k0 DELETE_KEY).
    + eapply IH; eauto.
    + apply res_bind_Ok in H as (b' & Hentry & H).
      destruct (IH _ _ _ _ Hnd H Hget Hk) as (b1 & x & Hb1 & Hr & Hres).
      exists b1, x. split; [|split; assumption].
      rewrite Hb1. eapply merge_entry_other; eauto.
Qed.

End MergeFacts.

Lemma wf_dict d :
  wf (CDict d) = true ->
  NoDup (List.map fst d) /\ forall k v, dict_get k d = Some v -> wf v = true.
Proof.
  cbn [wf]. intros H. apply andb_prop in H as [Hnd Hall].
  split; [now apply bool_decide_eq_true in Hnd|].
  clear Hnd. induction d as [|[k0 v0] d IH]; intros k v Hget; [discriminate|].
  cbn [forallb] in Hall. apply andb_prop in Hall as [Hv0 Hall].
  cbn [dict_get] in Hget. destruct (String.eqb k k0); [now inversion Hget; subst | eauto].
Qed.

Lemma dict_get_None_not_In {V} k (d : list (string * V)) :
  dict_get k d = None -> ~ In k (List.map fst d).
Proof.
  induction d as [|[k0 v0] d IH]; simpl; [tauto|].
  destruct (String.eqb k k0) eqn:E; [discriminate|].
  apply String.eqb_neq in E. intros H [Heq|Hin]; [congruence | now apply IH].
Qed.

Lemma getattr_dict k d v : dict_get k d = Some v -> getattr (CDict d) k = Ok v.
Proof. intros H. cbn [getattr]. now rewrite H. Qed.

Lemma getattr_Ok_inv c k v :
  getattr c k = Ok v -> exists d, c = CDict d /\ dict_get k d = Some v.
Proof.
  destruct c; cbn [getattr]; try discriminate.
  destruct (dict_get k d) eqn:E; intros H; inversion H; subst. eauto.
Qed.

Lemma merge_from_dict popped a b r :
  merge_from popped a b = Ok r ->
  exists items, a = CDict items /\ merge_items (merge_from true) popped items b = Ok r.
Proof. destruct a; cbn [merge_from]; try discriminate. eauto. Qed.

(** What the merged-in configuration holds at a key path as a value that is no
    dict, the result holds there. *)
Lemma merge_from_override p : forall popped a b r v,
  ~ In DELETE_KEY p -> p <> [] -> wf a = true ->
  merge_from popped a b = Ok r ->
  getattr_path a p = Ok v -> is_dict v = false ->
  getattr_path (CDict r) p = Ok v.
Proof.
  induction p as [|k p IH]; intros popped a b r v Hdel Hne Hwf Hmerge Hget Hleaf;
    [contradiction|].
  apply merge_from_dict in Hmerge as (items & -> & Hmerge).
  rewrite getattr_path_cons in Hget.
  apply res_bind_Ok in Hget as (v1 & Hv1 & Hget).
  apply getattr_Ok_inv in Hv1 as (d & Hd & Hv1). inversion Hd; subst d; clear Hd.
  destruct (wf_dict _ Hwf) as [Hnd Hchildren].
  assert (Hk : k <> DELETE_KEY) by (intros ->; apply Hdel; now left).
  assert (Hdel' : ~ In DELETE_KEY p) by (intros Hin; apply Hdel; now right).
  destruct (merge_items_at _ _ _ _ _ _ _ Hnd Hmerge Hv1 Hk) as (b1 & x & Hb1 & Hr & Hres).
  rewrite getattr_path_cons, (getattr_dict _ _ _ Hr). cbn [res_bind].
  destruct Hres as [Hrep | vd Hvd Hin Htruthy | vd bkd m Hvd Hbk Htruthy Hrec].
  - exact Hget.
  - subst v1. destruct p as [|k2 p].
    + cbn [getattr_path] in Hget. inversion Hget; subst. discriminate.
    + rewrite getattr_path_cons in *. cbn [getattr] in *.
      rewrite dict_get_pop_ne; [exact Hget|]. intros ->. apply Hdel'. now left.
  - subst v1. destruct p as [|k2 p].
    + cbn [getattr_path] in Hget. inversion Hget; subst. discriminate.
    + eapply IH; [exact Hdel' | discriminate | eapply Hchildren; exact Hv1
                 | exact Hrec | exact Hget | exact Hleaf].
Qed.

(** A key path the merged-in configuration does not touch keeps its value. *)
Lemma merge_from_untouched p : forall popped a b r x,
  ~ In DELETE_KEY p -> wf a = true -> touches a p = false ->
  merge_from popped a b = Ok r ->
  getattr_path (CDict b) p = Ok x ->
  getattr_path (CDict r) p = Ok x.
Proof.
  induction p as [|k p IH]; intros popped a b r x Hdel Hwf Htouch Hmerge Hget; [discriminate|].
  apply merge_from_dict in Hmerge as (items & -> & Hmerge).
  destruct (wf_dict _ Hwf) as [Hnd Hchildren].
  assert (Hk : k <> DELETE_KEY) by (intros ->; apply Hdel; now left).
  assert (Hdel' : ~ In DELETE_KEY p) by (intros Hin; apply Hdel; now right).
  rewrite getattr_path_cons in Hget.
  apply res_bind_Ok in Hget as (bk & Hbk & Hget).
  apply getattr_Ok_inv in Hbk as (d & Hd & Hbk). inversion Hd; subst d; clear Hd.
  rewrite getattr_path_cons.
  cbn [touches] in Htouch.
  destruct (dict_get k items) as [v1|] eqn:Ev1.
  - destruct v1 as [| | | | | | |vd]; try discriminate.
    apply orb_false_elim in Htouch as [Htruthy Htouch].
    destruct (merge_items_at _ _ _ _ _ _ _ Hnd Hmerge Ev1 Hk) as (b1 & y & Hb1 & Hr & Hres).
    rewrite (getattr_dict _ _ _ Hr). cbn [res_bind].
    rewrite Hbk in Hb1.
    destruct Hres as [[Hrep|Hrep] | vd' Hvd Hin Htruthy' | vd' bkd m Hvd Hbk' Htruthy' Hrec].
    + discriminate.
    + congruence.
    + inversion Hvd; subst vd'. congruence.
    + inversion Hvd; subst vd'. rewrite Hb1 in Hbk'. inversion Hbk'; subst bk.
      eapply IH; [exact Hdel' | eapply Hchildren; exact Ev1 | exact Htouch
                 | exact Hrec | exact Hget].
  - rewrite (getattr_dict k r bk); [exact Hget|].
    rewrite (merge_items_other _ _ _ _ _ k Hmerge); [exact Hbk|].
    left. now apply dict_get_None_not_In.
Qed.

(** ** [_compose_config] *)

(** [train_cfg.assigner] is defined by the model file alone, and gone from
    the result: the dataset file replaced [train_cfg] as a whole. *)
Lemma value_below_replaced_dict_is_lost : ~ last_definition_wins.
Proof.
  intros H.
  specialize (H overriding_mmcv (Some "model.py") None (Some "data.py") None
                (config_manager sample_task) _ _ ["train_cfg"; "assigner"]
                (CStr "MaxIoUAssigner") eq_refl eq_refl eq_refl).
  vm_compute in H. discriminate H.
Qed.

Section Compose.

Variable mmcv : mmcv_api.

Lemma merge_file_loop names : forall acc result,
  for_each (merge_file mmcv) names acc = Ok result ->
  exists parsed,
    parse_files mmcv names = Ok parsed
    /\ forall p v o,
        Forall (fun f => wf (CDict f) = true) parsed ->
        ~ In DELETE_KEY p ->
        (forall v', o = Some v' -> getattr_path (CDict acc) p = Ok v') ->
        List.fold_left (fun acc f => if touches (CDict f) p then leaf_at f p else acc) parsed o
        = Some v ->
        getattr_path (CDict result) p = Ok v.
Proof.
  induction names as [|[f|] names IH]; intros acc result Hrun.
  - inversion Hrun; subst. exists []. split; [reflexivity|].
    intros p v o _ _ Hacc Hfold. cbn [fold_left] in Hfold. auto.
  - cbn [for_each merge_file] in Hrun.
    apply res_bind_Ok in Hrun as (acc' & Hstep & Hrun).
    apply res_bind_Ok in Hstep as (u & Hu & Hmerge).
    destruct (IH _ _ Hrun) as (parsed & Hparsed & Hspec).
    exists (u :: parsed). split.
    + unfold parse_files in *. cbn [given comprehension]. rewrite Hu. cbn [res_bind].
      rewrite Hparsed. reflexivity.
    + intros p v o Hwf Hdel Hacc Hfold. inversion Hwf as [|? ? Hwfu Hwf']; subst.
      cbn [fold_left] in Hfold.
      eapply Hspec; [exact Hwf' | exact Hdel | | exact Hfold].
      intros v' Hv'. unfold _merge_a_into_b in Hmerge.
      destruct (touches (CDict u) p) eqn:Et.
      * unfold leaf_at, config_getattr in Hv'.
        destruct (getattr_path (CDict u) p) as [x|] eqn:Ex; [|discriminate].
        destruct (is_dict x) eqn:Ed; [discriminate|]. inversion Hv'; subst x.
        eapply merge_from_override; eauto.
        intros ->. cbn [getattr_path] in Ex. inversion Ex; subst. discriminate.
      * eapply merge_from_untouched; eauto.
  - cbn [for_each merge_file res_bind] in Hrun.
    destruct (IH _ _ Hrun) as (parsed & Hparsed & Hspec).
    exists parsed. split; [exact Hparsed | exact Hspec].
Qed.

(** C3, as the code has it. [_compose_config] merges the files that are given
    in the order model, schedule, dataset, runtime with mmcv's recursive merge.
    When it returns, then for every key path without the key ['_delete_']: if
    the last file that touches the path (it defines the path, or holds a value
    that is no dict, or a dict marked ['_delete_'], at a prefix of it) holds a
    value that is no dict there, the composed configuration holds that value at
    the path.  So the last definition wins, and a value defined once stays
    unless a later file replaces a dict that encloses it. *)
Theorem _compose_config_last_touch_wins
    (model_file schedule_file dataset_file runtime_file : option string)
    (cm cm' : ConfigManager) :
  _compose_config mmcv model_file schedule_file dataset_file runtime_file cm = (cm', Ok tt) ->
  exists parsed,
    parse_files mmcv [model_file; schedule_file; dataset_file; runtime_file] = Ok parsed
    /\ forall p v,
        Forall (fun f => wf (CDict f) = true) parsed ->
        ~ In DELETE_KEY p ->
        last_touched parsed p = Some v ->
        config_getattr (config cm') p = Ok v.
Proof.
  intros H. unfold _compose_config in H.
  apply bind_Ok in H as (cm1 & result & Hloop & H). apply lift_Ok in Hloop as [-> Hloop].
  apply bind_Ok in H as (cm2 & c & Hc & H). apply lift_Ok in Hc as [-> Hc].
  apply Config_Ok in Hc. subst c.
  unfold modify in H. inversion H; subst cm'; clear H. cbn [config set_config].
  destruct (merge_file_loop _ _ _ Hloop) as (parsed & Hparsed & Hspec).
  exists parsed. split; [exact Hparsed|].
  intros p v Hwf Hdel Hlast. unfold config_getattr.
  eapply Hspec; [exact Hwf | exact Hdel | | exact Hlast]. discriminate.
Qed.

End Compose.

Lemma _compose_config_last_touch_wins_witness :
  snd (_compose_config layered_mmcv (Some "model.py") None (Some "data.py") (Some "runtime.py")
         (config_manager sample_task)) = Ok tt
  /\ config_getattr
       (config (fst (_compose_config layered_mmcv (Some "model.py") None (Some "data.py")
                       (Some "runtime.py") (config_manager sample_task))))
       ["optimizer"; "lr"] = Ok (CFloat (1 # 50))
  /\ config_getattr
       (config (fst (_compose_config layered_mmcv (Some "model.py") None (Some "data.py")
                       (Some "runtime.py") (config_manager sample_task))))
       ["optimizer"; "type"] = Ok (CStr "SGD").
Proof.
  assert (E : _compose_config layered_mmcv (Some "model.py") None (Some "data.py")
                (Some "runtime.py") (config_manager sample_task)
              = (fst (_compose_config layered_mmcv (Some "model.py") None (Some "data.py")
                        (Some "runtime.py") (config_manager sample_task)), Ok tt))
    by (vm_compute; reflexivity).
  destruct (_compose_config_last_touch_wins layered_mmcv _ _ _ _ _ _ E)
    as (parsed & Hparsed & Hspec).
  vm_compute in Hparsed. inversion Hparsed; subst parsed; clear Hparsed.
  assert (Hwf : Forall (fun f => wf (CDict f) = true)
                  [[("model", CDict [("type", CStr "SingleStageDetector")]);
                    ("optimizer", CDict [("type", CStr "SGD"); ("lr", CFloat (1 # 100))])];
                   [("data", CDict [("samples_per_gpu", CInt 2)])];
                   [("optimizer", CDict [("lr", CFloat (1 # 50))]);
                    ("runner", CDict [("max_epochs", CInt 5)])]])
    by (repeat constructor).
  split; [now rewrite E|]. split.
  - apply Hspec; [exact Hwf | | reflexivity].
    cbn. intros [H|[H|[]]]; discriminate.
  - apply Hspec; [exact Hwf | | reflexivity].
    cbn. intros [H|[H|[]]]; discriminate.
Defined.

(** * Further properties *)

(** ** Running a method step by step *)

Lemma get_Ok {S} (s s' x : S) : get s = (s', Ok x) -> s' = s /\ x = s.
Proof. unfold get. intros H. now inversion H. Qed.

Lemma bind_run {S A B} (m : SE S A) (f : A -> SE S B) s s1 a :
  m s = (s1, Ok a) -> bind m f s = f a s1.
Proof. intros H. unfold bind. now rewrite H. Qed.

Lemma bind_rerun {S A B} (m m' : SE S A) (f : A -> SE S B) s s' :
  m s = m' s' -> bind m f s = bind m' f s'.
Proof. intros H. unfold bind. now rewrite H. Qed.

Lemma bind_fails {S A B} (m : SE S A) (f : A -> SE S B) s s1 e :
  m s = (s1, Err e) -> bind m f s = (s1, Err e).
Proof. intros H. unfold bind. now rewrite H. Qed.

Lemma assign_inv p v cm cm' :
  assign p v cm = (cm', Ok tt) ->
  exists c, config_setattr (config cm) p v = Ok c /\ cm' = set_config c cm.
Proof.
  unfold assign, bind, get, lift, modify.
  destruct (config_setattr (config cm) p v) as [c|e]; [|discriminate].
  intros H; inversion H; eauto.
Qed.

Lemma assign_fails p v cm e :
  config_setattr (config cm) p v = Err e -> assign p v cm = (cm, Err e).
Proof. intros H. unfold assign, bind, get, lift. now rewrite H. Qed.

(** ** [get_annotation_mmdet_format]: unknown labels *)

Lemma index_from_not_found x l i :
  ~ In x l -> index_from x l i = Err (PyErr ValueError "x is not in list" None).
Proof.
  revert i. induction l as [|y l IH]; intros i Hn; simpl; [reflexivity|].
  destruct (String.eqb x y) eqn:E.
  - apply String.eqb_eq in E. subst y. exfalso. apply Hn. now left.
  - apply IH. intros Hin. apply Hn. now right.
Qed.

(** The loop over the boxes either visits them all, or stops with the
    [ValueError] of [list.index] at a box whose first label is unknown. *)
Lemma annotation_loop_outcome w h label_list l : forall st,
  Forall (fun s => is_Box s = true) l ->
  match for_each (annotation_step w h label_list) l st with
  | Ok st' =>
      Forall (first_label_known label_list) l
      /\ List.length (gt_bboxes st') = (List.length (gt_bboxes st) + List.length l)%nat
      /\ (is_empty_label st <> None \/ l <> [] -> is_empty_label st' <> None)
  | Err e =>
      exn_cls e = ValueError /\ Exists (fun s => ~ first_label_known label_list s) l
  end.
Proof.
  induction l as [|s l IH]; intros st Hb.
  - simpl. split; [constructor|]. split; [lia | intros [H|H]; congruence].
  - inversion Hb as [|? ? Hs Hb']; subst.
    destruct s as [x1 y1 x2 y2 labels| |]; try discriminate.
    cbn [for_each annotation_step].
    destruct labels as [|lab labels].
    + cbn [res_bind].
      match goal with |- context [for_each _ l ?s] => specialize (IH s Hb') end.
      destruct (for_each _ l _) as [st'|e].
      * destruct IH as (Hk & Hlen & Hnone). split; [constructor; [exact I | exact Hk]|].
        split.
        -- rewrite Hlen. cbn [gt_bboxes List.length]. rewrite length_app. simpl. lia.
        -- intros _. apply Hnone. left. discriminate.
      * destruct IH as [Hc Hex]. split; [exact Hc | now apply Exists_cons_tl].
    + destruct (In_dec string_dec (name lab) label_list) as [Hin|Hout].
      * destruct (index_from_found _ _ 0 Hin) as [k Hk]. unfold list_index. rewrite Hk.
        cbn [res_bind].
        match goal with |- context [for_each _ l ?s] => specialize (IH s Hb') end.
        destruct (for_each _ l _) as [st'|e].
        -- destruct IH as (Hknown & Hlen & Hnone). split; [constructor; [exact Hin | exact Hknown]|].
           split.
           ++ rewrite Hlen. cbn [gt_bboxes List.length]. rewrite length_app. simpl. lia.
           ++ intros _. apply Hnone. left. discriminate.
        -- destruct IH as [Hc Hex]. split; [exact Hc | now apply Exists_cons_tl].
      * unfold list_index. rewrite (index_from_not_found _ _ 0 Hout). cbn [res_bind exn_cls].
        split; [reflexivity|]. apply Exists_cons_hd. exact Hout.
Qed.

(** X1. [get_annotation_mmdet_format] returns exactly when the first label of
    every [Box] is one of [label_list]; otherwise it raises the [ValueError]
    of [label_list.index].  The [UnboundLocalError] that reading
    [is_empty_label] could raise never occurs. *)
Theorem get_annotation_mmdet_format_unknown_label (it : DatasetItem) (label_list : list string) :
  match get_annotation_mmdet_format it label_list with
  | Ok _ => Forall (first_label_known label_list) (boxes_of it)
  | Err e =>
      exn_cls e = ValueError
      /\ Exists (fun s => ~ first_label_known label_list s) (boxes_of it)
  end.
Proof.
  unfold get_annotation_mmdet_format. rewrite annotation_loop_filter. fold (boxes_of it).
  pose proof (annotation_loop_outcome (width it) (height it) label_list (boxes_of it)
                {| gt_bboxes := []; gt_labels := []; is_empty_label := None |}
                (boxes_of_are_boxes it)) as H.
  destruct (for_each _ (boxes_of it) _) as [st|e]; cbn [res_bind]; [|exact H].
  destruct H as (Hk & Hlen & Hnone). cbn [gt_bboxes List.length Nat.add] in Hlen.
  unfold annotation_result.
  destruct (Z.of_nat (List.length (gt_bboxes st)) =? 1)%Z eqn:E; [|exact Hk].
  destruct (is_empty_label st) as [[|]|] eqn:Ee; try exact Hk.
  exfalso. apply Hnone; [|reflexivity]. right. intros Hnil. rewrite Hnil in Hlen.
  rewrite Hlen in E. discriminate.
Qed.

(** ** [MMDatasetAdapter] *)

Lemma filter_first {A} (f : A -> bool) l :
  match List.filter f l with
  | x :: _ =>
      exists before after,
        l = before ++ x :: after /\ f x = true /\ Forall (fun y => f y = false) before
  | [] => Forall (fun y => f y = false) l
  end.
Proof.
  induction l as [|a l IH]; simpl; [constructor|].
  destruct (f a) eqn:E.
  - exists [], l. repeat split; [exact E | constructor].
  - destruct (List.filter f l) as [|x r].
    + constructor; assumption.
    + destruct IH as (before & after & -> & Hx & Hb).
      exists (a :: before), after. repeat split; [exact Hx | constructor; assumption].
Qed.

(** X2. [label_name_to_project_label] returns the first project label with
    the given name; it raises [IndexError] exactly when no project label has
    that name. *)
Theorem label_name_to_project_label_first (project_labels : list Label) (wanted : string) :
  match label_name_to_project_label project_labels wanted with
  | Ok label =>
      exists before after,
        project_labels = before ++ label :: after
        /\ label_name label = wanted
        /\ Forall (fun l => label_name l <> wanted) before
  | Err e =>
      e = PyErr IndexError "list index out of range" None
      /\ Forall (fun l => label_name l <> wanted) project_labels
  end.
Proof.
  unfold label_name_to_project_label.
  pose proof (filter_first (fun label => String.eqb (label_name label) wanted) project_labels)
    as H.
  destruct (List.filter _ project_labels) as [|x r].
  - split; [reflexivity|]. eapply List.Forall_impl; [|exact H].
    intros l Hl. now apply String.eqb_neq.
  - destruct H as (before & after & Heq & Hx & Hb). exists before, after.
    split; [exact Heq|]. split; [now apply String.eqb_eq|].
    eapply List.Forall_impl; [|exact Hb]. intros l Hl. now apply String.eqb_neq.
Qed.

Lemma list_getitem_nth {A} (l : list A) (i : Z) :
  (0 <= i < Z.of_nat (List.length l))%Z ->
  exists x, list_getitem l i = Ok x /\ nth_error l (Z.to_nat i) = Some x.
Proof.
  intros [H0 H1]. unfold list_getitem.
  replace (i <? 0)%Z with false by (symmetry; apply Z.ltb_ge; exact H0).
  replace (0 <=? i)%Z with true by (symmetry; apply Z.leb_le; exact H0).
  destruct (nth_error l (Z.to_nat i)) as [x|] eqn:E; [eauto|].
  apply nth_error_None in E. lia.
Qed.

Lemma index_from_nth x l : forall k i,
  NoDup l -> nth_error l k = Some x -> index_from x l i = Ok (i + Z.of_nat k)%Z.
Proof.
  induction l as [|y l IH]; intros k i Hnd Hk.
  - destruct k; discriminate.
  - apply NoDup_cons in Hnd as [Hny Hnd]. rewrite list_elem_of_In in Hny. simpl.
    destruct k as [|k]; simpl in Hk.
    + inversion Hk; subst. rewrite String.eqb_refl. f_equal. lia.
    + destruct (String.eqb x y) eqn:E.
      * apply String.eqb_eq in E. subst y. exfalso. apply Hny.
        eapply nth_error_In; eauto.
      * rewrite (IH k (i + 1)%Z Hnd Hk). f_equal. lia.
Qed.

Lemma label_name_to_project_label_found project_labels n :
  (exists l, In l project_labels /\ label_name l = n) ->
  exists pl, label_name_to_project_label project_labels n = Ok pl /\ label_name pl = n.
Proof.
  intros (l & Hin & Hn). unfold label_name_to_project_label.
  destruct (List.filter _ project_labels) as [|x r] eqn:E.
  - exfalso.
    assert (Hf : In l (List.filter (fun label => String.eqb (label_name label) n)
                         project_labels)).
    { apply filter_In. split; [exact Hin | now apply String.eqb_eq]. }
    rewrite E in Hf. destruct Hf.
  - exists x. split; [reflexivity|].
    assert (Hf : In x (List.filter (fun label => String.eqb (label_name label) n)
                         project_labels))
      by (rewrite E; now left).
    apply filter_In in Hf as [_ Hf]. now apply String.eqb_eq.
Qed.

Lemma combine_map_l {A B C} (f : A -> C) (l : list A) : forall (l' : list B),
  List.combine (List.map f l) l' = List.map (fun '(a, b) => (f a, b)) (List.combine l l').
Proof.
  induction l as [|a l IH]; intros [|b l']; simpl; try reflexivity. now rewrite IH.
Qed.

Lemma Forall_combine_r {A B} (P : B -> Prop) (l : list A) : forall (l' : list B),
  Forall P l' -> Forall (fun ab => P (snd ab)) (List.combine l l').
Proof.
  induction l as [|a l IH]; intros [|b l'] H; simpl; try constructor.
  - now inversion H.
  - apply IH. now inversion H.
Qed.

Section AdapterRoundTrip.

Variables (labels : list string) (project_labels : list Label) (w h : Z).

Hypotheses (Hw : (0 < w)%Z) (Hh : (0 < h)%Z).
Hypothesis Hdistinct : NoDup labels.
Hypothesis Hproject :
  Forall (fun n => exists l, In l project_labels /\ label_name l = n) labels.

Lemma scaled_back (x : Q) (n : Z) : (0 < n)%Z -> (x / inject_Z n * inject_Z n == x)%Q.
Proof.
  intros Hn. rewrite Qmult_comm. apply Qmult_div_r.
  intros H. unfold Qeq in H. simpl in H. lia.
Qed.

(** The boxes built from the ground truth, read by
    [get_annotation_mmdet_format], give the ground truth back. *)
Lemma adapter_loop (zipped : list ((Q * Q * Q * Q) * Z)) :
  Forall (fun ab => (0 <= snd ab < Z.of_nat (List.length labels))%Z) zipped ->
  exists shapes,
    comprehension (fun '(coords, label_id) =>
                     create_gt_box labels project_labels coords label_id)
      (List.map (fun '(b, i) => (scaled_down w h b, i)) zipped) = Ok shapes
    /\ forall st, exists rows,
         for_each (annotation_step w h labels) shapes st
         = Ok {| gt_bboxes := gt_bboxes st ++ rows;
                 gt_labels := gt_labels st ++ List.map snd zipped;
                 is_empty_label := match zipped with
                                   | [] => is_empty_label st
                                   | _ :: _ => Some false
                                   end |}
         /\ Forall2 (fun row b => Forall2 Qeq row (coords_row b)) rows (List.map fst zipped).
Proof.
  induction zipped as [|[[[[x1 y1] x2] y2] i] zipped IH]; intros Hids.
  - exists []. split; [reflexivity|]. intros st. exists []. split; [|constructor].
    simpl. rewrite !app_nil_r. now destruct st.
  - inversion Hids as [|? ? Hi Hids']; subst. cbn [snd] in Hi.
    destruct (IH Hids') as (shapes & Hshapes & Hloop).
    destruct (list_getitem_nth labels i Hi) as (n & Hn & Hnth).
    assert (Hpl : exists l, In l project_labels /\ label_name l = n).
    { rewrite List.Forall_forall in Hproject. apply Hproject. eapply nth_error_In; eauto. }
    destruct (label_name_to_project_label_found _ _ Hpl) as (pl & Hfound & Hname).
    eexists. split.
    + cbn [List.map comprehension scaled_down]. unfold create_gt_box at 1.
      rewrite Hn. cbn [res_bind]. rewrite Hfound. cbn [res_bind].
      rewrite Hshapes. cbn [res_bind]. reflexivity.
    + intros st. cbn [for_each annotation_step].
      unfold list_index, name. cbn [sl_label]. rewrite Hname.
      rewrite (index_from_nth _ _ _ 0%Z Hdistinct Hnth).
      replace (0 + Z.of_nat (Z.to_nat i))%Z with i by lia.
      cbn [res_bind].
      match goal with |- context [for_each _ shapes ?s] => destruct (Hloop s) as (rows & Hrun & Hrows) end.
      eexists (_ :: rows). split.
      * rewrite Hrun. cbn [gt_bboxes gt_labels is_empty_label List.map snd].
        rewrite <- !app_assoc. cbn [app].
        destruct zipped; reflexivity.
      * cbn [List.map fst]. constructor; [|exact Hrows].
        cbn [coords_row]. repeat constructor; now apply scaled_back.
Qed.

(** X3. Reading an item of the COCO dataset through [MMDatasetAdapter] and
    converting it back with [get_annotation_mmdet_format] gives the ground
    truth of the item: the boxes in pixels (the division by the image size is
    undone) and the label ids, for as many boxes as have a label id.  It
    needs an image of positive size, pairwise distinct label names with a
    project label each, and label ids that are positions in the label
    list. *)
Theorem MMDatasetAdapter_getitem_round_trip (item : CocoItem) :
  ori_shape item = (h, w) ->
  img_shape item = (h, w) ->
  Forall (fun i => (0 <= i < Z.of_nat (List.length labels))%Z) (item_gt_labels item) ->
  let zipped := List.combine (item_gt_bboxes item) (item_gt_labels item) in
  exists it r,
    MMDatasetAdapter_getitem labels project_labels item = Ok it
    /\ get_annotation_mmdet_format it labels = Ok r
    /\ Forall2 (fun row b => Forall2 Qeq row (coords_row b)) (bboxes r) (List.map fst zipped)
    /\ ann_labels r = List.map snd zipped.
Proof.
  intros Hori Himg Hids zipped.
  destruct (adapter_loop zipped (Forall_combine_r _ _ _ Hids)) as (boxes & Hshapes & Hloop).
  destruct (Hloop {| gt_bboxes := []; gt_labels := []; is_empty_label := None |})
    as (rows & Hrun & Hrows).
  assert (Hres : annotation_result
                   {| gt_bboxes := rows; gt_labels := List.map snd zipped;
                      is_empty_label := match zipped with
                                        | [] => None
                                        | _ :: _ => Some false
                                        end |}
                 = Ok {| bboxes := rows; ann_labels := List.map snd zipped |}).
  { unfold annotation_result. cbn [gt_bboxes gt_labels is_empty_label].
    destruct (Z.of_nat (List.length rows) =? 1)%Z eqn:E; [|reflexivity].
    clearbody zipped. destruct zipped as [|z zs]; [|reflexivity].
    inversion Hrows; subst. discriminate. }
  exists {| width := w; height := h; numpy := img item; shapes := boxes; subset := NONE |},
         {| bboxes := rows; ann_labels := List.map snd zipped |}.
  split.
  - unfold MMDatasetAdapter_getitem. rewrite Hori, Himg.
    change (List.map _ (item_gt_bboxes item))
      with (List.map (scaled_down w h) (item_gt_bboxes item)).
    rewrite combine_map_l. fold zipped. rewrite Hshapes.
    reflexivity.
  - unfold get_annotation_mmdet_format. cbn [width height shapes].
    rewrite Hrun. cbn [res_bind gt_bboxes gt_labels is_empty_label app].
    split; [exact Hres|]. split; [exact Hrows | reflexivity].
Qed.

End AdapterRoundTrip.

(** ** The configuration manager: classes and heads *)

Lemma set_subset_classes_inv subset cm cm' :
  set_subset_classes subset cm = (cm', Ok tt) ->
  exists c,
    config_setattr (config cm) ["data"; subset; "classes"]
      (CList (List.map CStr (label_names cm))) = Ok c
    /\ cm' = set_config c cm.
Proof.
  unfold set_subset_classes. intros H.
  apply bind_Ok in H as (cm1 & cm0 & Hget & H). apply get_Ok in Hget as [-> ->].
  apply bind_Ok in H as (cm1 & data & Hdata & H). apply lift_Ok in Hdata as [-> _].
  apply bind_Ok in H as (cm1 & item & Hitem & H). apply lift_Ok in Hitem as [-> _].
  now apply assign_inv.
Qed.

(** X4. When [set_data_classes] returns, [data.train.classes],
    [data.val.classes] and [data.test.classes] are the list of the label
    names, every path of the configuration that parts ways with these three is
    as before, and the label names and the custom schedule are untouched. *)
Theorem set_data_classes_sets (cm cm' : ConfigManager) :
  set_data_classes cm = (cm', Ok tt) ->
  let classes := CList (List.map CStr (label_names cm)) in
  Forall (fun p => config_getattr (config cm') p = Ok classes) classes_paths
  /\ (forall q, forallb (fun p => diverge p q) classes_paths = true ->
        config_getattr (config cm') q = config_getattr (config cm) q)
  /\ label_names cm' = label_names cm
  /\ custom_lr_schedule cm' = custom_lr_schedule cm.
Proof.
  intros H classes. unfold set_data_classes in H. cbn [for_] in H.
  apply bind_Ok in H as (cm1 & [] & Htrain & H).
  apply bind_Ok in H as (cm2 & [] & Hval & H).
  apply bind_Ok in H as (cm3 & [] & Htest & H).
  unfold ret in H. inversion H; subst cm3; clear H.
  apply set_subset_classes_inv in Htrain as (c1 & Htrain & ->).
  apply set_subset_classes_inv in Hval as (c2 & Hval & ->).
  apply set_subset_classes_inv in Htest as (c3 & Htest & ->).
  cbn [config set_config label_names custom_lr_schedule] in *. fold classes in Htrain, Hval, Htest.
  split; [|split; [|split; reflexivity]].
  - repeat constructor.
    + past_write Htest. past_write Hval.
      eapply config_getattr_set_eq; [discriminate | exact Htrain].
    + past_write Htest. eapply config_getattr_set_eq; [discriminate | exact Hval].
    + eapply config_getattr_set_eq; [discriminate | exact Htest].
  - intros q Hq. cbn [forallb classes_paths] in Hq.
    apply andb_prop in Hq as [Hq1 Hq]. apply andb_prop in Hq as [Hq2 Hq].
    apply andb_prop in Hq as [Hq3 _].
    rewrite (config_getattr_set_diverge _ _ _ _ _ Hq3 Htest).
    rewrite (config_getattr_set_diverge _ _ _ _ _ Hq2 Hval).
    apply (config_getattr_set_diverge _ _ _ _ _ Hq1 Htrain).
Qed.

Lemma set_num_classes_Ok n heads : forall heads',
  set_num_classes n heads = (heads', Ok tt) ->
  Forall2 (fun head head' => setattr head "num_classes" n = Ok head') heads heads'.
Proof.
  induction heads as [|h heads IH]; intros heads' H; simpl in H.
  - inversion H. constructor.
  - destruct (setattr h "num_classes" n) as [h'|e] eqn:E; [|discriminate].
    destruct (set_num_classes n heads) as [rest r] eqn:Er. inversion H; subst.
    constructor; [exact E | now apply IH].
Qed.

(** X5. When [_update_model_classification_heads] returns, the box heads of
    the model have [num_classes = len(label_names)]: with a [roi_head], each
    head of the list [model.roi_head.bbox_head] (its other attributes as
    before), or the single head [model.roi_head.bbox_head]; without a
    [roi_head], [model.bbox_head].  Nothing else is written: a [bbox_head]
    next to a [roi_head] is left alone, and a model with neither leaves the
    configuration as it was. *)
Theorem _update_model_classification_heads_sets (cm cm' : ConfigManager) :
  _update_model_classification_heads cm = (cm', Ok tt) ->
  let n := CInt (Z.of_nat (List.length (label_names cm))) in
  exists m,
    config_getattr (config cm) ["model"] = Ok (CDict m)
    /\ (if dict_has "roi_head" m then
          match config_getattr (config cm) ["model"; "roi_head"; "bbox_head"] with
          | Ok (CList heads) =>
              (exists heads',
                  config_getattr (config cm') ["model"; "roi_head"; "bbox_head"]
                  = Ok (CList heads')
                  /\ Forall2 (fun head head' => setattr head "num_classes" n = Ok head')
                       heads heads')
              /\ forall q, diverge ["model"; "roi_head"; "bbox_head"] q = true ->
                   config_getattr (config cm') q = config_getattr (config cm) q
          | _ =>
              config_getattr (config cm') ["model"; "roi_head"; "bbox_head"; "num_classes"]
              = Ok n
              /\ forall q, diverge ["model"; "roi_head"; "bbox_head"; "num_classes"] q = true ->
                   config_getattr (config cm') q = config_getattr (config cm) q
          end
        else if dict_has "bbox_head" m then
          config_getattr (config cm') ["model"; "bbox_head"; "num_classes"] = Ok n
          /\ forall q, diverge ["model"; "bbox_head"; "num_classes"] q = true ->
               config_getattr (config cm') q = config_getattr (config cm) q
        else config cm' = config cm)
    /\ label_names cm' = label_names cm.
Proof.
  intros H n. unfold _update_model_classification_heads in H.
  apply bind_Ok in H as (cm1 & cm0 & Hget & H). apply get_Ok in Hget as [-> ->].
  apply bind_Ok in H as (cm1 & model & Hmodel & H). apply lift_Ok in Hmodel as [-> Hmodel].
  destruct model as [| | | | | | |m]; try discriminate.
  exists m. split; [exact Hmodel|].
  assert (Hassign : forall p, p <> [] ->
            assign p n cm = (cm', Ok tt) ->
            (config_getattr (config cm') p = Ok n
             /\ forall q, diverge p q = true ->
                  config_getattr (config cm') q = config_getattr (config cm) q)
            /\ label_names cm' = label_names cm).
  { intros p Hp Ha. apply assign_inv in Ha as (c & Hset & ->). cbn [config set_config label_names].
    split; [split|reflexivity].
    - eapply config_getattr_set_eq; eauto.
    - intros q Hq. eapply config_getattr_set_diverge; eauto. }
  destruct (dict_has "roi_head" m).
  - apply bind_Ok in H as (cm1 & bbox_head & Hbh & H). apply lift_Ok in Hbh as [-> Hbh].
    rewrite Hbh.
    destruct bbox_head as [| | | | | |heads|]; try (apply Hassign; [discriminate | exact H]).
    fold n in H. destruct (set_num_classes n heads) as [heads' r] eqn:Eheads.
    apply bind_Ok in H as (cm1 & [] & Hset & H). apply lift_Ok in H as [-> Hr]. subst r.
    apply assign_inv in Hset as (c & Hset & ->). cbn [config set_config label_names].
    split; [split|reflexivity].
    + exists heads'. split; [|now apply set_num_classes_Ok].
      eapply config_getattr_set_eq; [discriminate | exact Hset].
    + intros q Hq. eapply config_getattr_set_diverge; eauto.
  - destruct (dict_has "bbox_head" m).
    + apply Hassign; [discriminate | exact H].
    + unfold ret in H. inversion H. split; reflexivity.
Qed.

(** ** [update_dataset_subsets] *)

Lemma set_ote_datasets_spec c test train val c' :
  set_ote_datasets c test train val = Ok c' ->
  config_getattr c' ["data"; "test"; "ote_dataset"] = Ok test
  /\ config_getattr c' ["data"; "train"; "ote_dataset"] = Ok train
  /\ config_getattr c' ["data"; "val"; "ote_dataset"] = Ok val
  /\ forall q, forallb (fun p => diverge p q) dataset_paths = true ->
       config_getattr c' q = config_getattr c q.
Proof.
  unfold set_ote_datasets. intros H.
  apply res_bind_Ok in H as (c1 & Htest & H).
  apply res_bind_Ok in H as (c2 & Htrain & Hval).
  repeat split.
  - past_write Hval. past_write Htrain.
    eapply config_getattr_set_eq; [discriminate | exact Htest].
  - past_write Hval. eapply config_getattr_set_eq; [discriminate | exact Htrain].
  - eapply config_getattr_set_eq; [discriminate | exact Hval].
  - intros q Hq. cbn [forallb dataset_paths] in Hq.
    apply andb_prop in Hq as [Hq1 Hq]. apply andb_prop in Hq as [Hq2 Hq].
    apply andb_prop in Hq as [Hq3 _].
    rewrite (config_getattr_set_diverge _ _ _ _ _ Hq3 Hval).
    rewrite (config_getattr_set_diverge _ _ _ _ _ Hq2 Htrain).
    apply (config_getattr_set_diverge _ _ _ _ _ Hq1 Htest).
Qed.

(** X6. [update_dataset_subsets] stores the testing, training and validation
    subsets of the dataset at [data.test.ote_dataset],
    [data.train.ote_dataset] and [data.val.ote_dataset] and changes no path
    that parts ways with these: in the manager's configuration when no model
    is passed (the rest of the manager being untouched), otherwise in the
    configuration of the model, whose weights and mode stay as they are. *)
Theorem update_dataset_subsets_sets (dataset : Dataset) :
  (forall cm cm',
      update_dataset_subsets_config dataset cm = (cm', Ok tt) ->
      subsets_set dataset (config cm) (config cm')
      /\ custom_lr_schedule cm' = custom_lr_schedule cm
      /\ model_name cm' = model_name cm
      /\ label_names cm' = label_names cm)
  /\ (forall model model',
         update_dataset_subsets_model dataset model = Ok model' ->
         exists c c',
           mcfg model = Some c /\ mcfg model' = Some c'
           /\ subsets_set dataset c c'
           /\ weights model' = weights model
           /\ training model' = training model).
Proof.
  split.
  - intros cm cm' H. unfold update_dataset_subsets_config in H.
    apply bind_Ok in H as (cm1 & cm0 & Hget & H). apply get_Ok in Hget as [-> ->].
    apply bind_Ok in H as (cm1 & c & Hc & H). apply lift_Ok in Hc as [-> Hc].
    unfold modify in H. inversion H; subst cm'; clear H.
    cbn [config set_config custom_lr_schedule model_name label_names].
    split; [|repeat split]. now apply set_ote_datasets_spec.
  - intros model model' H. unfold update_dataset_subsets_model in H.
    apply res_bind_Ok in H as (c & Hc & H).
    apply res_bind_Ok in H as (c' & Hc' & H). inversion H; subst model'; clear H.
    unfold the_cfg in Hc. destruct (mcfg model) as [c0|] eqn:Em; inversion Hc; subst c0.
    exists c, c'. cbn [mcfg set_mcfg weights training].
    split; [reflexivity|]. split; [reflexivity|].
    split; [|split; reflexivity]. now apply set_ote_datasets_spec.
Qed.

(** ** The learning rate schedule *)

Lemma dict_get_pop_eq {V} k (d : list (string * V)) : dict_get k (dict_pop k d) = None.
Proof.
  induction d as [|[k0 v0] d IH]; simpl; [reflexivity|].
  destruct (String.eqb k k0) eqn:E; simpl; [exact IH|]. now rewrite E.
Qed.

(** Collecting sections from a dict: a section that the dict has is taken
    from it, every other key is as in the dict collected into. *)
Lemma collect_sections (source : config_dict) sections : forall acc k,
  dict_get k
    (List.fold_left
       (fun schedule_config section =>
          match dict_get section source with
          | Some v => dict_set section v schedule_config
          | None => schedule_config
          end)
       sections acc)
  = if existsb (String.eqb k) sections
    then match dict_get k source with
         | Some v => Some v
         | None => dict_get k acc
         end
    else dict_get k acc.
Proof.
  induction sections as [|s sections IH]; intros acc k; [reflexivity|].
  cbn [List.fold_left existsb]. rewrite IH.
  destruct (String.eqb k s) eqn:E; cbn [orb].
  - apply String.eqb_eq in E. subst s.
    destruct (dict_get k source) as [v|] eqn:Ek.
    + rewrite dict_get_set_eq. now destruct (existsb _ sections).
    + now destruct (existsb _ sections).
  - apply String.eqb_neq in E.
    assert (Hacc : dict_get k (match dict_get s source with
                               | Some v => dict_set s v acc
                               | None => acc
                               end) = dict_get k acc).
    { destruct (dict_get s source); [now apply dict_get_set_ne | reflexivity]. }
    now rewrite Hacc.
Qed.

(** X7. [_get_custom_lr_schedule] keeps of the model file exactly its
    sections [optimizer], [optimizer_config], [lr_config] and
    [momentum_config], each as the file has it. *)
Theorem _get_custom_lr_schedule_sections (mmcv : mmcv_api) (model_file : string)
    (model_config : config_dict) :
  fromfile mmcv model_file = Ok model_config ->
  exists schedule,
    _get_custom_lr_schedule mmcv model_file = Ok schedule
    /\ forall k, dict_get k schedule
                 = if existsb (String.eqb k) schedule_sections
                   then dict_get k model_config
                   else None.
Proof.
  intros Hfile. unfold _get_custom_lr_schedule. rewrite Hfile. cbn [res_bind].
  eexists. split; [reflexivity|]. intros k. rewrite collect_sections.
  cbn [dict_get]. now destruct (existsb _ _), (dict_get k model_config).
Qed.

Section Schedule.

Variables (mmcv : mmcv_api) (config_mapper : ConfigMappings).

(** Lines 236-238: the sections are gone, every other key is as before. *)
Lemma pop_sections sections : forall cm,
  exists cm',
    for_ sections (fun section =>
      do* cm := get in
      if dict_has section (config cm)
      then modify (set_config (dict_pop section (config cm)))
      else ret tt) cm = (cm', Ok tt)
    /\ custom_lr_schedule cm' = custom_lr_schedule cm
    /\ forall k, dict_get k (config cm')
                 = if existsb (String.eqb k) sections then None else dict_get k (config cm).
Proof.
  induction sections as [|s sections IH]; intros cm.
  - exists cm. repeat split.
  - cbn [for_]. unfold bind at 1. unfold bind at 1. unfold get at 1.
    destruct (dict_has s (config cm)) eqn:Ehas.
    + unfold modify at 1.
      destruct (IH (set_config (dict_pop s (config cm)) cm)) as (cm' & Hrun & Hcustom & Hget).
      exists cm'. split; [exact Hrun|]. split; [exact Hcustom|].
      intros k. rewrite Hget. cbn [existsb config set_config].
      destruct (String.eqb k s) eqn:E; cbn [orb].
      * apply String.eqb_eq in E. subst s. rewrite dict_get_pop_eq.
        now destruct (existsb _ sections).
      * apply String.eqb_neq in E. now rewrite dict_get_pop_ne.
    + unfold ret at 1.
      destruct (IH cm) as (cm' & Hrun & Hcustom & Hget).
      exists cm'. split; [exact Hrun|]. split; [exact Hcustom|].
      intros k. rewrite Hget. cbn [existsb].
      destruct (String.eqb k s) eqn:E; cbn [orb]; [|reflexivity].
      apply String.eqb_eq in E. subst s. unfold dict_has in Ehas.
      destruct (dict_get k (config cm)); [discriminate|]. now destruct (existsb _ sections).
Qed.

(** Lines 241-243: the sections of the custom schedule are put in place. *)
Lemma restore_sections sections : forall cm,
  exists cm',
    for_ sections (fun section =>
      do* cm := get in
      match dict_get section (custom_lr_schedule cm) with
      | Some o => modify (set_config (dict_set section (deepcopy o) (config cm)))
      | None => ret tt
      end) cm = (cm', Ok tt)
    /\ custom_lr_schedule cm' = custom_lr_schedule cm
    /\ forall k, dict_get k (config cm')
                 = if existsb (String.eqb k) sections
                   then match dict_get k (custom_lr_schedule cm) with
                        | Some v => Some v
                        | None => dict_get k (config cm)
                        end
                   else dict_get k (config cm).
Proof.
  induction sections as [|s sections IH]; intros cm.
  - exists cm. repeat split.
  - cbn [for_]. unfold bind at 1. unfold bind at 1. unfold get at 1.
    destruct (dict_get s (custom_lr_schedule cm)) as [o|] eqn:Es.
    + unfold modify at 1.
      destruct (IH (set_config (dict_set s (deepcopy o) (config cm)) cm))
        as (cm' & Hrun & Hcustom & Hget).
      exists cm'. split; [exact Hrun|]. split; [exact Hcustom|].
      intros k. rewrite Hget. cbn [existsb config set_config custom_lr_schedule].
      destruct (String.eqb k s) eqn:E; cbn [orb].
      * apply String.eqb_eq in E. subst s. rewrite Es, dict_get_set_eq.
        now destruct (existsb _ sections).
      * apply String.eqb_neq in E. now rewrite dict_get_set_ne.
    + unfold ret at 1.
      destruct (IH cm) as (cm' & Hrun & Hcustom & Hget).
      exists cm'. split; [exact Hrun|]. split; [exact Hcustom|].
      intros k. rewrite Hget. cbn [existsb].
      destruct (String.eqb k s) eqn:E; cbn [orb]; [|reflexivity].
      apply String.eqb_eq in E. subst s. rewrite Es. now destruct (existsb _ sections).
Qed.

(** The two loops of [_update_learning_rate_schedule] with the schedule
    ['custom']. *)
Lemma custom_sections_in_place warmup_iters cm :
  exists cm2,
    _update_learning_rate_schedule mmcv config_mapper "custom" warmup_iters cm
    = (if py_gt0 warmup_iters then
         do* _ := assign ["lr_config"; "warmup"] (CStr "linear") in
         do* _ := assign ["lr_config"; "warmup_ratio"] (CFloat (1 / 3)) in
         assign ["lr_config"; "warmup_iters"] (cfg_of_num warmup_iters)
       else ret tt) cm2
    /\ custom_lr_schedule cm2 = custom_lr_schedule cm
    /\ forall k, dict_get k (config cm2)
                 = if existsb (String.eqb k) schedule_sections
                   then dict_get k (custom_lr_schedule cm)
                   else dict_get k (config cm).
Proof.
  destruct (pop_sections schedule_sections cm) as (cm1 & Hpop & Hc1 & Hg1).
  destruct (restore_sections schedule_sections cm1) as (cm2 & Hres & Hc2 & Hg2).
  exists cm2. split; [|split; [congruence|]].
  - unfold _update_learning_rate_schedule.
    rewrite (bind_run _ _ _ _ _ Hpop). cbn [String.eqb Ascii.eqb Bool.eqb].
    rewrite (bind_run _ _ _ _ _ Hres). reflexivity.
  - intros k. rewrite Hg2, Hg1, Hc1.
    destruct (existsb (String.eqb k) schedule_sections); [|reflexivity].
    now destruct (dict_get k (custom_lr_schedule cm)).
Qed.

(** X8. With the schedule ['custom'] and no warm-up,
    [_update_learning_rate_schedule] always returns; afterwards each of the
    four schedule sections of the configuration is the one of the custom
    schedule (taken from the model file), or absent when the custom schedule
    has none, and every other entry of the configuration is as before. *)
Theorem custom_schedule_restores_sections (warmup_iters : pynum) (cm : ConfigManager) :
  py_gt0 warmup_iters = false ->
  exists cm',
    _update_learning_rate_schedule mmcv config_mapper "custom" warmup_iters cm = (cm', Ok tt)
    /\ custom_lr_schedule cm' = custom_lr_schedule cm
    /\ forall k, dict_get k (config cm')
                 = if existsb (String.eqb k) schedule_sections
                   then dict_get k (custom_lr_schedule cm)
                   else dict_get k (config cm).
Proof.
  intros Hwarm.
  destruct (custom_sections_in_place warmup_iters cm) as (cm2 & Hrun & Hcustom & Hget).
  rewrite Hwarm in Hrun. exists cm2. split; [exact Hrun|]. split; assumption.
Qed.

End Schedule.

(** ** Failures of configuration updates *)

Lemma setattr_path_error p : forall c v e,
  setattr_path c p v = Err e -> exn_cls e = AttributeError.
Proof.
  induction p as [|k p IH]; intros c v e H; [discriminate|].
  destruct p as [|k2 p].
  - cbn [setattr_path] in H. destruct c; inversion H; reflexivity.
  - rewrite setattr_path_cons2 in H.
    destruct (getattr c k) as [c1|e1] eqn:E1; cbn [res_bind] in H.
    + destruct (setattr_path c1 (k2 :: p) v) as [c2|e2] eqn:E2; cbn [res_bind] in H.
      * destruct c; inversion H; reflexivity.
      * inversion H; subst. eapply IH; eauto.
    + inversion H; subst. destruct c; cbn [getattr] in E1; inversion E1; try reflexivity.
      destruct (dict_get k d); inversion E1; reflexivity.
Qed.

Lemma config_setattr_error c p v e :
  config_setattr c p v = Err e -> exn_cls e = AttributeError.
Proof.
  unfold config_setattr. destruct (setattr_path (CDict c) p v) as [c'|e'] eqn:E; cbn [res_bind].
  - destruct c'; intros H; inversion H; reflexivity.
  - intros H; inversion H; subst. eapply setattr_path_error; eauto.
Qed.

Lemma config_getattr_top k c :
  config_getattr c [k] = match dict_get k c with
                         | Some v => Ok v
                         | None => Err (attribute_error k)
                         end.
Proof. unfold config_getattr. cbn. now destruct (dict_get k c). Qed.

Lemma dict_get_of_getattr k (c c' : config_dict) :
  config_getattr c' [k] = config_getattr c [k] -> dict_get k c' = dict_get k c.
Proof.
  rewrite !config_getattr_top.
  destruct (dict_get k c'), (dict_get k c); intros H; inversion H; reflexivity.
Qed.

(** Writing below another section leaves a missing [optimizer] missing. *)
Lemma assign_without_optimizer k p v :
  k <> "optimizer" -> without_optimizer (assign (k :: p) v).
Proof.
  intros Hk cm Hnone. unfold assign, bind, get, lift, modify.
  destruct (config_setattr (config cm) (k :: p) v) as [c|e] eqn:E; cbn [fst snd].
  - split; [|discriminate]. cbn [config set_config]. rewrite <- Hnone.
    apply dict_get_of_getattr. eapply config_getattr_set_diverge; [|exact E].
    cbn [diverge]. destruct (String.eqb k "optimizer") eqn:Ek; [|reflexivity].
    apply String.eqb_eq in Ek. contradiction.
  - split; [exact Hnone|]. intros e' H. inversion H; subst. eapply config_setattr_error; eauto.
Qed.

Lemma bind_without_optimizer {A B} (m : SE ConfigManager A) (f : A -> SE ConfigManager B) :
  without_optimizer m -> (forall a, without_optimizer (f a)) -> without_optimizer (bind m f).
Proof.
  intros Hm Hf cm Hnone. unfold bind. destruct (Hm cm Hnone) as [Hm1 Hm2].
  destruct (m cm) as [cm1 [a|e]]; cbn [fst snd] in *.
  - now apply Hf.
  - split; [exact Hm1|]. intros e' H. apply Hm2. now inversion H.
Qed.

Lemma ret_without_optimizer {A} (a : A) : without_optimizer (ret a).
Proof. intros cm Hnone. split; [exact Hnone | discriminate]. Qed.

(** A computation that keeps the [optimizer] section missing, followed by one
    that fails without it, fails. *)
Lemma fails_without_optimizer {A B} (m : SE ConfigManager A) (k : A -> SE ConfigManager B) cm :
  without_optimizer m ->
  dict_get "optimizer" (config cm) = None ->
  (forall a cm1, dict_get "optimizer" (config cm1) = None ->
     exists e, snd (k a cm1) = Err e /\ exn_cls e = AttributeError
               /\ dict_get "optimizer" (config (fst (k a cm1))) = None) ->
  exists e, snd (bind m k cm) = Err e /\ exn_cls e = AttributeError
            /\ dict_get "optimizer" (config (fst (bind m k cm))) = None.
Proof.
  intros Hm Hnone Hk. unfold bind. destruct (Hm cm Hnone) as [Hm1 Hm2].
  destruct (m cm) as [cm1 [a|e]]; cbn [fst snd] in *.
  - now apply Hk.
  - exists e. split; [reflexivity|]. split; [now apply Hm2 | exact Hm1].
Qed.

Section ConfigurationUpdates.

Variables (mmcv : mmcv_api) (config_mapper : ConfigMappings).

(** X9. With the schedule ['custom'] and a custom schedule (a model file)
    without an [optimizer] section, [update_project_configuration] raises an
    [AttributeError], and the configuration it leaves behind has no
    [optimizer] section any more: the one it had was removed before the custom
    sections were put in place. *)
Theorem update_project_configuration_without_optimizer (params : MMDetectionParameters)
    (cm : ConfigManager) :
  learning_rate_schedule (learning_parameters params) = "custom" ->
  dict_get "optimizer" (custom_lr_schedule cm) = None ->
  exists e,
    snd (update_project_configuration mmcv config_mapper params cm) = Err e
    /\ exn_cls e = AttributeError
    /\ dict_get "optimizer"
         (config (fst (update_project_configuration mmcv config_mapper params cm))) = None.
Proof.
  intros Hcustom Hnone. unfold update_project_configuration. rewrite Hcustom.
  destruct (custom_sections_in_place mmcv config_mapper
              (learning_rate_warmup_iters (learning_parameters params)) cm)
    as (cm2 & Hrun & _ & Hget).
  assert (Hnone2 : dict_get "optimizer" (config cm2) = None).
  { rewrite Hget. cbn [existsb schedule_sections String.eqb Ascii.eqb Bool.eqb orb].
    exact Hnone. }
  rewrite (bind_rerun _ _ _ _ _ Hrun).
  apply fails_without_optimizer; [|exact Hnone2|].
  - destruct (py_gt0 _); [|apply ret_without_optimizer].
    repeat (apply bind_without_optimizer; [|intros _]);
      apply assign_without_optimizer; discriminate.
  - intros _ cm3 Hnone3.
    apply fails_without_optimizer; [apply assign_without_optimizer; discriminate | exact Hnone3|].
    intros _ cm4 Hnone4.
    assert (Hfail : config_setattr (config cm4) ["optimizer"; "lr"]
                      (CFloat (py_float (learning_rate (learning_parameters params))))
                    = Err (attribute_error "optimizer")).
    { unfold config_setattr. rewrite setattr_path_cons2. cbn [getattr]. now rewrite Hnone4. }
    exists (attribute_error "optimizer").
    rewrite (bind_fails _ _ _ _ _ (assign_fails _ _ _ _ Hfail)). cbn [fst snd].
    split; [reflexivity|]. split; [reflexivity | exact Hnone4].
Qed.


(** ** Printing a configuration *)




End ConfigurationUpdates.

(** ** [_search_in_config_dict] *)

Lemma cfg_nested_ind (P : cfg -> Prop) :
  P CNone -> (forall b, P (CBool b)) -> (forall z, P (CInt z)) -> (forall q, P (CFloat q)) ->
  (forall s, P (CStr s)) -> (forall o, P (CObj o)) ->
  (forall l, Forall P l -> P (CList l)) ->
  (forall d, Forall (fun kv => P (snd kv)) d -> P (CDict d)) ->
  forall c, P c.
Proof.
  intros HN HB HI HF HS HO HL HD.
  fix IH 1.
  intros [| b | z | q | s | o | l | d];
    [apply HN | apply HB | apply HI | apply HF | apply HS | apply HO | | ].
  - apply HL. induction l as [|c l IHl]; constructor; [apply IH | exact IHl].
  - apply HD. induction d as [|[k c] d IHd]; constructor; [apply IH | exact IHd].
Qed.

Lemma key_eqb_eq a b : key_eqb a b = true <-> a = b.
Proof.
  destruct a as [s|i], b as [t|j]; cbn [key_eqb].
  - rewrite String.eqb_eq. split; [intros ->; reflexivity | intros H; now inversion H].
  - split; discriminate.
  - split; discriminate.
  - rewrite Nat.eqb_eq. split; [intros ->; reflexivity | intros H; now inversion H].
Qed.

Lemma dict_get_In_pair {V} k (v : V) d : dict_get k d = Some v -> In (k, v) d.
Proof.
  induction d as [|[k0 v0] d IH]; simpl; [discriminate|].
  destruct (String.eqb k k0) eqn:E.
  - apply String.eqb_eq in E. subst k0. intros H; inversion H; now left.
  - intros H. right. now apply IH.
Qed.

Lemma dict_get_of_In {V} k (v : V) d :
  NoDup (List.map fst d) -> In (k, v) d -> dict_get k d = Some v.
Proof.
  induction d as [|[k0 v0] d IH]; intros Hnd Hin; [destruct Hin|].
  cbn [List.map fst] in Hnd. apply NoDup_cons in Hnd as [Hnotin Hnd].
  rewrite list_elem_of_In in Hnotin. cbn [dict_get].
  destruct Hin as [Heq|Hin].
  - inversion Heq; subst. now rewrite String.eqb_refl.
  - destruct (String.eqb k k0) eqn:E; [|now apply IH].
    apply String.eqb_eq in E. subst k0. exfalso. apply Hnotin.
    apply in_map_iff. exists (k, v). split; [reflexivity | exact Hin].
Qed.

Section Search.

Variable k : key.

(** An occurrence of the key in [c] goes through an entry of [c]. *)
Lemma found_below c prior x :
  (exists a c', lookup_key c a = Some c' /\ found_at k prior x a c')
  <-> exists p, snd x = prior ++ p /\ value_at c (p ++ [k]) = Some (fst x).
Proof.
  split.
  - intros (a & c' & Hlook & [[Heq Hx] | (p' & Hp & Hval)]).
    + apply key_eqb_eq in Heq. subst a x. exists []. cbn [snd fst app value_at].
      rewrite app_nil_r, Hlook. split; reflexivity.
    + exists (a :: p'). split; [exact Hp|]. cbn [app value_at]. now rewrite Hlook.
  - intros ([|a p'] & Hp & Hval).
    + cbn [app value_at] in Hval. rewrite app_nil_r in Hp.
      destruct (lookup_key c k) as [c'|] eqn:Hlook; inversion Hval; subst.
      exists k, (fst x). split; [exact Hlook|]. left.
      split; [now apply key_eqb_eq|]. destruct x; cbn [fst snd] in *. now subst.
    + cbn [app value_at] in Hval.
      destruct (lookup_key c a) as [c'|] eqn:Hlook; [|discriminate].
      exists a, c'. split; [exact Hlook|]. right. eauto.
Qed.

Lemma search_spec_leaf c :
  (forall a, lookup_key c a = None) ->
  (forall prior results, _search_in_config_dict c k prior results = results) ->
  search_spec k c.
Proof.
  intros Hleaf Hsearch prior results x. rewrite Hsearch. split; [now left|].
  intros [H|H]; [exact H|]. apply found_below in H as (a & c' & Hlook & _).
  rewrite Hleaf in Hlook. discriminate.
Qed.

(** What a search adds for one entry. *)
Lemma search_entry a c' prior results x :
  search_spec k c' ->
  In x (_search_in_config_dict c' k (prior ++ [a])
          (if key_eqb a k then results ++ [(c', prior)] else results))
  <-> In x results \/ found_at k prior x a c'.
Proof.
  intros Hspec. unfold search_spec in Hspec. rewrite Hspec. unfold found_at.
  assert (Hhere : In x (if key_eqb a k then results ++ [(c', prior)] else results)
                  <-> In x results \/ (key_eqb a k = true /\ x = (c', prior))).
  { destruct (key_eqb a k).
    - rewrite in_app_iff. cbn [In]. intuition congruence.
    - intuition congruence. }
  rewrite Hhere.
  assert (Hbelow : (exists p, snd x = (prior ++ [a]) ++ p
                              /\ value_at c' (p ++ [k]) = Some (fst x))
                   <-> (exists p', snd x = prior ++ a :: p'
                                   /\ value_at c' (p' ++ [k]) = Some (fst x))).
  { split; intros (p & Hp & Hv); exists p; split; try exact Hv;
      rewrite Hp, <- app_assoc; reflexivity. }
  rewrite Hbelow. tauto.
Qed.

Lemma search_sound_complete : forall c, wf c = true -> search_spec k c.
Proof.
  induction c as [| b | z | q | s | o | l IHl | d IHd] using cfg_nested_ind; intros Hwf;
    try (apply search_spec_leaf; [intros []; reflexivity | reflexivity]).
  - (* a list: the entries are the elements, by position *)
    intros prior results x. cbn [_search_in_config_dict].
    match goal with |- In x (?loop l 0%nat results) <-> _ => set (items := loop) end.
    assert (Hnil : forall i r, items [] i r = r) by reflexivity.
    assert (Hstep : forall value l' i r,
               items (value :: l') i r
               = items l' (S i)
                   (_search_in_config_dict value k (prior ++ [KInt i])
                      (if key_eqb (KInt i) k then r ++ [(value, prior)] else r)))
      by reflexivity.
    clearbody items.
    assert (Hloop : forall l0, Forall (search_spec k) l0 -> forall i r,
               In x (items l0 i r)
               <-> In x r \/ exists j c', nth_error l0 j = Some c'
                                          /\ found_at k prior x (KInt (i + j)) c').
    { induction l0 as [|value l0 IH0]; intros Hall i r.
      - rewrite Hnil. split; [now left|]. intros [H|(j & c' & Hj & _)]; [exact H|].
        destruct j; discriminate.
      - inversion Hall as [|? ? Hvalue Hall']; subst. rewrite Hstep, (IH0 Hall').
        rewrite (search_entry _ _ _ _ _ Hvalue). split.
        + intros [[H|H]|(j & c' & Hj & H)].
          * now left.
          * right. exists 0%nat, value. split; [reflexivity|]. now rewrite Nat.add_0_r.
          * right. exists (S j), c'. split; [exact Hj|].
            now replace (i + S j)%nat with (S i + j)%nat by lia.
        + intros [H|([|j] & c' & Hj & H)].
          * left. now left.
          * cbn [nth_error] in Hj. inversion Hj; subst c'. rewrite Nat.add_0_r in H.
            left. now right.
          * right. exists j, c'. split; [exact Hj|].
            now replace (S i + j)%nat with (i + S j)%nat by lia. }
    assert (Hall : Forall (search_spec k) l).
    { cbn [wf] in Hwf. rewrite forallb_forall in Hwf.
      rewrite List.Forall_forall in IHl. apply List.Forall_forall.
      intros c Hc. apply IHl; [exact Hc | now apply Hwf]. }
    rewrite (Hloop l Hall). rewrite <- found_below.
    split; (intros [H|H]; [now left | right]).
    + destruct H as (j & c' & Hj & H). exists (KInt j), c'. split; [exact Hj | exact H].
    + destruct H as ([s|j] & c' & Hj & H); [discriminate|]. exists j, c'. split; assumption.
  - (* a dict: the entries are its items *)
    intros prior results x. cbn [_search_in_config_dict].
    match goal with |- In x (?loop d results) <-> _ => set (items := loop) end.
    assert (Hnil : forall r, items [] r = r) by reflexivity.
    assert (Hstep : forall k0 value d' r,
               items ((k0, value) :: d') r
               = items d'
                   (_search_in_config_dict value k (prior ++ [KStr k0])
                      (if key_eqb (KStr k0) k then r ++ [(value, prior)] else r)))
      by reflexivity.
    clearbody items.
    assert (Hloop : forall d0, Forall (fun kv => search_spec k (snd kv)) d0 -> forall r,
               In x (items d0 r)
               <-> In x r \/ exists k0 c', In (k0, c') d0
                                           /\ found_at k prior x (KStr k0) c').
    { induction d0 as [|[k0 value] d0 IH0]; intros Hall r.
      - rewrite Hnil. split; [now left|]. intros [H|(k0 & c' & [] & _)]. exact H.
      - inversion Hall as [|? ? Hvalue Hall']; subst. cbn [snd] in Hvalue.
        rewrite Hstep, (IH0 Hall'). rewrite (search_entry _ _ _ _ _ Hvalue). split.
        + intros [[H|H]|(k1 & c' & Hin & H)].
          * now left.
          * right. exists k0, value. split; [now left | exact H].
          * right. exists k1, c'. split; [now right | exact H].
        + intros [H|(k1 & c' & [Heq|Hin] & H)].
          * left. now left.
          * inversion Heq; subst. left. now right.
          * right. exists k1, c'. split; assumption. }
    destruct (wf_dict _ Hwf) as [Hnd Hchildren].
    assert (Hall : Forall (fun kv => search_spec k (snd kv)) d).
    { rewrite List.Forall_forall in IHd. apply List.Forall_forall.
      intros [k0 c] Hc. apply IHd; [exact Hc|]. cbn [snd].
      eapply Hchildren, dict_get_of_In; eauto. }
    rewrite (Hloop d Hall). rewrite <- found_below.
    split; (intros [H|H]; [now left | right]).
    + destruct H as (k0 & c' & Hin & H). exists (KStr k0), c'.
      split; [|exact H]. cbn [lookup_key]. now apply dict_get_of_In.
    + destruct H as ([s|j] & c' & Hlook & H); [|discriminate].
      exists s, c'. split; [|exact H]. now apply dict_get_In_pair.
Qed.

(** X12. [_search_in_config_dict] finds exactly the occurrences of the key:
    for a configuration with distinct keys, [[value, keys]] is among the
    results if and only if following [keys] and then the key searched (keys of
    dicts, positions in lists) leads to [value].  Occurrences inside an
    occurrence are found as well. *)
Theorem _search_in_config_dict_finds_occurrences (c : cfg) (value : cfg) (keys : list key) :
  wf c = true ->
  In (value, keys) (_search_in_config_dict c k [] [])
  <-> value_at c (keys ++ [k]) = Some value.
Proof.
  intros Hwf. rewrite (search_sound_complete c Hwf [] [] (value, keys)).
  cbn [In fst snd app]. split.
  - intros [[]|(p & -> & Hv)]. exact Hv.
  - intros Hv. right. exists keys. split; [reflexivity | exact Hv].
Qed.

End Search.

(** ** [cancel_training], once more *)

Lemma touch_idempotent path f : touch path (touch path f) = touch path f.
Proof.
  destruct (files f !! path) as [content|] eqn:E.
  - assert (Hf : touch path f = f) by (unfold touch; now rewrite E). now rewrite !Hf.
  - assert (Hf : touch path f = {| dirs := dirs f; files := <[path := ""]> (files f) |})
      by (unfold touch; now rewrite E).
    rewrite Hf. unfold touch. cbn [files]. now rewrite lookup_insert_eq.
Qed.

Lemma cancel_training_run (w : World) :
  cancel_training w
  = match (let* d := config_getattr (config (config_manager (task w))) ["work_dir"] in
           as_str d) with
    | Ok work_dir =>
        (set_fs (touch (os_path_join work_dir ".stop_training") (fs w))
           (set_task (set_should_stop true (task w)) w), Ok tt)
    | Err e => (set_task (set_should_stop true (task w)) w, Err e)
    end.
Proof.
  unfold cancel_training, bind, modify_task, modify, get_task, lift.
  cbn [task set_task config_manager set_should_stop fs].
  destruct (res_bind _ _); reflexivity.
Qed.

(** X13. A second [cancel_training] changes nothing: it leaves the task and
    the file system as the first one left them, and returns or raises as the
    first one did. *)
Theorem cancel_training_idempotent (w : World) :
  cancel_training (fst (cancel_training w)) = cancel_training w.
Proof.
  rewrite (cancel_training_run w).
  destruct (res_bind (config_getattr (config (config_manager (task w))) ["work_dir"])
              (fun d => as_str d)) as [work_dir|e] eqn:E; cbn [fst].
  - rewrite cancel_training_run. cbn [task set_task set_fs config_manager set_should_stop fs].
    rewrite E. now rewrite touch_idempotent.
  - rewrite cancel_training_run. cbn [task set_task set_fs config_manager set_should_stop fs].
    now rewrite E.
Qed.

(** ** [analyse]: a class without a label *)

(** X14. A detection that reaches the confidence threshold and belongs to a
    class for which the configuration has no label makes the conversion of
    [analyse] raise [IndexError], also when the detection is empty after
    clipping: the label is looked up before the box is checked. *)
Theorem detection_shape_class_without_label (config : config_dict) (width height : Z)
    (confidence_threshold : Q) (label_idx : nat) (d : Detection) (labels : list cfg) :
  config_getattr config ["labels"] = Ok (CList labels) ->
  (List.length labels <= label_idx)%nat ->
  (confidence_threshold <= dscore d)%Q ->
  detection_shape config width height confidence_threshold label_idx d
  = Err (PyErr IndexError "list index out of range" None).
Proof.
  intros Hlabels Hidx Hthr. unfold detection_shape.
  replace (Qltb (dscore d) confidence_threshold) with false
    by (symmetry; unfold Qltb; apply negb_false_iff, Qle_bool_iff; exact Hthr).
  rewrite Hlabels. cbn [res_bind label_at].
  apply nth_error_None in Hidx. now rewrite Hidx.
Qed.

(** ** [_create_model] *)

(** X15. A model created from scratch depends on the [model] section of the
    configuration alone: [init_from] and every other entry are ignored.  It
    is built from that section with [pretrained = None], no checkpoint is
    loaded into it, and the learning curves of the task are reset. *)
Theorem _create_model_from_scratch (mmdet : mmdet_api) (c : config_dict) (w : World) :
  (forall c', dict_get "model" c' = dict_get "model" c ->
     _create_model mmdet c' true w = _create_model mmdet c true w)
  /\ (forall m, dict_get "model" c = Some (CDict m) ->
        _create_model mmdet c true w
        = (set_task (set_learning_curves [] (task w)) w,
           build_detector mmdet (CDict (dict_set "pretrained" CNone m)))).
Proof.
  split.
  - intros c' Hsame. unfold _create_model, config_getattr.
    cbn [getattr_path getattr]. rewrite Hsame. reflexivity.
  - intros m Hm. unfold _create_model, config_getattr.
    cbn [getattr_path getattr]. rewrite Hm. reflexivity.
Qed.

(** ** [_load_best_model_and_check_if_model_improved] *)

Section LoadBest.

Variable torch : torch_api.

(** X16. Without the checkpoint ['latest.pth'] in the work directory,
    [_load_best_model_and_check_if_model_improved] raises
    [FileNotFoundError] and leaves the task and the file system as they
    were. *)
Theorem _load_best_model_missing_checkpoint (pretraining_performance : Q)
    (compare : bool) (w : World) (work_dir : string) :
  config_getattr (config (config_manager (task w))) ["work_dir"] = Ok (CStr work_dir) ->
  files (fs w) !! os_path_join work_dir "latest.pth" = None ->
  _load_best_model_and_check_if_model_improved torch pretraining_performance compare w
  = (w, Err (PyErr FileNotFoundError (os_path_join work_dir "latest.pth") None)).
Proof.
  intros Hwd Hmissing.
  assert (Hload : torch_load_file torch (os_path_join work_dir "latest.pth") w
                  = (w, Err (PyErr FileNotFoundError (os_path_join work_dir "latest.pth") None))).
  { unfold torch_load_file, bind, get, raise. now rewrite Hmissing. }
  unfold _load_best_model_and_check_if_model_improved.
  rewrite (bind_run get_task _ w w (task w) eq_refl). rewrite Hwd. cbn [res_bind as_str].
  rewrite (bind_run (lift (Ok work_dir)) _ w w work_dir eq_refl).
  now apply bind_fails.
Qed.

(** X17. When [_load_best_model_and_check_if_model_improved] returns, the
    train model is the former train model with the state dict of the best
    checkpoint loaded into it, and nothing else has changed.  An improvement
    is never reported when the performances are not to be compared; when they
    are, it is reported exactly when the best score is greater than the
    performance before training. *)
Theorem _load_best_model_result (pretraining_performance : Q) (compare : bool)
    (w w' : World) (best_score : pyvalue) (improved : bool) :
  _load_best_model_and_check_if_model_improved torch pretraining_performance compare w
  = (w', Ok (best_score, improved)) ->
  (if compare
   then exists q, best_score = VNum q /\ improved = Qltb pretraining_performance q
   else improved = false)
  /\ (exists tm best_checkpoint sd tm',
         train_model (task w) = Some tm
         /\ subscript best_checkpoint "state_dict" = Ok sd
         /\ load_state_dict torch tm sd = Ok tm'
         /\ w' = set_task (set_train_model (Some tm') (task w)) w).
Proof.
  intros H. unfold _load_best_model_and_check_if_model_improved in H.
  apply bind_Ok in H as (w1 & t & Ht & H). unfold get_task in Ht. inversion Ht; subst w1 t.
  apply bind_Ok in H as (w1 & work_dir & Hwd & H). apply lift_Ok in Hwd as [-> _].
  apply bind_Ok in H as (w1 & last & Hlast & H).
  assert (Hfile : forall path w0 w1 v, torch_load_file torch path w0 = (w1, Ok v) -> w1 = w0).
  { intros path w0 w2 v Hl. unfold torch_load_file, bind, get, lift, raise in Hl.
    destruct (files (fs w0) !! path); now inversion Hl. }
  apply Hfile in Hlast. subst w1.
  apply bind_Ok in H as (w1 & msgs & Hmsgs & H). apply lift_Ok in Hmsgs as [-> _].
  apply bind_Ok in H as (w1 & ckpt & Hckpt & H). apply lift_Ok in Hckpt as [-> _].
  apply bind_Ok in H as (w1 & best & Hbest & H). apply Hfile in Hbest. subst w1.
  apply bind_Ok in H as (w1 & score & Hscore & H). apply lift_Ok in Hscore as [-> _].
  apply bind_Ok in H as (w1 & imp & Himp & H). apply lift_Ok in Himp as [-> Himp].
  apply bind_Ok in H as (w1 & tm & Htm & H). apply lift_Ok in Htm as [-> Htm].
  apply bind_Ok in H as (w1 & tm' & Htm' & H). apply lift_Ok in Htm' as [-> Htm'].
  apply bind_Ok in H as (w1 & [] & Hset & H).
  unfold modify_task, modify in Hset. inversion Hset; subst w1; clear Hset.
  unfold ret in H. inversion H; subst; clear H.
  split.
  - destruct compare; [|now inversion Himp].
    unfold score_gt in Himp. destruct best_score; inversion Himp. eauto.
  - apply res_bind_Ok in Htm' as (sd & Hsd & Hload).
    unfold the_model in Htm. destruct (train_model (task w)) as [tm0|] eqn:Etm; inversion Htm.
    subst tm0. exists tm, best, sd, tm'. repeat split; assumption.
Qed.

End LoadBest.

(** ** [compute_performance] *)

Section ComputePerformance.

Variable metrics_helper : metrics_api.

(** X18. [compute_performance] changes the confidence threshold of the task
    environment, and nothing else, only for a result set with purpose
    EVALUATION when the threshold is result based: it becomes the best
    threshold of the F-measure, which [analyse] then uses outside
    evaluations (evaluations go on with 0); without a best threshold a
    [ValueError] is raised and nothing changes.  In every other case the world
    is as before.  The performance returned is that of the F-measure. *)
Theorem compute_performance_threshold (resultset : ResultSetEntity) (w : World)
    (f_measure_metrics : FMeasureMetrics) :
  let params := te_parameters (task_environment (task w)) in
  let result_based := result_based_confidence_threshold (postprocessing params) in
  compute_f_measure metrics_helper resultset result_based false false = Ok f_measure_metrics ->
  let result := compute_performance metrics_helper resultset w in
  match purpose resultset, result_based, best_confidence_threshold f_measure_metrics with
  | EVALUATION, true, Some best =>
      result
      = (set_task (set_task_environment
                     (set_configurable_parameters (set_confidence_threshold best params)
                        (task_environment (task w))) (task w)) w,
         Ok (get_performance f_measure_metrics))
      /\ snd (_get_confidence false (fst result)) = Ok best
      /\ snd (_get_confidence true (fst result)) = Ok 0%Q
  | EVALUATION, true, None =>
      fst result = w /\ exists e, snd result = Err e /\ exn_cls e = ValueError
  | _, _, _ => result = (w, Ok (get_performance f_measure_metrics))
  end.
Proof.
  intros params result_based Hf result. subst result result_based params.
  unfold compute_performance.
  rewrite (bind_run get_task _ w w (task w) eq_refl). rewrite Hf.
  rewrite (bind_run (lift (Ok f_measure_metrics)) _ w w f_measure_metrics eq_refl).
  destruct (purpose resultset); try reflexivity.
  destruct (result_based_confidence_threshold _) eqn:Erb.
  - destruct (best_confidence_threshold f_measure_metrics) as [best|].
    + split; [reflexivity|]. cbn. now rewrite Erb.
    + split; [reflexivity|]. eexists. split; reflexivity.
  - destruct w as [[scratch [model parameters labels] cm stop training n tm im curves] f].
    reflexivity.
Qed.

End ComputePerformance.

(** ** The checkpoint directory of a training round *)

Lemma makedirs_Ok path f f' :
  makedirs path f = Ok f' ->
(path ∉ dirs f) /\ files f !! path = None
  /\ f' = {| dirs := {[ path ]} ∪ dirs f; files := files f |}.
Proof.
  unfold makedirs.
  destruct (bool_decide (path ∈ dirs f)) eqn:Ed; [discriminate|].
  destruct (bool_decide (is_Some (files f !! path))) eqn:Ef; [discriminate|].
  cbn [orb]. intros H. inversion H; subst.
  apply bool_decide_eq_false in Ed, Ef.
  split; [exact Ed|]. split; [|reflexivity]. now apply eq_None_not_Some.
Qed.

Lemma assign_config_inv p v w w' :
  assign_config p v w = (w', Ok tt) ->
  exists c,
    config_setattr (config (config_manager (task w))) p v = Ok c
    /\ w' = set_task (set_config_manager (set_config c (config_manager (task w))) (task w)) w.
Proof.
  unfold assign_config, on_config_manager, zoom.
  destruct (assign p v (config_manager (task w))) as [cm' r] eqn:E.
  intros H. inversion H; subst.
  apply assign_inv in E as (c & Hc & ->). eauto.
Qed.

Section CheckpointDirs.

Variable mmcv : mmcv_api.

Lemma save_config_to_file_inv w w' :
  save_config_to_file mmcv w = (w', Ok tt) ->
  exists work_dir text,
    config_getattr (config (config_manager (task w))) ["work_dir"] = Ok (CStr work_dir)
    /\ snd (config_to_string mmcv (config (config_manager (task w)))) = Ok text
    /\ w' = set_fs (write_file (os_path_join work_dir "config.py") text (fs w)) w.
Proof.
  unfold save_config_to_file. intros H.
  apply bind_Ok in H as (w1 & t & Ht & H). unfold get_task in Ht. inversion Ht; subst w1 t.
  apply bind_Ok in H as (w1 & work_dir & Hwd & H). apply lift_Ok in Hwd as [-> Hwd].
  apply res_bind_Ok in Hwd as (d & Hd & Hs).
  destruct d; inversion Hs; subst.
  apply bind_Ok in H as (w1 & text & Htext & H).
  unfold on_config_manager, zoom, config_to_string, bind, get, lift in Htext.
  inversion Htext as [[Hw1 Hr]]; clear Htext.
  unfold modify in H. inversion H; subst w'; clear H.
  exists work_dir, text. split; [exact Hd|]. split.
  - unfold config_to_string, bind, get, lift. exact Hr.
  - subst w1. destruct w as [[scratch env [c custom mname lnames] stop training n tm im curves] f].
    reflexivity.
Qed.

(** X19. When [_create_training_checkpoint_dirs] returns, it returns the
    directory [checkpoints_round_<n>] of the scratch space, [n] being the
    number of entries of the scratch space whose name starts with
    [checkpoints_round_]; the directory did not exist and has been made;
    [work_dir] of the configuration is that directory and
    [runner.meta.exp_name] is [train_round_<n>]; the file [config.py] in the
    directory holds the text of the configuration so updated; nothing else in
    the task has changed.  A [cancel_training] that follows puts the file
    ['.stop_training'] into that directory. *)
Theorem _create_training_checkpoint_dirs_creates (w w' : World) (dir : string) :
  _create_training_checkpoint_dirs mmcv w = (w', Ok dir) ->
  let n := glob_count (os_path_join (scratch_space (task w)) "checkpoints_round_") (fs w) in
  dir = os_path_join (scratch_space (task w)) ("checkpoints_round_" +:+ pretty n)
  /\ (dir ∉ dirs (fs w))
  /\ dirs (fs w') = {[ dir ]} ∪ dirs (fs w)
  /\ config_getattr (config (config_manager (task w'))) ["work_dir"] = Ok (CStr dir)
  /\ config_getattr (config (config_manager (task w'))) ["runner"; "meta"; "exp_name"]
     = Ok (CStr ("train_round_" +:+ pretty n))
  /\ (exists text,
         snd (config_to_string mmcv (config (config_manager (task w')))) = Ok text
         /\ files (fs w') = <[os_path_join dir "config.py" := text]> (files (fs w)))
  /\ (exists c, task w'
                = set_config_manager (set_config c (config_manager (task w))) (task w))
  /\ snd (cancel_training w') = Ok tt
  /\ is_Some (files (fs (fst (cancel_training w'))) !! os_path_join dir ".stop_training").
Proof.
  intros H n. unfold _create_training_checkpoint_dirs in H.
  apply bind_Ok in H as (w1 & w0 & Hget & H). apply get_Ok in Hget as [-> ->].
  fold n in H.
  apply bind_Ok in H as (w1 & f & Hmk & H). apply lift_Ok in Hmk as [-> Hmk].
  apply makedirs_Ok in Hmk as (Hnew & _ & ->).
  apply bind_Ok in H as (w1 & [] & Hfs & H).
  unfold modify in Hfs. inversion Hfs; subst w1; clear Hfs.
  apply bind_Ok in H as (w2 & [] & Hwd & H).
  apply assign_config_inv in Hwd as (c1 & Hwd & ->).
  apply bind_Ok in H as (w3 & [] & Hexp & H).
  apply assign_config_inv in Hexp as (c2 & Hexp & ->).
  apply bind_Ok in H as (w4 & [] & Hsave & H).
  apply save_config_to_file_inv in Hsave as (work_dir & text & Hwork & Htext & ->).
  unfold ret in H. inversion H; subst w' dir; clear H.
  cbn [task fs set_task set_fs config_manager set_config_manager config set_config
       dirs files write_file] in *.
  assert (Hdir : config_getattr c2 ["work_dir"]
                 = Ok (CStr (os_path_join (scratch_space (task w))
                               ("checkpoints_round_" +:+ pretty n)))).
  { past_write Hexp. eapply config_getattr_set_eq; [discriminate | exact Hwd]. }
  rewrite Hdir in Hwork. inversion Hwork; subst work_dir.
  repeat split.
  - exact Hnew.
  - exact Hdir.
  - eapply config_getattr_set_eq; [discriminate | exact Hexp].
  - exists text. split; [exact Htext | reflexivity].
  - exists c2. reflexivity.
  - rewrite cancel_training_run.
    cbn [task set_task set_fs config_manager set_config_manager config set_config].
    rewrite Hdir. reflexivity.
  - rewrite cancel_training_run.
    cbn [task set_task set_fs config_manager set_config_manager config set_config].
    rewrite Hdir. cbn [res_bind as_str fst fs set_fs].
    match goal with
    | |- is_Some (files (touch ?p ?f) !! _) =>
        destruct (touch_spec p f) as (_ & Hsentinel & _); rewrite Hsentinel; eauto
    end.
Qed.

(** X20. If the directory [checkpoints_round_<n>] exists already ([n] being
    the number of entries that start with [checkpoints_round_], so the rounds
    present are not numbered 0 to n-1), [_create_training_checkpoint_dirs]
    raises [FileExistsError] and changes nothing. *)
Theorem _create_training_checkpoint_dirs_exists (w : World) :
  let n := glob_count (os_path_join (scratch_space (task w)) "checkpoints_round_") (fs w) in
  let dir := os_path_join (scratch_space (task w)) ("checkpoints_round_" +:+ pretty n) in
  dir ∈ dirs (fs w) ->
  _create_training_checkpoint_dirs mmcv w = (w, Err (PyErr FileExistsError dir None)).
Proof.
  intros n dir Hexists. unfold _create_training_checkpoint_dirs.
  rewrite (bind_run get _ w w w eq_refl). fold n. fold dir.
  apply bind_fails. unfold lift, makedirs.
  now rewrite (bool_decide_eq_true_2 _ Hexists).
Qed.

End CheckpointDirs.

(** ** [train]: the cancellation flag and [is_training] *)

(** Unfolds the methods of the task that [train] runs and closes a frame
    goal statement by statement. *)
Ltac frame_task :=
  unfold train_setup, _create_training_checkpoint_dirs, save_config_to_file, assign_config,
    _is_train_from_scratch, _create_model, cancel_training, _do_pre_evaluation,
    _load_best_model_and_check_if_model_improved, torch_load_file,
    _generate_training_metrics_group;
  frame.

Section TrainFlags.

Variables (mmcv : mmcv_api) (config_mapper : ConfigMappings) (torch : torch_api)
          (mmdet : mmdet_api).

Lemma train_setup_keeps_is_training c d p :
  keeps (fun w => is_training (task w)) (train_setup mmcv mmdet c d p).
Proof. frame_task. Qed.

(** A cancellation requested before [train] is still pending when [train]
    first looks at it. *)
Lemma train_setup_should_stop c d p w w1 r :
  should_stop (task w) = true ->
  train_setup mmcv mmdet c d p w = (w1, Ok r) ->
  should_stop (task w1) = true.
Proof.
  intros Hstop H. unfold train_setup in H.
  apply bind_Ok in H as (wa & [] & Ha & H).
  apply (keeps_run (fun w => should_stop (task w))) in Ha;
    [|apply update_dataset_subsets_keeps; intros; reflexivity].
  apply bind_Ok in H as (wa' & t & Ht & H). unfold get_task in Ht. inversion Ht; subst wa' t.
  apply bind_Ok in H as (wa' & mm' & Hmm & H). apply lift_Ok in Hmm as [-> _].
  apply bind_Ok in H as (wb & dir & Hb & H).
  apply (keeps_run (fun w => should_stop (task w))) in Hb;
    [|apply _create_training_checkpoint_dirs_keeps; intros; reflexivity].
  apply bind_Ok in H as (wc & [old' scratch'] & Hc & H).
  apply (keeps_run (fun w => should_stop (task w))) in Hc; [|frame_task].
  apply bind_Ok in H as (wd & [] & Hd & H).
  assert (Hstopd : should_stop (task wd) = true).
  { unfold concurrently in Hd. destruct (cancel_before_training c).
    - inversion Hd. rewrite cancel_training_run.
      destruct (res_bind _ _); reflexivity.
    - inversion Hd; subst. congruence. }
  apply bind_Ok in H as (we & [pre' cmp'] & He & H).
  apply (keeps_run (fun w => should_stop (task w))) in He; [|frame_task].
  unfold ret in H. inversion H; subst. congruence.
Qed.

(** X21. [should_stop] is reset only where [train] reads it.  A cancellation
    requested while no training runs therefore stays pending, and the next
    [train] stops at its first check: it returns the model of the task
    environment without training, resets [should_stop], and leaves
    [is_training] and the train model as they were when it was called. *)
Theorem train_after_stale_cancel (cancellation : Cancellation) (dataset : Dataset)
    (train_parameters : option TrainParameters) (w w1 : World)
    mm_train_dataset old_train_model train_from_scratch pretraining_performance
    compare_performance :
  should_stop (task w) = true ->
  train_setup mmcv mmdet cancellation dataset train_parameters w
  = (w1, Ok (mm_train_dataset, old_train_model, train_from_scratch,
             pretraining_performance, compare_performance)) ->
  let result := train mmcv config_mapper torch mmdet cancellation dataset train_parameters w in
  snd result = Ok (te_model (task_environment (task w)))
  /\ should_stop (task (fst result)) = false
  /\ is_training (task (fst result)) = is_training (task w)
  /\ train_model (task (fst result)) = train_model (task w)
  /\ fs (fst result) = fs w1.
Proof.
  intros Hstale Hsetup result.
  pose proof (train_setup_should_stop _ _ _ _ _ _ Hstale Hsetup) as Hstop.
  pose proof (keeps_run _ _ _ _ _ (train_setup_keeps_is_training _ _ _) Hsetup) as Htraining.
  destruct (train_setup_frame _ _ _ _ _ _ _ _ _ _ _ _ Hsetup) as (Henv & Hold & Hsame).
  unfold env_of in Henv. cbn beta in Htraining.
  assert (Hrun : result
                 = (set_task
                      ((if train_from_scratch then set_train_model old_train_model
                        else fun t => t) (set_should_stop false (task w1))) w1,
                    Ok (te_model (task_environment (task w1))))).
  { subst result. unfold train. unfold bind at 1. rewrite Hsetup.
    unfold bind at 1. unfold get_task at 1. rewrite Hstop.
    unfold bind, modify_task, modify, get_task, ret.
    destruct train_from_scratch; reflexivity. }
  rewrite Hrun. cbn [fst snd task set_task fs]. rewrite Henv.
  split; [reflexivity|].
  destruct train_from_scratch;
    cbn [should_stop is_training train_model set_train_model set_should_stop];
    repeat split; auto.
Qed.

Lemma _do_model_training_is_training c mm w1 w2 duration :
  _do_model_training mmdet c mm w1 = (w2, Ok duration) ->
  is_training (task w2) = true.
Proof.
  intros H. unfold _do_model_training in H.
  apply bind_Ok in H as (wa & [] & Ha & H).
  apply bind_Ok in H as (wb & t & Ht & H).
  apply bind_Ok in H as (wc & c1 & Hc1 & H).
  apply bind_Ok in H as (wd & c2 & Hc2 & H).
  apply bind_Ok in H as (we & c3 & Hc3 & H).
  apply bind_Ok in H as (wf & tm & Htm & H).
  apply bind_Ok in H as (wg & [] & Hg & H).
  apply bind_Ok in H as (wh & [] & Hh & H).
  assert (Hset : is_training (task wh) = true).
  { unfold modify_task, modify in Hh. now inversion Hh. }
  apply (keeps_run (fun w => is_training (task w))) in H; [congruence|].
  unfold cancel_training. frame.
Qed.

(** X22. [_do_model_training] sets [is_training], and a [train] that is
    cancelled while the model trains returns without resetting it: after such
    a call the task still has [is_training = True]. *)
Theorem train_cancelled_late_is_training (cancellation : Cancellation) (dataset : Dataset)
    (train_parameters : option TrainParameters) (w w1 w2 : World)
    mm_train_dataset old_train_model train_from_scratch pretraining_performance
    compare_performance training_duration :
  train_setup mmcv mmdet cancellation dataset train_parameters w
  = (w1, Ok (mm_train_dataset, old_train_model, train_from_scratch,
             pretraining_performance, compare_performance)) ->
  should_stop (task w1) = false ->
  _do_model_training mmdet cancellation mm_train_dataset w1 = (w2, Ok training_duration) ->
  should_stop (task w2) = true ->
  is_training (task w2) = true
  /\ is_training
       (task (fst (train mmcv config_mapper torch mmdet cancellation dataset
                     train_parameters w))) = true.
Proof.
  intros Hsetup Hstop Htrain Hstop2.
  pose proof (_do_model_training_is_training _ _ _ _ _ Htrain) as Htraining.
  split; [exact Htraining|].
  assert (Hrun : train mmcv config_mapper torch mmdet cancellation dataset train_parameters w
                 = (set_task (set_train_model old_train_model
                                (set_should_stop false (task w2))) w2,
                    Ok (te_model (task_environment (task w2))))).
  { unfold train. unfold bind at 1. rewrite Hsetup.
    unfold bind at 1. unfold get_task at 1. rewrite Hstop.
    unfold bind at 1. rewrite Htrain.
    unfold bind at 1. unfold get_task at 1. rewrite Hstop2.
    reflexivity. }
  rewrite Hrun. exact Htraining.
Qed.

End TrainFlags.

(** ** [train]: after the training run *)

Section TrainFinish.

Variables (mmcv : mmcv_api) (config_mapper : ConfigMappings) (torch : torch_api)
          (mmdet : mmdet_api).

Lemma _load_best_model_keeps_env pre cmp :
  keeps env_of (_load_best_model_and_check_if_model_improved torch pre cmp).
Proof. frame_task. Qed.

Lemma _load_best_model_keeps_inference_model pre cmp :
  keeps (fun w => inference_model (task w))
    (_load_best_model_and_check_if_model_improved torch pre cmp).
Proof. frame_task. Qed.

Lemma _load_best_model_keeps_fs pre cmp :
  keeps fs (_load_best_model_and_check_if_model_improved torch pre cmp).
Proof. frame_task. Qed.

Lemma _generate_training_metrics_group_pure :
  keeps (fun w => w) (_generate_training_metrics_group config_mapper).
Proof. frame_task. Qed.

(** X23. When the best checkpoint is no improvement and the task environment
    has a model, [train] persists nothing: it returns the model of the task
    environment, which like the inference model and the file system is as
    before the checkpoints were read; [is_training] is reset; the train model
    is the saved old one when training was from scratch, and otherwise the
    model with the weights of the best checkpoint. *)
Theorem train_finish_without_improvement (dataset : Dataset)
    (old_train_model : option TorchModule) (train_from_scratch : bool)
    (pretraining_performance : Q) (compare_performance : bool) (training_duration : Q)
    (w w2 : World) (best_score : pyvalue) :
  _load_best_model_and_check_if_model_improved torch pretraining_performance
    compare_performance w = (w2, Ok (best_score, false)) ->
  is_NullModel (te_model (task_environment (task w))) = false ->
  let result := train_finish mmcv config_mapper torch dataset old_train_model
                  train_from_scratch pretraining_performance compare_performance
                  training_duration w in
  snd result = Ok (te_model (task_environment (task w)))
  /\ task_environment (task (fst result)) = task_environment (task w)
  /\ inference_model (task (fst result)) = inference_model (task w)
  /\ fs (fst result) = fs w
  /\ is_training (task (fst result)) = false
  /\ train_model (task (fst result))
     = if train_from_scratch then old_train_model else train_model (task w2).
Proof.
  intros Hbest Hmodel result.
  pose proof (keeps_run _ _ _ _ _ (_load_best_model_keeps_env _ _) Hbest) as Henv.
  pose proof (keeps_run _ _ _ _ _ (_load_best_model_keeps_inference_model _ _) Hbest) as Hinf.
  pose proof (keeps_run _ _ _ _ _ (_load_best_model_keeps_fs _ _) Hbest) as Hfs.
  unfold env_of in Henv. cbn beta in Hinf.
  assert (Hrun : result
                 = (set_task
                      (set_is_training false
                         ((if train_from_scratch then set_train_model old_train_model
                           else fun t => t) (task w2))) w2,
                    Ok (te_model (task_environment (task w2))))).
  { subst result. unfold train_finish. rewrite (bind_run _ _ _ _ _ Hbest).
    rewrite (bind_run get_task _ w2 w2 (task w2) eq_refl).
    rewrite Henv, Hmodel. cbn [orb].
    unfold bind, modify_task, modify, get_task, ret.
    destruct train_from_scratch; cbn; now rewrite Henv. }
  rewrite Hrun. cbn [fst snd task set_task fs]. rewrite Henv, Hfs, <- Hinf.
  destruct train_from_scratch; repeat split; exact Henv.
Qed.

Lemma _persist_new_model_inv dataset performance training_duration w w' :
  _persist_new_model mmcv torch dataset performance training_duration w = (w', Ok tt) ->
  exists tm text,
    train_model (task w) = Some tm
    /\ snd (config_to_string mmcv (config (config_manager (task w)))) = Ok text
    /\ let tm' := set_mcfg (config (config_manager (task w))) tm in
       let blob := torch_save torch (VDict [("state_dict", VState (state_dict tm));
                                            ("config", VStr text)]) in
       w' = set_task
              (set_inference_model (Some (eval tm'))
                 (set_task_environment
                    (set_te_model (SavedModel blob performance dataset training_duration)
                       (task_environment (task w)))
                    (set_train_model (Some tm') (task w)))) w.
Proof.
  intros H. unfold _persist_new_model in H.
  apply bind_Ok in H as (w1 & t & Ht & H). unfold get_task in Ht. inversion Ht; subst w1 t; clear Ht.
  apply bind_Ok in H as (w1 & tm & Htm & H). apply lift_Ok in Htm as [-> Htm].
  unfold the_model in Htm. destruct (train_model (task w)) as [tm0|] eqn:Etm; inversion Htm.
  subst tm0.
  apply bind_Ok in H as (w1 & [] & Hset & H).
  unfold modify_task, modify in Hset. inversion Hset; subst w1; clear Hset.
  apply bind_Ok in H as (w2 & blob & Hbytes & H).
  unfold _get_model_bytes, config_copy, deepcopy in Hbytes.
  apply bind_Ok in Hbytes as (w3 & t & Ht & Hbytes).
  unfold get_task in Ht. inversion Ht; subst w3 t; clear Ht.
  cbn [task set_task train_model set_train_model the_model] in Hbytes.
  apply bind_Ok in Hbytes as (w3 & tm1 & Htm1 & Hbytes). apply lift_Ok in Htm1 as [-> Htm1].
  inversion Htm1; subst tm1; clear Htm1.
  apply bind_Ok in Hbytes as (w3 & c & Hc & Hbytes). apply lift_Ok in Hc as [-> Hc].
  cbn [the_cfg mcfg set_mcfg] in Hc. inversion Hc; subst c; clear Hc.
  destruct (config_to_string mmcv (config (config_manager (task w)))) as [c' r] eqn:Eprint.
  assert (Hc' : c' = config (config_manager (task w))).
  { unfold config_to_string, bind, get, lift in Eprint. now inversion Eprint. }
  subst c'.
  apply bind_Ok in Hbytes as (w3 & [] & Hset & Hbytes).
  unfold modify_task, modify in Hset. inversion Hset; subst w3; clear Hset.
  apply bind_Ok in Hbytes as (w3 & text & Htext & Hbytes). apply lift_Ok in Htext as [-> Htext].
  subst r. unfold ret in Hbytes. inversion Hbytes; subst w2 blob; clear Hbytes.
  apply bind_Ok in H as (w2 & [] & Hset & H).
  unfold modify_task, modify in Hset. inversion Hset; subst w2; clear Hset.
  apply bind_Ok in H as (w2 & [] & Hset & H).
  unfold modify_task, modify in Hset. inversion Hset; subst w2; clear Hset.
  unfold modify_task, modify in H. inversion H; subst w'; clear H.
  exists tm, text. split; [reflexivity|]. split; [reflexivity|]. reflexivity.
Qed.

(** X24. When the best checkpoint is an improvement, or the task environment
    has no model yet, and the new model is persisted, [train] returns a saved
    (not a null) model: its data are the bytes of the state dict of the train
    model and of the text of the manager's configuration, its score is the
    best score, and it carries the dataset and the training duration; it is
    the model of the task environment afterwards.  The inference model is the
    train model in eval mode, and [is_training] is reset. *)
Theorem train_finish_persists (dataset : Dataset) (old_train_model : option TorchModule)
    (train_from_scratch : bool) (pretraining_performance : Q) (compare_performance : bool)
    (training_duration : Q) (w w2 w3 : World) (best_score : Q) (improved : bool)
    (dashboard : list MetricsGroup) :
  _load_best_model_and_check_if_model_improved torch pretraining_performance
    compare_performance w = (w2, Ok (VNum best_score, improved)) ->
  improved || is_NullModel (te_model (task_environment (task w))) = true ->
  snd (_generate_training_metrics_group config_mapper w2) = Ok dashboard ->
  _persist_new_model mmcv torch dataset
    {| score := best_score; dashboard_metrics := dashboard |} training_duration w2
  = (w3, Ok tt) ->
  let result := train_finish mmcv config_mapper torch dataset old_train_model
                  train_from_scratch pretraining_performance compare_performance
                  training_duration w in
  exists tm text,
    train_model (task w2) = Some tm
    /\ snd (config_to_string mmcv (config (config_manager (task w2)))) = Ok text
    /\ let model :=
         SavedModel
           (torch_save torch (VDict [("state_dict", VState (state_dict tm));
                                     ("config", VStr text)]))
           {| score := best_score; dashboard_metrics := dashboard |}
           dataset training_duration in
       snd result = Ok model
       /\ te_model (task_environment (task (fst result))) = model
       /\ train_model (task (fst result))
          = Some (set_mcfg (config (config_manager (task w2))) tm)
       /\ inference_model (task (fst result))
          = option_map eval (train_model (task (fst result)))
       /\ is_training (task (fst result)) = false.
Proof.
  intros Hbest Hpersisted Hmetrics Hpersist result.
  pose proof (keeps_run _ _ _ _ _ (_load_best_model_keeps_env _ _) Hbest) as Henv.
  unfold env_of in Henv.
  assert (Hdash : _generate_training_metrics_group config_mapper w2 = (w2, Ok dashboard)).
  { pose proof (_generate_training_metrics_group_pure w2) as Hpure. cbn beta in Hpure.
    destruct (_generate_training_metrics_group config_mapper w2) as [w2' r].
    cbn [fst snd] in *. now subst. }
  assert (Hrun : result
                 = (set_task (set_is_training false (task w3)) w3,
                    Ok (te_model (task_environment (task w3))))).
  { subst result. unfold train_finish. rewrite (bind_run _ _ _ _ _ Hbest).
    rewrite (bind_run get_task _ w2 w2 (task w2) eq_refl).
    rewrite Henv, Hpersisted. cbv beta iota.
    match goal with
    | |- bind ?inner _ _ = _ => assert (Hinner : inner w2 = (w3, Ok tt))
    end.
    { rewrite (bind_run (lift (Ok best_score)) _ w2 w2 best_score eq_refl).
      rewrite (bind_run _ _ _ _ _ Hdash). exact Hpersist. }
    rewrite (bind_run _ _ _ _ _ Hinner). reflexivity. }
  apply _persist_new_model_inv in Hpersist as (tm & text & Htm & Htext & Hw3).
  cbv zeta in Hw3. exists tm, text. split; [exact Htm|]. split; [exact Htext|].
  cbv zeta. rewrite Hrun, Hw3. cbn. repeat split.
Qed.

End TrainFinish.

(** ** [load_model]: no saved model, and a model just persisted *)

Section Reload.

Variables (mmcv : mmcv_api) (torch : torch_api) (mmdet : mmdet_api).

Lemma _create_model_keeps_config_manager c b :
  keeps (fun w => config_manager (task w)) (_create_model mmdet c b).
Proof. frame_task. Qed.

(** X25. For a task environment without a saved model, a configuration that
    can be printed and a model that is built: [load_model] makes the built
    model (with pretrained weights, as the configuration says) the train
    model, and its copy in eval mode the inference model; both carry the
    manager's configuration; the task environment is the given one. *)
Theorem load_model_without_saved_model (w w2 : World) (env : TaskEnvironment)
    (text : string) (torch_model : TorchModule) :
  te_model env = NullModel ->
  snd (config_to_string mmcv (config (config_manager (task w)))) = Ok text ->
  _create_model mmdet (config (config_manager (task w))) false
    (set_task (set_task_environment env (task w)) w) = (w2, Ok torch_model) ->
  let result := load_model mmcv torch mmdet env w in
  snd result = Ok tt
  /\ train_model (task (fst result))
     = Some (set_mcfg (config (config_manager (task w))) torch_model)
  /\ inference_model (task (fst result))
     = Some (eval (set_mcfg (config (config_manager (task w))) torch_model))
  /\ task_environment (task (fst result)) = env.
Proof.
  intros Hmodel Htext Hcreate result.
  pose proof (keeps_run _ _ _ _ _ (_create_model_keeps_config_manager _ _) Hcreate) as Hcm.
  pose proof (keeps_run _ _ _ _ _ (_create_model_keeps_env mmdet _ _) Hcreate) as Henv.
  unfold env_of in Henv. cbn [task set_task config_manager set_task_environment
                              task_environment] in Hcm, Henv.
  subst result. unfold load_model. rewrite Hmodel.
  unfold bind, modify_task, modify, lift, get_task, ret, config_copy, deepcopy.
  cbn [task set_task config_manager set_task_environment].
  rewrite Htext, Hcreate. cbn. rewrite Hcm, Henv. repeat split.
Qed.

(** X26. A model that [_persist_new_model] has stored in the task environment
    can be loaded again: given that [torch.load] gives back the dict that
    [torch.save] wrote, that the printed configuration parses and has a
    [model] section from which an empty model is built, and that the state
    dict loads into it, [load_model] on the task environment returns, and the
    inference model and the train model are the model so loaded, carrying the
    state dict of the train model that was persisted. *)
Theorem persisted_model_reloads (dataset : Dataset) (performance : Performance)
    (training_duration : Q) (w w' : World) (tm : TorchModule) (text : string)
    (model_config : config_dict) (m : list (string * cfg)) (fresh loaded : TorchModule) :
  _persist_new_model mmcv torch dataset performance training_duration w = (w', Ok tt) ->
  train_model (task w) = Some tm ->
  snd (config_to_string mmcv (config (config_manager (task w)))) = Ok text ->
  (let artifact := VDict [("state_dict", VState (state_dict tm)); ("config", VStr text)] in
   torch_load torch (torch_save torch artifact) = Ok artifact) ->
  config_from_string mmcv text = Ok model_config ->
  dict_get "model" model_config = Some (CDict m) ->
  build_detector mmdet (CDict (dict_set "pretrained" CNone m)) = Ok fresh ->
  load_state_dict torch fresh (VState (state_dict tm)) = Ok loaded ->
  let result := load_model mmcv torch mmdet (task_environment (task w')) w' in
  snd result = Ok tt
  /\ inference_model (task (fst result)) = Some (eval (set_mcfg model_config loaded))
  /\ train_model (task (fst result))
     = Some (set_mcfg (config (config_manager (task w))) loaded)
  /\ task_environment (task (fst result)) = task_environment (task w').
Proof.
  intros Hpersist Htm Htext Hload Hparse Hmodel Hbuild Hweights result.
  apply _persist_new_model_inv in Hpersist as (tm0 & text0 & Htm0 & Htext0 & Hw').
  rewrite Htm in Htm0. inversion Htm0; subst tm0; clear Htm0.
  rewrite Htext in Htext0. inversion Htext0; subst text0; clear Htext0.
  cbv zeta in Hw', Hload. subst result. rewrite Hw'.
  cbn [task set_task task_environment set_task_environment set_inference_model
       set_train_model].
  unfold load_model.
  cbn [te_model set_te_model].
  unfold bind, modify_task, modify, lift, try_reraise, get_task, ret, _get_model_from_bytes.
  rewrite Hload. cbn [subscript dict_get String.eqb Ascii.eqb Bool.eqb res_bind as_text].
  rewrite Hparse.
  unfold _create_model, config_getattr, bind, lift, modify_task, modify, ret, deepcopy.
  cbn [getattr_path getattr]. rewrite Hmodel. cbn [res_bind setattr]. rewrite Hbuild.
  unfold load_weights. cbn [subscript dict_get String.eqb Ascii.eqb Bool.eqb res_bind].
  rewrite Hweights. cbn. repeat split.
Qed.

End Reload.

(** ** Merging a dict into a value that is no dict *)

Lemma merge_entry_error rec k v b e :
  (forall vd bkd e', v = CDict vd -> rec v bkd = Err e' -> exn_cls e' = TypeError) ->
  merge_entry rec k v b = Err e -> exn_cls e = TypeError.
Proof.
  intros Hrec. unfold merge_entry.
  destruct v as [| | | | | | |vd]; try discriminate.
  destruct (dict_get k b) as [bk|]; [|discriminate].
  destruct (truthy _); [discriminate|].
  destruct bk as [| | | | | | |bkd]; try (intros H; inversion H; reflexivity).
  destruct (rec (CDict vd) bkd) as [m|e'] eqn:E; cbn [res_bind]; [discriminate|].
  intros H; inversion H; subst. eapply Hrec; eauto.
Qed.

(** Whatever the merge of a dict raises is a [TypeError]. *)
Lemma merge_from_error : forall a popped b e,
  is_dict a = true -> merge_from popped a b = Err e -> exn_cls e = TypeError.
Proof.
  induction a as [| b0 | z | q | s | o | l IHl | d IHd] using cfg_nested_ind;
    intros popped b e Hd H; try discriminate.
  cbn [merge_from] in H. clear Hd. revert b H.
  induction d as [|[k0 v0] d IH]; intros b H; [discriminate|].
  inversion IHd as [|? ? Hv0 IHd']; subst. cbn [snd] in Hv0.
  cbn [merge_items] in H.
  destruct (popped && String.eqb k0 DELETE_KEY); [now apply (IH IHd' b)|].
  destruct (merge_entry (merge_from true) k0 v0 b) as [b'|e'] eqn:E; cbn [res_bind] in H.
  - now apply (IH IHd' b').
  - inversion H; subst. eapply merge_entry_error; [|exact E].
    intros vd bkd e' -> Hrec. exact (Hv0 true bkd e' eq_refl Hrec).
Qed.

Lemma merge_items_type_error items : forall b k vd bk,
  dict_get k items = Some (CDict vd) ->
  truthy (default (CBool false) (dict_get DELETE_KEY vd)) = false ->
  dict_get k b = Some bk -> is_dict bk = false ->
  exists e, merge_items (merge_from true) false items b = Err e /\ exn_cls e = TypeError.
Proof.
  induction items as [|[k0 v0] items IH]; intros b k vd bk Hk Hkeep Hb Hbk; [discriminate|].
  cbn [merge_items andb]. cbn [dict_get] in Hk.
  destruct (String.eqb k k0) eqn:E.
  - apply String.eqb_eq in E. subst k0. inversion Hk; subst v0.
    unfold merge_entry. rewrite Hb, Hkeep.
    destruct bk; try discriminate; cbn [res_bind]; eexists; split; reflexivity.
  - apply String.eqb_neq in E.
    destruct (merge_entry (merge_from true) k0 v0 b) as [b'|e'] eqn:Eentry; cbn [res_bind].
    + eapply IH; eauto. rewrite <- Hb. eapply merge_entry_other; eauto.
    + exists e'. split; [reflexivity|]. eapply merge_entry_error; [|exact Eentry].
      intros vd0 bkd e0 -> Hrec.
      exact (merge_from_error (CDict vd0) true bkd e0 eq_refl Hrec).
Qed.

Section MergeTypeError.

Variable mmcv : mmcv_api.

(** X27. [_replace_config_section_from_file] raises a [TypeError] and leaves
    the configuration as it was when the file holds, at a top-level key, a
    dict (not marked ['_delete_']) where the configuration holds a value that
    is no dict. *)
Theorem _replace_config_section_from_file_type_error (file : string) (cm : ConfigManager)
    (config_section : config_dict) (k : string) (vd : list (string * cfg)) (bk : cfg) :
  fromfile mmcv file = Ok config_section ->
  dict_get k config_section = Some (CDict vd) ->
  truthy (default (CBool false) (dict_get DELETE_KEY vd)) = false ->
  dict_get k (config cm) = Some bk ->
  is_dict bk = false ->
  exists e,
    _replace_config_section_from_file mmcv file cm = (cm, Err e) /\ exn_cls e = TypeError.
Proof.
  intros Hfile Hk Hkeep Hb Hbk.
  destruct (merge_items_type_error _ _ _ _ _ Hk Hkeep Hb Hbk) as (e & Hmerge & He).
  exists e. split; [|exact He].
  unfold _replace_config_section_from_file.
  rewrite (bind_run get _ cm cm cm eq_refl). rewrite Hfile.
  rewrite (bind_run (lift (Ok config_section)) _ cm cm config_section eq_refl).
  apply bind_fails. unfold lift, _merge_a_into_b, config_copy, deepcopy.
  cbn [merge_from]. now rewrite Hmerge.
Qed.

End MergeTypeError.

(** ** [optimize_loaded_model]: an export without the expected files *)

(** X28. When the export returns but has written no file whose name ends in
    ['.bin'], [optimize_loaded_model] raises
    [RuntimeError("Optimization was unsuccessful.")] chained from the
    [IndexError] of the empty selection, and changes nothing. *)
Theorem optimize_loaded_model_without_bin_file (mmdet : mmdet_api) (sc_sdk : sc_sdk_api)
    (os : os_api) (w : World) (listing : list string) :
  export_model mmdet (inference_model (task w)) (temporary_directory os (fs w)) = Ok listing ->
  Forall (fun f => endswith f ".bin" = false) listing ->
  optimize_loaded_model mmdet sc_sdk os w
  = (w, Err (PyErr RuntimeError "Optimization was unsuccessful."
               (Some (PyErr IndexError "list index out of range" None)))).
Proof.
  intros Hexport Hnone.
  assert (Hfilter : List.filter (fun f => endswith f ".bin") listing = []).
  { clear Hexport. induction Hnone as [|f l Hf Hl IH]; [reflexivity|].
    simpl. rewrite Hf. exact IH. }
  unfold optimize_loaded_model, _generate_openvino_model, bind, get, try_reraise, lift,
    export_and_collect.
  rewrite Hexport. cbn [res_bind]. unfold first_with_suffix. rewrite Hfilter. reflexivity.
Qed.

(** ** [SPNHead.get_bboxes] *)

Lemma proposal_row_in_mask mask rect row :
  proposal_row mask rect = Some row -> proposal_in_mask mask row.
Proof.
  destruct rect as [[[x y] w] h]. unfold proposal_row. cbv zeta.
  destruct (2 <? Z.min (x + w) (mask_width mask - 1) - Z.max 0 x)%Z eqn:Hx; [|discriminate].
  destruct (2 <? Z.min (y + h) (mask_height mask - 1) - Z.max 0 y)%Z eqn:Hy; [|discriminate].
  cbn [andb]. intros [= <-].
  apply Z.ltb_lt in Hx, Hy.
  exists (Z.max 0 x), (Z.max 0 y), (Z.min (x + w) (mask_width mask - 1)),
    (Z.min (y + h) (mask_height mask - 1)).
  repeat split; lia.
Qed.

Lemma proposal_rows_in_mask mask rects :
  Forall (proposal_in_mask mask) (proposal_rows mask rects)
  /\ (List.length (proposal_rows mask rects) <= List.length rects)%nat.
Proof.
  induction rects as [|rect rects [IH IHlen]]; [split; [constructor | reflexivity]|].
  cbn [proposal_rows].
  destruct (proposal_row mask rect) as [row|] eqn:Hrow.
  - split; [constructor; [exact (proposal_row_in_mask _ _ _ Hrow) | exact IH]|].
    cbn [List.length]. lia.
  - split; [exact IH|]. cbn [List.length]. lia.
Qed.

(** X29.  [SPNHead.get_bboxes] returns one tensor per level and image, in
    the order of the levels and, within a level, of the images.  The tensor of
    a mask has at most one row per contour, and each row is a box that lies
    inside the mask, with both sides longer than two pixels and score 1,
    whatever rectangles bound the contours. *)
Theorem get_bboxes_proposals_in_mask (cv2 : cv2_api) (mask_preds : list (list MaskPrediction)) :
  Forall2 (fun mask boxes =>
             Forall (proposal_in_mask mask) boxes
             /\ (List.length boxes <= List.length (bounding_rects cv2 mask))%nat)
    (List.concat mask_preds) (get_bboxes cv2 mask_preds).
Proof.
  unfold get_bboxes.
  induction mask_preds as [|level_pred mask_preds IH]; [constructor|].
  cbn [List.concat List.flat_map].
  apply Forall2_app; [|exact IH].
  clear IH. induction level_pred as [|mask level_pred IH]; [constructor|].
  cbn [List.map]. constructor; [apply proposal_rows_in_mask | exact IH].
Qed.

(** ** Instances of the further properties *)

Lemma heads_num_classes n heads heads' :
  Forall2 (fun head head' => setattr head "num_classes" n = Ok head') heads heads' ->
  Forall (fun head' => getattr head' "num_classes" = Ok n) heads'.
Proof.
  induction 1 as [|head head' ? ? Hset _ IH]; constructor; [|exact IH].
  eapply getattr_setattr_eq; exact Hset.
Qed.

Lemma MMDatasetAdapter_getitem_round_trip_witness :
  exists it r,
    MMDatasetAdapter_getitem ["rectangle"; "ellipse"] sample_labels sample_coco_item = Ok it
    /\ get_annotation_mmdet_format it ["rectangle"; "ellipse"] = Ok r
    /\ ann_labels r = [1; 0].
Proof.
  assert (Hdistinct : NoDup ["rectangle"; "ellipse"])
    by (apply (bool_decide_unpack _); vm_compute; exact I).
  assert (Hproject : Forall (fun n => exists l, In l sample_labels /\ label_name l = n)
                       ["rectangle"; "ellipse"]).
  { repeat constructor.
    - exists {| label_name := "rectangle" |}. split; [now left | reflexivity].
    - exists {| label_name := "ellipse" |}. split; [right; now left | reflexivity]. }
  assert (Hids : Forall (fun i => (0 <= i < Z.of_nat (List.length ["rectangle"; "ellipse"]))%Z)
                   (item_gt_labels sample_coco_item))
    by (repeat constructor; simpl; lia).
  destruct (MMDatasetAdapter_getitem_round_trip ["rectangle"; "ellipse"] sample_labels 640 480
              eq_refl eq_refl Hdistinct Hproject sample_coco_item eq_refl eq_refl Hids)
    as (it & r & Hit & Hr & _ & Hlabels).
  exists it, r. split; [exact Hit|]. split; [exact Hr | exact Hlabels].
Defined.

Lemma set_data_classes_sets_witness :
  snd (set_data_classes (config_manager sample_task)) = Ok tt
  /\ config_getattr (config (fst (set_data_classes (config_manager sample_task))))
       ["data"; "val"; "classes"]
     = Ok (CList [CStr "rectangle"; CStr "ellipse"])
  /\ config_getattr (config (fst (set_data_classes (config_manager sample_task))))
       ["data"; "samples_per_gpu"]
     = Ok (CInt 2).
Proof.
  assert (E : set_data_classes (config_manager sample_task)
              = (fst (set_data_classes (config_manager sample_task)), Ok tt))
    by (vm_compute; reflexivity).
  destruct (set_data_classes_sets _ _ E) as (Hclasses & Hframe & _).
  split; [now rewrite E|]. split.
  - inversion Hclasses as [|? ? _ Hrest]; subst. inversion Hrest as [|? ? Hval _]; subst.
    exact Hval.
  - rewrite Hframe; reflexivity.
Defined.

Lemma _update_model_classification_heads_sets_witness :
  snd (_update_model_classification_heads sample_cascade_manager) = Ok tt
  /\ (exists heads',
         config_getattr (config (fst (_update_model_classification_heads
                                        sample_cascade_manager)))
           ["model"; "roi_head"; "bbox_head"] = Ok (CList heads')
         /\ Forall (fun head => getattr head "num_classes" = Ok (CInt 2)) heads')
  /\ config_getattr (config (fst (_update_model_classification_heads sample_cascade_manager)))
       ["model"; "bbox_head"; "num_classes"]
     = Ok (CInt 80).
Proof.
  assert (E : _update_model_classification_heads sample_cascade_manager
              = (fst (_update_model_classification_heads sample_cascade_manager), Ok tt))
    by (vm_compute; reflexivity).
  destruct (_update_model_classification_heads_sets _ _ E) as (m & Hm & Hheads & _).
  vm_compute in Hm. inversion Hm; subst m; clear Hm.
  cbn [dict_has dict_get String.eqb Ascii.eqb Bool.eqb] in Hheads.
  change (config_getattr (config sample_cascade_manager) ["model"; "roi_head"; "bbox_head"])
    with (Ok (A := cfg)
            (CList [CDict [("type", CStr "Shared2FCBBoxHead"); ("num_classes", CInt 80)];
                    CDict [("type", CStr "Shared2FCBBoxHead"); ("num_classes", CInt 80)]]))
    in Hheads.
  destruct Hheads as ((heads' & Hget & Hall) & Hframe).
  split; [now rewrite E|]. split.
  - exists heads'. split; [exact Hget|]. eapply heads_num_classes; exact Hall.
  - rewrite Hframe; reflexivity.
Defined.

Lemma update_dataset_subsets_sets_witness :
  config_getattr
    (config (fst (update_dataset_subsets_config sample_dataset (config_manager sample_task))))
    ["data"; "train"; "ote_dataset"]
  = Ok (CObj (ODataset sample_dataset)).
Proof.
  assert (E : update_dataset_subsets_config sample_dataset (config_manager sample_task)
              = (fst (update_dataset_subsets_config sample_dataset
                        (config_manager sample_task)), Ok tt))
    by (vm_compute; reflexivity).
  destruct (proj1 (update_dataset_subsets_sets sample_dataset) _ _ E)
    as ((_ & Htrain & _) & _).
  exact Htrain.
Defined.

Lemma _get_custom_lr_schedule_sections_witness :
  exists schedule,
    _get_custom_lr_schedule sample_mmcv "schedules/step.py" = Ok schedule
    /\ dict_get "lr_config" schedule
       = Some (CDict [("policy", CStr "step"); ("step", CList [CInt 8; CInt 11])])
    /\ dict_get "momentum_config" schedule = None.
Proof.
  destruct (_get_custom_lr_schedule_sections sample_mmcv "schedules/step.py" _ eq_refl)
    as (schedule & Hrun & Hget).
  exists schedule. split; [exact Hrun|]. split; rewrite Hget; reflexivity.
Defined.

Lemma custom_schedule_restores_sections_witness :
  exists cm',
    _update_learning_rate_schedule sample_mmcv sample_config_mapper "custom" (PInt 0)
      sample_manager_without_optimizer = (cm', Ok tt)
    /\ dict_get "optimizer" (config cm') = None
    /\ dict_get "lr_config" (config cm') = Some (CDict [("policy", CStr "step")])
    /\ dict_get "seed" (config cm') = Some (CInt 42).
Proof.
  destruct (custom_schedule_restores_sections sample_mmcv sample_config_mapper (PInt 0)
              sample_manager_without_optimizer eq_refl) as (cm' & Hrun & _ & Hget).
  exists cm'. split; [exact Hrun|]. repeat split; rewrite Hget; reflexivity.
Defined.

Lemma update_project_configuration_without_optimizer_witness :
  exists e,
    snd (update_project_configuration sample_mmcv sample_config_mapper sample_parameters
           sample_manager_without_optimizer) = Err e
    /\ exn_cls e = AttributeError.
Proof.
  destruct (update_project_configuration_without_optimizer sample_mmcv sample_config_mapper
              sample_parameters sample_manager_without_optimizer eq_refl eq_refl)
    as (e & Hrun & He & _).
  exists e. split; assumption.
Defined.



Lemma _search_in_config_dict_finds_occurrences_witness :
  In (CInt 80, [KStr "model"; KStr "roi_head"; KStr "bbox_head"; KInt 1%nat])
    (_search_in_config_dict (CDict sample_cascade_config) (KStr "num_classes") [] [])
  /\ ~ In (CInt 80, [KStr "model"])
       (_search_in_config_dict (CDict sample_cascade_config) (KStr "num_classes") [] []).
Proof.
  assert (Hwf : wf (CDict sample_cascade_config) = true) by (vm_compute; reflexivity).
  split.
  - apply (_search_in_config_dict_finds_occurrences (KStr "num_classes") _ _ _ Hwf).
    reflexivity.
  - intros H.
    apply (_search_in_config_dict_finds_occurrences (KStr "num_classes") _ _ _ Hwf) in H.
    discriminate H.
Defined.

Lemma detection_shape_class_without_label_witness :
  detection_shape sample_config 640 480 (1 # 2) 5
    {| dx1 := 700; dy1 := 48; dx2 := 900; dy2 := 240; dscore := 9 # 10 |}
  = Err (PyErr IndexError "list index out of range" None).
Proof.
  apply (detection_shape_class_without_label sample_config 640 480 (1 # 2) 5 _
           (List.map (fun l => CObj (OLabel l)) sample_labels) eq_refl).
  - simpl. lia.
  - discriminate.
Defined.

Lemma _load_best_model_missing_checkpoint_witness :
  _load_best_model_and_check_if_model_improved sample_torch 0 true sample_world
  = (sample_world,
     Err (PyErr FileNotFoundError "/tmp/ote-scratch-0/latest.pth" None)).
Proof.
  apply (_load_best_model_missing_checkpoint sample_torch 0 true sample_world
           "/tmp/ote-scratch-0" eq_refl).
  reflexivity.
Defined.

Lemma _load_best_model_result_witness :
  snd (_load_best_model_and_check_if_model_improved checkpoint_torch 1 true
         sample_checkpoint_world) = Ok (VNum (3 # 4), false)
  /\ exists q, VNum (3 # 4) = VNum q /\ false = Qltb 1 q.
Proof.
  assert (E : _load_best_model_and_check_if_model_improved checkpoint_torch 1 true
                sample_checkpoint_world
              = (fst (_load_best_model_and_check_if_model_improved checkpoint_torch 1 true
                        sample_checkpoint_world), Ok (VNum (3 # 4), false)))
    by (vm_compute; reflexivity).
  split; [now rewrite E|].
  exact (proj1 (_load_best_model_result checkpoint_torch 1 true _ _ _ _ E)).
Defined.

Lemma compute_performance_threshold_witness :
  snd (_get_confidence false
         (fst (compute_performance sample_metrics sample_resultset sample_world)))
  = Ok (3 # 10)
  /\ snd (_get_confidence true
            (fst (compute_performance sample_metrics sample_resultset sample_world)))
     = Ok 0%Q.
Proof.
  pose proof (compute_performance_threshold sample_metrics sample_resultset sample_world
                _ eq_refl) as H.
  cbn [purpose sample_resultset sample_world task sample_task task_environment te_parameters
       sample_parameters postprocessing result_based_confidence_threshold
       best_confidence_threshold] in H.
  destruct H as (_ & Hanalyse & Heval). split; assumption.
Defined.

Lemma _create_training_checkpoint_dirs_creates_witness :
  snd (_create_training_checkpoint_dirs sample_mmcv sample_world)
  = Ok "/tmp/ote-scratch-0/checkpoints_round_0"
  /\ config_getattr
       (config (config_manager
                  (task (fst (_create_training_checkpoint_dirs sample_mmcv sample_world)))))
       ["work_dir"]
     = Ok (CStr "/tmp/ote-scratch-0/checkpoints_round_0")
  /\ is_Some (files (fs (fst (cancel_training
                                (fst (_create_training_checkpoint_dirs sample_mmcv
                                        sample_world)))))
                !! "/tmp/ote-scratch-0/checkpoints_round_0/.stop_training").
Proof.
  assert (E : _create_training_checkpoint_dirs sample_mmcv sample_world
              = (fst (_create_training_checkpoint_dirs sample_mmcv sample_world),
                 Ok "/tmp/ote-scratch-0/checkpoints_round_0"))
    by (vm_compute; reflexivity).
  destruct (_create_training_checkpoint_dirs_creates sample_mmcv _ _ _ E)
    as (_ & _ & _ & Hwd & _ & _ & _ & _ & Hstop).
  split; [now rewrite E|]. split; [exact Hwd | exact Hstop].
Defined.

Lemma _create_training_checkpoint_dirs_exists_witness :
  _create_training_checkpoint_dirs sample_mmcv sample_gap_world
  = (sample_gap_world,
     Err (PyErr FileExistsError
            (os_path_join (scratch_space (task sample_gap_world))
               ("checkpoints_round_"
                +:+ pretty (glob_count
                              (os_path_join (scratch_space (task sample_gap_world))
                                 "checkpoints_round_")
                              (fs sample_gap_world)))) None)).
Proof.
  apply (_create_training_checkpoint_dirs_exists sample_mmcv sample_gap_world).
  apply (bool_decide_unpack _). vm_compute. exact I.
Defined.

Lemma train_after_stale_cancel_witness :
  snd (train sample_mmcv sample_config_mapper sample_torch sample_mmdet no_cancel
         sample_dataset None sample_stale_world) = Ok NullModel
  /\ should_stop (task (fst (train sample_mmcv sample_config_mapper sample_torch sample_mmdet
                               no_cancel sample_dataset None sample_stale_world))) = false
  /\ is_training (task (fst (train sample_mmcv sample_config_mapper sample_torch sample_mmdet
                               no_cancel sample_dataset None sample_stale_world))) = false.
Proof.
  assert (E : train_setup sample_mmcv sample_mmdet no_cancel sample_dataset None
                sample_stale_world
              = (fst stale_setup,
                 Ok (fst (fst (fst (fst stale_locals))),
                     snd (fst (fst (fst stale_locals))),
                     snd (fst (fst stale_locals)),
                     snd (fst stale_locals),
                     snd stale_locals)))
    by (vm_compute; reflexivity).
  destruct (train_after_stale_cancel sample_mmcv sample_config_mapper sample_torch sample_mmdet
              no_cancel sample_dataset None sample_stale_world _ _ _ _ _ _ eq_refl E)
    as (Hret & Hstop & Htraining & _).
  split; [exact Hret|]. split; [exact Hstop | exact Htraining].
Defined.

Lemma train_cancelled_late_is_training_witness :
  is_training (task (fst (sample_train cancel_late))) = true
  /\ is_training (task sample_world) = false.
Proof.
  assert (E : train_setup sample_mmcv sample_mmdet cancel_late sample_dataset None sample_world
              = (fst (sample_setup cancel_late),
                 Ok (fst (fst (fst (fst (setup_locals cancel_late)))),
                     snd (fst (fst (fst (setup_locals cancel_late)))),
                     snd (fst (fst (setup_locals cancel_late))),
                     snd (fst (setup_locals cancel_late)),
                     snd (setup_locals cancel_late))))
    by (vm_compute; reflexivity).
  assert (T : _do_model_training sample_mmdet cancel_late
                (fst (fst (fst (fst (setup_locals cancel_late)))))
                (fst (sample_setup cancel_late))
              = (fst (_do_model_training sample_mmdet cancel_late
                        (fst (fst (fst (fst (setup_locals cancel_late)))))
                        (fst (sample_setup cancel_late))),
                 Ok 60%Q))
    by (vm_compute; reflexivity).
  split; [|reflexivity].
  exact (proj2 (train_cancelled_late_is_training sample_mmcv sample_config_mapper sample_torch
                  sample_mmdet _ _ _ _ _ _ _ _ _ _ _ _ E eq_refl T eq_refl)).
Defined.

Lemma train_finish_without_improvement_witness :
  snd (train_finish sample_mmcv sample_config_mapper checkpoint_torch sample_dataset
         None false 1 true 60 sample_retrained_world)
  = Ok (te_model sample_saved_environment)
  /\ is_training (task (fst (train_finish sample_mmcv sample_config_mapper checkpoint_torch
                               sample_dataset None false 1 true 60 sample_retrained_world)))
     = false.
Proof.
  assert (E : _load_best_model_and_check_if_model_improved checkpoint_torch 1 true
                sample_retrained_world
              = (fst (_load_best_model_and_check_if_model_improved checkpoint_torch 1 true
                        sample_retrained_world), Ok (VNum (3 # 4), false)))
    by (vm_compute; reflexivity).
  destruct (train_finish_without_improvement sample_mmcv sample_config_mapper checkpoint_torch
              sample_dataset None false 1 true 60 _ _ _ E eq_refl)
    as (Hret & _ & _ & _ & Htraining & _).
  split; [exact Hret | exact Htraining].
Defined.

Lemma train_finish_persists_witness :
  exists blob,
    snd (train_finish sample_mmcv sample_config_mapper checkpoint_torch sample_dataset
           None false 0 false 60 sample_checkpoint_world)
    = Ok (SavedModel blob {| score := 3 # 4; dashboard_metrics := sample_dashboard |}
            sample_dataset 60).
Proof.
  assert (E : _load_best_model_and_check_if_model_improved checkpoint_torch 0 false
                sample_checkpoint_world
              = (sample_best_world, Ok (VNum (3 # 4), false)))
    by (vm_compute; reflexivity).
  assert (P : _persist_new_model sample_mmcv checkpoint_torch sample_dataset
                {| score := 3 # 4; dashboard_metrics := sample_dashboard |} 60
                sample_best_world
              = (fst (_persist_new_model sample_mmcv checkpoint_torch sample_dataset
                        {| score := 3 # 4; dashboard_metrics := sample_dashboard |} 60
                        sample_best_world), Ok tt))
    by (vm_compute; reflexivity).
  destruct (train_finish_persists sample_mmcv sample_config_mapper checkpoint_torch
              sample_dataset None false 0 false 60 _ _ _ _ _ sample_dashboard
              E eq_refl eq_refl P)
    as (tm & text & _ & _ & Hret & _).
  eexists. exact Hret.
Defined.

Lemma load_model_without_saved_model_witness :
  snd (load_model sample_mmcv sample_torch sample_mmdet (task_environment sample_task)
         sample_world) = Ok tt
  /\ option_map training
       (inference_model
          (task (fst (load_model sample_mmcv sample_torch sample_mmdet
                        (task_environment sample_task) sample_world))))
     = Some false
  /\ option_map training
       (train_model
          (task (fst (load_model sample_mmcv sample_torch sample_mmdet
                        (task_environment sample_task) sample_world))))
     = Some true.
Proof.
  assert (E : _create_model sample_mmdet (config (config_manager (task sample_world))) false
                (set_task (set_task_environment (task_environment sample_task)
                             (task sample_world)) sample_world)
              = (fst (_create_model sample_mmdet (config (config_manager (task sample_world)))
                        false
                        (set_task (set_task_environment (task_environment sample_task)
                                     (task sample_world)) sample_world)),
                 Ok {| weights := [("backbone.weight", [0; 0]%Q)]; mcfg := None;
                       training := true |}))
    by (vm_compute; reflexivity).
  destruct (load_model_without_saved_model sample_mmcv sample_torch sample_mmdet
              sample_world _ (task_environment sample_task) "model = dict(...)" _
              eq_refl eq_refl E) as (Hret & Htrain & Hinf & _).
  split; [exact Hret|]. split; [now rewrite Hinf | now rewrite Htrain].
Defined.

Lemma persisted_model_reloads_witness :
  option_map state_dict
    (inference_model
       (task (fst (load_model sample_mmcv sample_torch sample_mmdet
                     (task_environment
                        (task (fst (_persist_new_model sample_mmcv sample_torch sample_dataset
                                      {| score := 3 # 4; dashboard_metrics := [] |} 60
                                      sample_trained_world))))
                     (fst (_persist_new_model sample_mmcv sample_torch sample_dataset
                             {| score := 3 # 4; dashboard_metrics := [] |} 60
                             sample_trained_world))))))
  = Some sample_weights.
Proof.
  assert (P : _persist_new_model sample_mmcv sample_torch sample_dataset
                {| score := 3 # 4; dashboard_metrics := [] |} 60 sample_trained_world
              = (fst (_persist_new_model sample_mmcv sample_torch sample_dataset
                        {| score := 3 # 4; dashboard_metrics := [] |} 60
                        sample_trained_world), Ok tt))
    by (vm_compute; reflexivity).
  destruct (persisted_model_reloads sample_mmcv sample_torch sample_mmdet sample_dataset
              {| score := 3 # 4; dashboard_metrics := [] |} 60 sample_trained_world _
              {| weights := sample_weights; mcfg := Some sample_config; training := true |}
              "model = dict(...)" sample_printed_config
              [("type", CStr "SingleStageDetector"); ("pretrained", CNone)]
              {| weights := [("backbone.weight", [0; 0]%Q)]; mcfg := None; training := true |}
              {| weights := sample_weights; mcfg := None; training := true |}
              P eq_refl eq_refl eq_refl eq_refl eq_refl eq_refl eq_refl)
    as (_ & Hinf & _).
  now rewrite Hinf.
Defined.

Lemma _replace_config_section_from_file_type_error_witness :
  exists e,
    _replace_config_section_from_file clashing_mmcv "clash.py" (config_manager sample_task)
    = (config_manager sample_task, Err e)
    /\ exn_cls e = TypeError.
Proof.
  apply (_replace_config_section_from_file_type_error clashing_mmcv "clash.py"
           (config_manager sample_task) [("seed", CDict [("value", CInt 1)])]
           "seed" [("value", CInt 1)] (CInt 42)); reflexivity.
Defined.

Lemma optimize_loaded_model_without_bin_file_witness :
  optimize_loaded_model binless_mmdet sample_sc_sdk sample_os sample_world
  = (sample_world,
     Err (PyErr RuntimeError "Optimization was unsuccessful."
            (Some (PyErr IndexError "list index out of range" None)))).
Proof.
  apply (optimize_loaded_model_without_bin_file binless_mmdet sample_sc_sdk sample_os
           sample_world ["otedet"; "model.xml"] eq_refl).
  repeat constructor.
Defined.
